(** * Product Siksha backend ([backend/app.py]): a shallow embedding

    The Flask application is modelled as pure functions over an explicit
    database state.  Python [str] values are Rocq strings (code points
    0..255), Python integers are [Z], nullable columns are [option]s, the
    [user_progress] table (primary key [(user_id, question_id)]) is a
    [gmap], and every clock read ([datetime.utcnow()]) and every outcome of
    [db.session.commit()] is an explicit argument of the handler that
    performs it. *)

From Stdlib Require Import ZArith String Ascii List Bool Lia Sorted Permutation.
From stdpp Require Import base option countable gmap strings pretty.

Local Open Scope string_scope.
Local Open Scope Z_scope.

(** ** Python [str] operations used by the application *)

Module PyStr.

Definition code (c : ascii) : Z := Z.of_N (N_of_ascii c).

(** [str.isspace] on one character, for code points below 256. *)
Definition isspace (c : ascii) : bool :=
  let n := code c in
  ((9 <=? n) && (n <=? 13)) || ((28 <=? n) && (n <=? 32))
  || (n =? 133) || (n =? 160).

(** [\d] of a [re] pattern over [str]: the decimal digits (below 256). *)
Definition isdigit (c : ascii) : bool :=
  let n := code c in (48 <=? n) && (n <=? 57).

(** A string is falsy exactly when it is empty. *)
Definition truthy (s : string) : bool :=
  match s with EmptyString => false | String _ _ => true end.

Fixpoint lstrip (s : string) : string :=
  match s with
  | EmptyString => EmptyString
  | String c s' => if isspace c then lstrip s' else s
  end.

Fixpoint rstrip (s : string) : string :=
  match s with
  | EmptyString => EmptyString
  | String c s' =>
      match rstrip s' with
      | EmptyString => if isspace c then EmptyString else String c EmptyString
      | r => String c r
      end
  end.

(** [s.strip()] *)
Definition strip (s : string) : string := rstrip (lstrip s).

(** [str.lower] on one character (code points below 256). *)
Definition lower_char (c : ascii) : ascii :=
  let n := code c in
  if ((65 <=? n) && (n <=? 90))
     || ((192 <=? n) && (n <=? 222) && negb (n =? 215))
  then ascii_of_N (Z.to_N (n + 32)) else c.

Fixpoint lower (s : string) : string :=
  match s with
  | EmptyString => EmptyString
  | String c s' => String (lower_char c) (lower s')
  end.

(** [s.replace(old, new)] for a non-empty [old]: the occurrences are found
    left to right and do not overlap.  [skip] counts the characters of an
    occurrence that are still to be dropped. *)
Fixpoint replace_from (old new : string) (skip : nat) (s : string) : string :=
  match s with
  | EmptyString => EmptyString
  | String c s' =>
      match skip with
      | S k => replace_from old new k s'
      | O =>
          if String.prefix old s
          then new ++ replace_from old new (Nat.pred (String.length old)) s'
          else String c (replace_from old new O s')
      end
  end.

Definition replace (old new s : string) : string := replace_from old new O s.

(** [s[:n]] *)
Definition take (n : nat) (s : string) : string := String.substring 0 n s.

(** [a < b] on [str]: lexicographic on code points, a proper prefix first. *)
Definition lt (a b : string) : bool := String.ltb a b.

(** [int(s)] for a string of decimal digits, possibly with surrounding
    white space (which [int] ignores). *)
Fixpoint int_digits (acc : Z) (s : string) : Z :=
  match s with
  | EmptyString => acc
  | String c s' => int_digits (10 * acc + (code c - 48)) s'
  end.

Definition int (s : string) : Z := int_digits 0 (strip s).

(** ["%0<w>d" % n] for [0 <= n < 10^w]. *)
Fixpoint zpad (w : nat) (n : Z) : string :=
  match w with
  | O => EmptyString
  | S w' => zpad w' (n / 10) ++ String (ascii_of_N (Z.to_N (48 + n mod 10))) EmptyString
  end.

(** [s.startswith(pre)] *)
Definition startswith (pre s : string) : bool := String.prefix pre s.

(** [c in s] for a character [c] *)
Fixpoint contains_char (c : ascii) (s : string) : bool :=
  match s with
  | EmptyString => false
  | String c' s' => Ascii.eqb c c' || contains_char c s'
  end.

Fixpoint until_char (c : ascii) (s : string) : string :=
  match s with
  | EmptyString => EmptyString
  | String c' s' => if Ascii.eqb c c' then EmptyString else String c' (until_char c s')
  end.

Fixpoint after_char (c : ascii) (s : string) : string :=
  match s with
  | EmptyString => EmptyString
  | String c' s' => if Ascii.eqb c c' then s' else after_char c s'
  end.

(** [s.split(',')[1]] for an [s] that contains a comma: the text between
    the first comma and the next one (or the end). *)
Definition split_comma_1 (s : string) : string :=
  until_char "," (after_char "," s).

End PyStr.

(** ** Naive [datetime] values *)

Record datetime : Type := mkdatetime {
  year : Z; month : Z; day : Z;
  hour : Z; minute : Z; second : Z; microsecond : Z
}.

Definition is_leap (y : Z) : bool :=
  ((y mod 4 =? 0) && negb (y mod 100 =? 0)) || (y mod 400 =? 0).

Definition days_in_month (y m : Z) : Z :=
  if m =? 2 then (if is_leap y then 29 else 28)
  else if (m =? 4) || (m =? 6) || (m =? 9) || (m =? 11) then 30
  else 31.

(** The checks of the [date] and [datetime] constructors ([ValueError]
    otherwise). *)
Definition valid_date (y m d : Z) : bool :=
  (1 <=? y) && (y <=? 9999) && (1 <=? m) && (m <=? 12)
  && (1 <=? d) && (d <=? days_in_month y m).

Definition valid_time (h mi s us : Z) : bool :=
  (0 <=? h) && (h <=? 23) && (0 <=? mi) && (mi <=? 59)
  && (0 <=? s) && (s <=? 59) && (0 <=? us) && (us <=? 999999).

Definition valid_datetime (d : datetime) : bool :=
  valid_date (year d) (month d) (day d)
  && valid_time (hour d) (minute d) (second d) (microsecond d).

(** [datetime.min] *)
Definition datetime_min : datetime := mkdatetime 1 1 1 0 0 0 0.

Definition dt_fields (d : datetime) : list Z :=
  year d :: month d :: day d :: hour d :: minute d :: second d
  :: microsecond d :: nil.

Fixpoint lex_compare (a b : list Z) : comparison :=
  match a, b with
  | nil, nil => Eq
  | nil, _ :: _ => Lt
  | _ :: _, nil => Gt
  | x :: a', y :: b' =>
      match x ?= y with Eq => lex_compare a' b' | c => c end
  end.

(** Naive [datetime]s compare field by field, most significant first. *)
Definition dt_compare (a b : datetime) : comparison :=
  lex_compare (dt_fields a) (dt_fields b).

Definition dt_lt (a b : datetime) : bool :=
  match dt_compare a b with Lt => true | _ => false end.

Definition dt_le (a b : datetime) : bool := negb (dt_lt b a).

(** [d.replace(hour=23, minute=59, second=59)] *)
Definition end_of_day (d : datetime) : datetime :=
  mkdatetime (year d) (month d) (day d) 23 59 59 (microsecond d).

(** [d.isoformat()]: the fraction is printed only when it is not zero. *)
Definition isoformat (d : datetime) : string :=
  PyStr.zpad 4 (year d) ++ "-" ++ PyStr.zpad 2 (month d) ++ "-"
  ++ PyStr.zpad 2 (day d) ++ "T" ++ PyStr.zpad 2 (hour d) ++ ":"
  ++ PyStr.zpad 2 (minute d) ++ ":" ++ PyStr.zpad 2 (second d)
  ++ (if microsecond d =? 0 then "" else "." ++ PyStr.zpad 6 (microsecond d)).

(** ** The part of [re] that [datetime.strptime] relies on

    [strptime] turns a format into a regular expression with one named
    group per directive and calls [match] on the data.  The matcher below is
    the backtracking search of [re]: alternatives are tried left to right,
    [+] is greedy, and the first way to match wins. *)

Module Re.

Inductive re : Type :=
| Lit (c : ascii)                 (* a literal character *)
| Cls (p : ascii -> bool)         (* a character class *)
| Seq (r1 r2 : re)
| Alt (r1 r2 : re)
| Plus (p : ascii -> bool)        (* [c+] for a character class [c] *)
| Grp (name : string) (r : re).   (* [(?P<name>r)] *)

Definition groups : Type := list (string * string).

(** The greedy tail of [c+]: as many further [c] as the rest allows. *)
Fixpoint star_rest {R : Type} (p : ascii -> bool) (s : string)
    (k : string -> option R) : option R :=
  match s with
  | String c s' =>
      if p c then
        match star_rest p s' k with
        | Some r => Some r
        | None => k s
        end
      else k s
  | EmptyString => k s
  end.

Fixpoint run {R : Type} (r : re) (s : string) (g : groups)
    (k : string -> groups -> option R) : option R :=
  match r with
  | Lit c =>
      match s with
      | String c' s' => if Ascii.eqb c c' then k s' g else None
      | EmptyString => None
      end
  | Cls p =>
      match s with
      | String c' s' => if p c' then k s' g else None
      | EmptyString => None
      end
  | Seq r1 r2 => run r1 s g (fun s' g' => run r2 s' g' k)
  | Alt r1 r2 =>
      match run r1 s g k with
      | Some x => Some x
      | None => run r2 s g k
      end
  | Plus p =>
      match s with
      | String c' s' => if p c' then star_rest p s' (fun s'' => k s'' g) else None
      | EmptyString => None
      end
  | Grp name r =>
      run r s g (fun s' g' =>
        k s' ((name, String.substring 0 (String.length s - String.length s') s) :: g'))
  end.

(** [pattern.match(s)]: the groups of the first match at the start of [s]
    and the text that the match leaves over. *)
Definition rmatch (r : re) (s : string) : option (groups * string) :=
  run r s nil (fun rest g => Some (g, rest)).

Fixpoint group (g : groups) (name : string) : option string :=
  match g with
  | nil => None
  | (n, v) :: g' => if String.eqb n name then Some v else group g' name
  end.

Definition range (lo hi : Z) (c : ascii) : bool :=
  (lo <=? PyStr.code c) && (PyStr.code c <=? hi).

Definition chr (s : string) : ascii :=
  match s with String c _ => c | EmptyString => Ascii.zero end.

Definition d09 : re := Cls PyStr.isdigit.            (* \d     *)
Definition c (s : string) : re := Lit (chr s).
Definition cls (lo hi : string) : re :=
  Cls (range (PyStr.code (chr lo)) (PyStr.code (chr hi))).

Declare Scope re_scope.
Delimit Scope re_scope with re.
Infix "<.>" := Seq (at level 41, right associativity) : re_scope.
Infix "<|>" := Alt (at level 42, right associativity) : re_scope.

End Re.

(** ** [datetime.strptime] for the three formats of the application *)

Module Strptime.
Import Re.
Local Open Scope re_scope.

Inductive format : Type :=
| F_mdY_HMS     (* '%m/%d/%Y %H:%M:%S' *)
| F_mdY         (* '%m/%d/%Y' *)
| F_Ymd.        (* '%Y-%m-%d' *)

(** The directive table of [_strptime.TimeRE]. *)
(* 'm': (?P<m>1[0-2]|0[1-9]|[1-9]) *)
Definition re_m : re :=
  Grp "m" ((c "1" <.> cls "0" "2") <|> (c "0" <.> cls "1" "9") <|> cls "1" "9").
(* 'd': (?P<d>3[0-1]|[1-2]\d|0[1-9]|[1-9]| [1-9]) *)
Definition re_d : re :=
  Grp "d" ((c "3" <.> cls "0" "1") <|> (cls "1" "2" <.> d09)
           <|> (c "0" <.> cls "1" "9") <|> cls "1" "9" <|> (c " " <.> cls "1" "9")).
(* 'Y': (?P<Y>\d\d\d\d) *)
Definition re_Y : re := Grp "Y" (d09 <.> d09 <.> d09 <.> d09).
(* 'H': (?P<H>2[0-3]|[0-1]\d|\d) *)
Definition re_H : re :=
  Grp "H" ((c "2" <.> cls "0" "3") <|> (cls "0" "1" <.> d09) <|> d09).
(* 'M': (?P<M>[0-5]\d|\d) *)
Definition re_M : re := Grp "M" ((cls "0" "5" <.> d09) <|> d09).
(* 'S': (?P<S>6[0-1]|[0-5]\d|\d) *)
Definition re_S : re :=
  Grp "S" ((c "6" <.> cls "0" "1") <|> (cls "0" "5" <.> d09) <|> d09).

(** [TimeRE.pattern]: each directive is replaced by its entry and each run
    of white space in the format by [\s+]; the rest is literal. *)
Definition pattern (f : format) : re :=
  match f with
  | F_mdY_HMS =>
      re_m <.> c "/" <.> re_d <.> c "/" <.> re_Y <.> Plus PyStr.isspace
      <.> re_H <.> c ":" <.> re_M <.> c ":" <.> re_S
  | F_mdY => re_m <.> c "/" <.> re_d <.> c "/" <.> re_Y
  | F_Ymd => re_Y <.> c "-" <.> re_m <.> c "-" <.> re_d
  end.

(** The value of a directive of the match, [dflt] when the format has no
    such directive. *)
Definition field (g : groups) (name : string) (dflt : Z) : Z :=
  match group g name with
  | Some v => PyStr.int v
  | None => dflt
  end.

(** [datetime.strptime(data, format)]; [None] stands for [ValueError]: the
    data does not match, text remains after the match, or the fields are
    not a date and time. *)
Definition strptime (data : string) (f : format) : option datetime :=
  match rmatch (pattern f) data with
  | None => None
  | Some (g, rest) =>
      if PyStr.truthy rest then None
      else
        let y := field g "Y" 1900 in
        let m := field g "m" 1 in
        let d := field g "d" 1 in
        let h := field g "H" 0 in
        let mi := field g "M" 0 in
        let s := field g "S" 0 in
        if valid_date y m d && valid_time h mi s 0
        then Some (mkdatetime y m d h mi s 0)
        else None
  end.

End Strptime.

Import Strptime.

(** [parse_timestamp(ts_string)] *)
Definition parse_timestamp (ts_string : option string) : option datetime :=
  match ts_string with
  | None => None
  | Some s =>
      if negb (PyStr.truthy s) then None
      else
        match strptime (PyStr.strip s) F_mdY_HMS with
        | Some d => Some d
        | None =>
            match strptime (PyStr.strip s) F_mdY with
            | Some d => Some d
            | None =>
                match strptime (PyStr.strip s) F_Ymd with
                | Some d => Some d
                | None => None
                end
            end
        end
  end.

(** ** [list.sort(key=..., reverse=...)]

    Python's sort is stable and compares keys with [<] only; with
    [reverse=True] the list is reversed, sorted and reversed again, which
    keeps equal keys in their original order. *)

Section PySort.
Context {A K : Type} (key : A -> K) (lt : K -> K -> bool).

Fixpoint insert_stable (x : A) (l : list A) : list A :=
  match l with
  | nil => x :: nil
  | y :: l' =>
      if lt (key y) (key x) then y :: insert_stable x l' else x :: y :: l'
  end.

Fixpoint sort_stable (l : list A) : list A :=
  match l with
  | nil => nil
  | x :: l' => insert_stable x (sort_stable l')
  end.

Definition py_sort (reverse : bool) (l : list A) : list A :=
  if reverse then rev (sort_stable (rev l)) else sort_stable l.

(** The order of two elements by their keys. *)
Definition key_le (x y : A) : Prop := lt (key y) (key x) = false.
Definition key_ge (x y : A) : Prop := lt (key x) (key y) = false.
End PySort.

(** ** Models (the three tables) *)

Record User : Type := mkUser {
  u_id : Z;
  u_email : string;
  u_password_hash : string;
  u_created_at : datetime
}.

Record Question : Type := mkQuestion {
  q_id : Z;
  q_timestamp : option string;   (* a string column, as in the CSV *)
  q_company : option string;
  q_question : option string;
  q_question_type : option string;
  q_interview_type : option string;
  q_comments : option string;
  q_job_title : option string;
  q_company_normalized : option string;
  q_question_category : option string
}.

(** A row of [user_progress]; its key [(user_id, question_id)] is the key of
    the table. *)
Record UserProgress : Type := mkUserProgress {
  is_completed : bool;
  completed_at : option datetime
}.

Record Db : Type := mkDb {
  users : list User;
  questions : list Question;
  user_progress : gmap (Z * Z) UserProgress
}.

(** The outcome of [db.session.commit()]: it returns, or raises with a
    message (after which the handler rolls the session back). *)
Inductive commit_result : Type :=
| CommitOk
| CommitFail (msg : string).

(** ** Responses *)

Record q_dict : Type := mk_q_dict {
  qd_id : Z;
  qd_timestamp : option string;
  qd_company : option string;
  qd_question : option string;
  qd_question_type : option string;
  qd_interview_type : option string;
  qd_comments : option string;
  qd_job_title : option string;
  qd_company_normalized : option string;
  qd_question_category : option string;
  qd_is_completed : bool;
  qd_completed_at : option string
}.

Record category_entry : Type := mk_category_entry {
  ce_name : string;
  ce_path : string;
  ce_count : Z
}.

Inductive body : Type :=
| BError (error : string)
| BAuth (token : string) (user_id : Z) (user_email : string) (message : option string)
| BQuestions (category : string) (count : Z) (qs : list q_dict)
| BToggle (question_id : Z) (completed : bool)
| BCategories (cs : list category_entry)
| BFeedback (feedback : string) (model : string) (files_processed : option Z)
| BFeedbackError (error : string) (feedback : string)
| BUnhandled.   (* an exception that no handler catches *)

Record response : Type := mkResponse { status : Z; payload : body }.

(** ** PyJWT, as far as the application sees it *)

Record claims : Type := mkClaims {
  c_user_id : option Z;
  c_email : option string;
  c_exp : option Z      (* seconds since the epoch *)
}.

(** The outcome of [jwt.decode]: the payload, [ExpiredSignatureError], or
    another [InvalidTokenError] (bad structure, bad signature). *)
Inductive jwt_result : Type :=
| JwtOk (payload : claims)
| JwtExpired
| JwtInvalid.

(** [datetime.utcnow() + timedelta(hours=24)] as PyJWT stores it in [exp]:
    whole seconds since the epoch.  [now_us] is the clock reading in
    microseconds since the epoch. *)
Definition exp_in_24h (now_us : Z) : Z := now_us / 1000000 + 24 * 3600.

(** ** Request data *)

Record credentials : Type := mkCredentials {
  cr_email : option string;       (* [None]: the key is absent *)
  cr_password : option string
}.

Record question_args : Type := mkArgs {
  arg_company : option string;
  arg_from_date : option string;
  arg_to_date : option string
}.

Record attachment : Type := mkAttachment {
  f_name : option string;
  f_type : option string;
  f_base64 : option string
}.

Record feedback_request : Type := mkFeedbackRequest {
  fr_question : option string;
  fr_answer : option string;
  fr_prompt : option string;
  fr_files : option (list attachment)
}.

(** [d.get(key, default)] *)
Definition get {A : Type} (v : option A) (dflt : A) : A :=
  match v with Some x => x | None => dflt end.

Inductive content_part : Type :=
| PartText (text : string)
| PartBlob (mime_type : string) (data : string).
(** The texts of [get_ai_feedback]. *)
Definition demo_head : string :=
"**AI Feedback** (Demo Mode - No API Key)

Thank you for your message! Here's some structured feedback:

**Your Question Context:**
This is about: ".

Definition demo_middle : string :=
"...

**Strengths:**
- You're actively practicing PM interview questions
- Seeking feedback shows growth mindset

**Guidance:**
- Structure your answer using frameworks like CIRCLES, STAR, or RICE
- Include specific metrics and success measures
- Consider multiple stakeholder perspectives

**Next Steps:**
- Try answering the question before asking for feedback
- Focus on quantifiable outcomes".

Definition demo_tail : string :=
"

*Note: Connect your Google Gemini API key for personalized AI feedback.*".

Definition system_prompt : string :=
"You are an expert PM interview coach having a conversation with a candidate. 
Your role is to help them prepare for product management interviews through constructive, actionable feedback.

Be conversational and encouraging but honest. Adapt your response to what the candidate asks:
- If they share an answer, provide structured feedback (Strengths, Areas for Improvement, Suggested Framework)
- If they ask a clarifying question, answer it directly
- If they share a diagram or image, analyze it and provide feedback on their visual communication
- Keep responses focused and not too long

Remember the context: This is about the PM interview question provided.".

Definition default_prompt : string :=
  "Please analyze my answer and provide feedback.".

(** The slug table of [get_companies] and [get_questions]. *)
Definition category_map : list (string * string) :=
  ("product-design", "Product Design")
  :: ("execution-metrics", "Execution & Metrics")
  :: ("product-strategy", "Product Strategy")
  :: ("behavioral", "Behavioral")
  :: ("estimation-pricing", "Estimation & Pricing")
  :: ("technical", "Technical")
  :: ("other", "Other") :: nil.

Fixpoint dict_get (d : list (string * string)) (k : string) : option string :=
  match d with
  | nil => None
  | (k', v) :: d' => if String.eqb k' k then Some v else dict_get d' k
  end.

(** SQL [column = value]: never true on [NULL]. *)
Definition sql_eq (column : option string) (v : string) : bool :=
  match column with Some x => String.eqb x v | None => false end.

Definition is_some {A : Type} (o : option A) : bool :=
  match o with Some _ => true | None => false end.

(** The date arguments of [get_questions] and [get_companies]: an empty or
    malformed argument leaves the bound unset. *)
Definition parse_from_date (from_date_str : string) : option datetime :=
  if PyStr.truthy from_date_str then strptime from_date_str F_Ymd else None.

Definition parse_to_date (to_date_str : string) : option datetime :=
  if PyStr.truthy to_date_str then
    match strptime to_date_str F_Ymd with
    | Some d => Some (end_of_day d)
    | None => None
    end
  else None.

(** The date test of the loop of [get_questions]: [true] when the row is
    kept, [false] where the loop [continue]s. *)
Definition date_keep (from_date to_date : option datetime) (q : Question) : bool :=
  if is_some from_date || is_some to_date then
    match parse_timestamp (q_timestamp q) with
    | Some row_date =>
        if (match from_date with Some f => dt_lt row_date f | None => false end)
        then false
        else if (match to_date with Some t => dt_lt t row_date | None => false end)
        then false
        else true
    | None => false
    end
  else true.

Definition make_q_dict (q : Question) (up : option UserProgress) : q_dict :=
  {| qd_id := q_id q;
     qd_timestamp := q_timestamp q;
     qd_company := q_company q;
     qd_question := q_question q;
     qd_question_type := q_question_type q;
     qd_interview_type := q_interview_type q;
     qd_comments := q_comments q;
     qd_job_title := q_job_title q;
     qd_company_normalized := q_company_normalized q;
     qd_question_category := q_question_category q;
     qd_is_completed :=
       match up with Some p => is_completed p | None => false end;
     qd_completed_at :=
       match up with
       | Some p =>
           match completed_at p with
           | Some t => Some (isoformat t)
           | None => None
           end
       | None => None
       end |}.

(** The query of [get_questions]: the questions of the category (and of the
    company, when one is given), each with the progress row of the user, if
    there is one. *)
Definition select_questions (db : Db) (user_id : Z) (category_name company_filter : string)
    : list (Question * option UserProgress) :=
  List.map (fun q => (q, user_progress db !! (user_id, q_id q)))
    (List.filter
       (fun q =>
          sql_eq (q_question_category q) category_name
          && (if PyStr.truthy company_filter
              then sql_eq (q_company_normalized q) company_filter else true))
       (questions db)).

(** Sort keys of the two blocks. *)
Definition completed_key (x : q_dict) : string := get (qd_completed_at x) "".
Definition uncompleted_key (x : q_dict) : datetime :=
  get (parse_timestamp (qd_timestamp x)) datetime_min.

(** [get_questions(category)] for the user [user_id] that [token_required]
    has put in [g]. *)
Definition get_questions (db : Db) (user_id : Z) (category : string)
    (args : question_args) : response :=
  let category_name := get (dict_get category_map category) category in
  let company_filter := get (arg_company args) "" in
  let from_date := parse_from_date (get (arg_from_date args) "") in
  let to_date := parse_to_date (get (arg_to_date args) "") in
  let results := select_questions db user_id category_name company_filter in
  let final_questions :=
    List.map (fun r => make_q_dict (fst r) (snd r))
      (List.filter (fun r => date_keep from_date to_date (fst r)) results) in
  let completed_questions := List.filter qd_is_completed final_questions in
  let uncompleted_questions :=
    List.filter (fun q => negb (qd_is_completed q)) final_questions in
  let completed_questions := py_sort completed_key PyStr.lt false completed_questions in
  let uncompleted_questions := py_sort uncompleted_key dt_lt true uncompleted_questions in
  let final_list := (completed_questions ++ uncompleted_questions)%list in
  mkResponse 200
    (BQuestions category_name (Z.of_nat (length final_list)) final_list).

(** The rows that [toggle_question_completion] writes. *)
Definition toggle_row (progress : option UserProgress) (now : datetime) : UserProgress :=
  match progress with
  | Some p =>
      let c := negb (is_completed p) in
      {| is_completed := c; completed_at := if c then Some now else None |}
  | None => {| is_completed := true; completed_at := Some now |}
  end.

(** [toggle_question_completion(question_id)] for the user [user_id]; [now]
    is the reading of [datetime.utcnow()]. *)
Definition toggle_question_completion (db : Db) (user_id question_id : Z)
    (now : datetime) (commit : commit_result) : response * Db :=
  let progress := user_progress db !! (user_id, question_id) in
  let row := toggle_row progress now in
  let new_status := is_completed row in
  match commit with
  | CommitOk =>
      (mkResponse 200 (BToggle question_id new_status),
       mkDb (users db) (questions db)
            (<[(user_id, question_id) := row]> (user_progress db)))
  | CommitFail e => (mkResponse 500 (BError e), db)
  end.

(** [get_categories()]: the labels that occur (not [NULL], not empty), each
    with its number of questions, the largest count first. *)
Definition slug (category_name : string) : string :=
  PyStr.replace " " "-" (PyStr.replace " & " "-" (PyStr.lower category_name)).

Definition labels (qs : list Question) : list string :=
  List.flat_map
    (fun q => match q_question_category q with
              | Some l => if PyStr.truthy l then l :: nil else nil
              | None => nil
              end) qs.

Fixpoint distinct (l : list string) : list string :=
  match l with
  | nil => nil
  | x :: l' => x :: List.filter (fun y => negb (String.eqb x y)) (distinct l')
  end.

Definition count_label (qs : list Question) (l : string) : Z :=
  Z.of_nat (length (List.filter (String.eqb l) (labels qs))).

Definition group_by_category (qs : list Question) : list (string * Z) :=
  py_sort snd Z.ltb true
    (List.map (fun l => (l, count_label qs l)) (distinct (labels qs))).

Definition get_categories (db : Db) : response :=
  mkResponse 200
    (BCategories
       (List.map (fun r => mk_category_entry (fst r) (slug (fst r)) (snd r))
          (group_by_category (questions db)))).

(** ** Handlers that depend on the configuration and on libraries

    The signing secret and the Gemini key come from the environment;
    [hashlib.sha256(..).hexdigest()], [jwt.encode], [jwt.decode] (which
    reads the clock, here [now_us] microseconds since the epoch),
    [base64.b64decode], the set-up of the Gemini client and the Gemini call
    are library functions and stay abstract. *)

Section App.
Variable SECRET_KEY : string.
Variable GEMINI_API_KEY : string.
Variable sha256_hexdigest : string -> string.
Variable jwt_encode : claims -> string -> string.
Variable jwt_decode : string -> string -> Z -> jwt_result.
Variable b64decode : string -> option string.
(* [import google.generativeai as genai], [genai.configure(api_key=..)] and
   [genai.GenerativeModel(name)]: the model, or the message of the exception
   that one of the three raises; the model is its
   [generate_content(parts).text], a text or the message of the exception *)
Variable generative_model :
  string -> string -> (list content_part -> string + string) + string.

Definition hash_password (password : string) : string :=
  sha256_hexdigest password.

(** [token_required(f)]: [authorization] is the header, if present; [fail]
    turns a rejection into the result type of the wrapped handler. *)
Definition token_required {R : Type} (fail : response -> R)
    (authorization : option string) (now_us : Z) (f : Z -> string -> R) : R :=
  let token := PyStr.replace "Bearer " "" (get authorization "") in
  if negb (PyStr.truthy token)
  then fail (mkResponse 401 (BError "Token required"))
  else
    match jwt_decode token SECRET_KEY now_us with
    | JwtOk p =>
        match c_user_id p, c_email p with
        | Some user_id, Some email => f user_id email
        | _, _ => fail (mkResponse 500 BUnhandled)     (* KeyError *)
        end
    | JwtExpired => fail (mkResponse 401 (BError "Token expired"))
    | JwtInvalid => fail (mkResponse 401 (BError "Invalid token"))
    end.

Definition issue_token (user_id : Z) (email : string) (now_us : Z) : string :=
  jwt_encode
    {| c_user_id := Some user_id; c_email := Some email;
       c_exp := Some (exp_in_24h now_us) |}
    SECRET_KEY.

(** [login()] *)
Definition login (db : Db) (data : credentials) (now_us : Z) : response :=
  let email := PyStr.lower (PyStr.strip (get (cr_email data) "")) in
  let password := get (cr_password data) "" in
  if negb (PyStr.truthy email) || negb (PyStr.truthy password)
  then mkResponse 400 (BError "Email and password required")
  else
    match List.find
            (fun u => String.eqb (u_email u) email
                      && String.eqb (u_password_hash u) (hash_password password))
            (users db) with
    | None => mkResponse 401 (BError "Invalid credentials")
    | Some user =>
        mkResponse 200
          (BAuth (issue_token (u_id user) (u_email user) now_us)
             (u_id user) (u_email user) None)
    end.

(** The primary key that the table gives a new user. *)
Definition next_user_id (db : Db) : Z :=
  1 + List.fold_right (fun u m => Z.max (u_id u) m) 0 (users db).

(** [signup()]; [created_at] is the clock reading for the column default. *)
Definition signup (db : Db) (data : credentials) (created_at : datetime)
    (now_us : Z) (commit : commit_result) : response * Db :=
  let email := PyStr.lower (PyStr.strip (get (cr_email data) "")) in
  let password := get (cr_password data) "" in
  if negb (PyStr.truthy email) || negb (PyStr.truthy password)
  then (mkResponse 400 (BError "Email and password required"), db)
  else if Z.of_nat (String.length password) <? 6
  then (mkResponse 400 (BError "Password must be at least 6 characters"), db)
  else if is_some (List.find (fun u => String.eqb (u_email u) email) (users db))
  then (mkResponse 400 (BError "Email already registered"), db)
  else
    match commit with
    | CommitOk =>
        let new_user :=
          mkUser (next_user_id db) email (hash_password password) created_at in
        (mkResponse 201
           (BAuth (issue_token (u_id new_user) (u_email new_user) now_us)
              (u_id new_user) email (Some "Account created successfully")),
         mkDb (users db ++ new_user :: nil)%list (questions db) (user_progress db))
    | CommitFail e =>
        (mkResponse 500 (BError ("Registration failed: " ++ e)%string), db)
    end.

(** The two protected routes. *)
Definition route_get_questions (db : Db) (authorization : option string)
    (now_us : Z) (category : string) (args : question_args) : response :=
  token_required (fun r => r) authorization now_us
    (fun user_id _ => get_questions db user_id category args).

Definition route_toggle (db : Db) (authorization : option string)
    (now_us : Z) (question_id : Z) (now : datetime) (commit : commit_result)
    : response * Db :=
  token_required (fun r => (r, db)) authorization now_us
    (fun user_id _ => toggle_question_completion db user_id question_id now commit).

(** [get_ai_feedback()]: the files with an image type, and the parts made
    of those whose payload decodes. *)
Definition is_image (f : attachment) : bool :=
  PyStr.startswith "image/" (get (f_type f) "").

Definition image_parts (files : list attachment) : list content_part :=
  List.flat_map
    (fun f =>
       if is_image f && PyStr.truthy (get (f_base64 f) "") then
         let base64_str := get (f_base64 f) "" in
         let base64_str :=
           if PyStr.contains_char "," base64_str then PyStr.split_comma_1 base64_str
           else base64_str in
         match b64decode base64_str with
         | Some image_bytes => PartBlob (get (f_type f) "") image_bytes :: nil
         | None => nil
         end
       else nil)
    files.

Definition nl : string := String (ascii_of_nat 10) EmptyString.

Definition file_mention (files : list attachment) : string :=
  match files with
  | nil => ""
  | _ :: _ =>
      (nl ++ nl ++ "*Note: You attached " ++ pretty (length files)
       ++ " file(s). In demo mode, file analysis is not available.*")%string
  end.

Definition demo_feedback (question : string) (files : list attachment) : string :=
  (demo_head ++ PyStr.take 100 question ++ demo_middle ++ file_mention files
   ++ demo_tail)%string.

(** [get_ai_feedback()]: the response and the calls made to the Gemini
    service.  Everything from the import to the call is in one [try]: an
    exception of the set-up is answered like one of the call, but no call
    is made then. *)
Definition service_error (e : string) : response :=
  mkResponse 500
    (BFeedbackError ("AI service error: " ++ e)%string
       "Unable to get AI feedback at this time. Please try again.").

Definition get_ai_feedback (data : feedback_request)
    : response * list (list content_part) :=
  let question := get (fr_question data) "" in
  let answer := get (fr_answer data) "" in
  let prompt := get (fr_prompt data) default_prompt in
  let files := get (fr_files data) nil in
  if negb (PyStr.truthy question)
  then (mkResponse 400 (BError "Question is required"), nil)
  else
    let user_request :=
      if negb (PyStr.truthy (PyStr.strip answer))
      then ("I haven't written an answer yet. " ++ prompt
            ++ " Please provide guidance on how to approach this question.")%string
      else if PyStr.truthy prompt then prompt else default_prompt in
    if negb (PyStr.truthy GEMINI_API_KEY)
    then (mkResponse 200 (BFeedback (demo_feedback question files) "demo" None), nil)
    else
      match generative_model GEMINI_API_KEY "gemini-2.0-flash-exp" with
      | inr e => (service_error e, nil)
      | inl generate_content =>
          let context :=
            (system_prompt ++ nl ++ nl ++ "**Interview Question:** " ++ question
             ++ nl ++ nl ++ "**Candidate's Answer/Message:** "
             ++ (if PyStr.truthy answer then answer else "(No answer provided yet)")
             ++ nl ++ nl ++ "**Candidate's Request:** " ++ user_request ++ nl)%string in
          let content_parts :=
            (PartText context :: image_parts files
             ++ PartText (nl ++ "Please provide your response:")%string :: nil)%list in
          match generate_content content_parts with
          | inl text =>
              (mkResponse 200
                 (BFeedback text "gemini-2.0-flash-exp"
                    (Some (Z.of_nat (length (List.filter is_image files))))),
               content_parts :: nil)
          | inr e => (service_error e, content_parts :: nil)
          end
      end.

End App.

(** * Vocabulary of the properties *)

(** ** Orders and keys *)

(** The order of the completion keys: an absent time first. *)
Definition opt_dt_lt (a b : option datetime) : bool :=
  match a, b with
  | None, None => false
  | None, Some _ => true
  | Some _, None => false
  | Some x, Some y => dt_lt x y
  end.

Definition opt_dt_le (a b : option datetime) : bool := negb (opt_dt_lt b a).

(** The character of a decimal digit, and the fraction of [isoformat]. *)
Definition digit (d : Z) : ascii := ascii_of_N (Z.to_N (48 + d)).

Definition fraction (us : Z) : string :=
  if us =? 0 then "" else "." ++ PyStr.zpad 6 us.

(** The key of the completed block, on the stored time. *)
Definition iso_key (t : option datetime) : string :=
  get (match t with Some x => Some (isoformat x) | None => None end) "".

Definition opt_valid (t : option datetime) : bool :=
  match t with Some x => valid_datetime x | None => true end.

(** ** The question list *)

(** The list in the body of a response of [get_questions]. *)
Definition response_questions (r : response) : list q_dict :=
  match payload r with
  | BQuestions _ _ qs => qs
  | _ => nil
  end.

(** The label that a slug stands for; an unknown slug stands for itself. *)
Definition category_name_of (category : string) : string :=
  get (dict_get category_map category) category.

(** The joined rows that pass the date test, in the order of the query. *)
Definition kept_rows (db : Db) (user_id : Z) (category : string)
    (args : question_args) : list (Question * option UserProgress) :=
  List.filter
    (fun r => date_keep (parse_from_date (get (arg_from_date args) ""))
                (parse_to_date (get (arg_to_date args) "")) (fst r))
    (select_questions db user_id (category_name_of category)
       (get (arg_company args) "")).

(** A joined row: its dictionary, its completed flag, its completion
    time. *)
Definition row_dict (r : Question * option UserProgress) : q_dict :=
  make_q_dict (fst r) (snd r).

Definition row_completed (r : Question * option UserProgress) : bool :=
  match snd r with Some p => is_completed p | None => false end.

Definition row_completed_at (r : Question * option UserProgress) : option datetime :=
  match snd r with Some p => completed_at p | None => None end.

(** The parsed time of the question, the earliest time when it has none. *)
Definition row_time (r : Question * option UserProgress) : datetime :=
  get (parse_timestamp (q_timestamp (fst r))) datetime_min.

(** Every stored completion time is a [datetime]. *)
Definition completion_times_valid (db : Db) : Prop :=
  forall k p t,
    user_progress db !! k = Some p -> completed_at p = Some t ->
    valid_datetime t = true.

(** The first value of a list of attempts. *)
Fixpoint first_success (attempts : list (option datetime)) : option datetime :=
  match attempts with
  | nil => None
  | Some d :: _ => Some d
  | None :: rest => first_success rest
  end.

(** ** Completion toggle *)

(** The completed flag that a question shows for a user: no row counts as
    not completed. *)
Definition effective_completed (db : Db) (user_id question_id : Z) : bool :=
  match user_progress db !! (user_id, question_id) with
  | Some p => is_completed p
  | None => false
  end.

(** A toggle request as the handler sees it. *)
Record toggle_call : Type := mkToggleCall {
  tc_user : Z;
  tc_question : Z;
  tc_now : datetime;
  tc_commit : commit_result
}.

Definition tc_key (c : toggle_call) : Z * Z := (tc_user c, tc_question c).

Definition apply_toggle (db : Db) (c : toggle_call) : Db :=
  snd (toggle_question_completion db (tc_user c) (tc_question c) (tc_now c)
         (tc_commit c)).

(** The database after a sequence of toggle requests. *)
Definition run_toggles (db : Db) (calls : list toggle_call) : Db :=
  List.fold_left apply_toggle calls db.

Definition committed (c : toggle_call) : bool :=
  match tc_commit c with CommitOk => true | CommitFail _ => false end.

(** [c] does not write the row [k]. *)
Definition leaves (k : Z * Z) (c : toggle_call) : Prop :=
  tc_key c <> k \/ committed c = false.

(** The invariant of a row, as the data model words it. *)
Definition row_ok (p : UserProgress) : Prop :=
  (is_completed p = false -> completed_at p = None)
  /\ (is_completed p = true -> exists t, completed_at p = Some t).

(** The invariant of a row [p] with key [k] after the requests [calls]:
    not completed and without a time, or completed with the time of the
    request that last wrote the row, a request that answered "completed". *)
Definition row_invariant (db0 : Db) (calls : list toggle_call) (k : Z * Z)
    (p : UserProgress) : Prop :=
  (is_completed p = false /\ completed_at p = None)
  \/ (is_completed p = true
      /\ exists pre c post,
           calls = (pre ++ c :: post)%list
           /\ tc_key c = k /\ committed c = true
           /\ completed_at p = Some (tc_now c)
           /\ fst (toggle_question_completion (run_toggles db0 pre)
                     (tc_user c) (tc_question c) (tc_now c) (tc_commit c))
              = mkResponse 200 (BToggle (tc_question c) true)
           /\ Forall (leaves k) post).

(** ** Tokens *)

(** What the application relies on from PyJWT for a token that [jwt.encode]
    made with key [k] and that is decoded with the same key when the clock
    reads [now] microseconds: the token is never invalid; it is accepted
    only with its payload and before the second after [exp] has passed; it
    is reported as expired only when [exp] has been reached. *)
Definition jwt_issued_contract (jwt_encode : claims -> string -> string)
    (jwt_decode : string -> string -> Z -> jwt_result) : Prop :=
  forall c k now,
    match jwt_decode (jwt_encode c k) k now with
    | JwtOk c' =>
        c' = c /\ forall e, c_exp c = Some e -> now < (e + 1) * 1000000
    | JwtExpired => exists e, c_exp c = Some e /\ e * 1000000 <= now
    | JwtInvalid => False
    end.

(** A token is three base64url segments joined by dots: not empty, no
    space. *)
Definition jwt_token_text (jwt_encode : claims -> string -> string) : Prop :=
  forall c k,
    PyStr.truthy (jwt_encode c k) = true
    /\ PyStr.contains_char " " (jwt_encode c k) = false.

(** The token that [token_required] takes from the header. *)
Definition bearer_token (authorization : option string) : string :=
  PyStr.replace "Bearer " "" (get authorization "").

(** ** Feedback and categories *)

(** [needle in hay] *)
Fixpoint contains (needle hay : string) : bool :=
  match hay with
  | EmptyString => String.prefix needle EmptyString
  | String _ h => String.prefix needle hay || contains needle h
  end.

(** The feedback text in the body of a response of [get_ai_feedback]. *)
Definition response_feedback (r : response) : string :=
  match payload r with
  | BFeedback text _ _ => text
  | BFeedbackError _ text => text
  | _ => ""
  end.

(** The part of the demo message that names the number of files. *)
Definition file_count_note (n : nat) : string :=
  ("You attached " ++ pretty n ++ " file(s)")%string.

(** The entries in the body of a response of [get_categories]. *)
Definition response_categories (r : response) : list category_entry :=
  match payload r with
  | BCategories cs => cs
  | _ => nil
  end.

(** The slug as the interface text words it: lowercase, every space turned
    into a hyphen and every "&" turned into a hyphen. *)
Definition spec_slug (label : string) : string :=
  PyStr.replace "&" "-" (PyStr.replace " " "-" (PyStr.lower label)).

(** The number of questions that carry the label. *)
Definition questions_with_label (qs : list Question) (l : string) : Z :=
  Z.of_nat (length (List.filter (fun q => sql_eq (q_question_category q) l) qs)).

Definition entry_of (qs : list Question) (l : string) : category_entry :=
  mk_category_entry l (slug l) (questions_with_label qs l).

(** Lowercase letters and hyphens only. *)
Definition slug_char (c : ascii) : bool :=
  ((97 <=? PyStr.code c) && (PyStr.code c <=? 122)) || (PyStr.code c =? 45).

Fixpoint string_forallb (p : ascii -> bool) (s : string) : bool :=
  match s with
  | EmptyString => true
  | String c s' => p c && string_forallb p s'
  end.

(** ** Scenarios of the interface text *)

(** Two questions of the category "Product Design", of 1 and 2 March 2023. *)
Definition scenario_question (id : Z) (ts : string) : Question :=
  mkQuestion id (Some ts) (Some "Acme") (Some "How would you improve it?")
    None None None None (Some "Acme") (Some "Product Design").

Definition scenario_questions : list Question :=
  scenario_question 1 "3/1/2023" :: scenario_question 2 "3/2/2023" :: nil.

(** No company, no dates. *)
Definition no_args : question_args := mkArgs None None None.

(** Nobody has completed anything. *)
Definition scenario_db : Db := mkDb nil scenario_questions ∅.

(** User 7 has completed question 1. *)
Definition scenario_db_done : Db :=
  mkDb nil scenario_questions
    {[ (7, 1) := mkUserProgress true (Some (mkdatetime 2024 1 15 9 30 0 0)) ]}.

(** ** A small codec that meets the PyJWT contract

    It shows that the assumptions on [jwt.encode] and [jwt.decode] can be
    met: the payload is numbered and the number written in binary after a
    one-letter header; the key is not checked. *)

Fixpoint pos_bits (p : positive) : string :=
  match p with
  | xH => EmptyString
  | xO q => String "0" (pos_bits q)
  | xI q => String "1" (pos_bits q)
  end.

Fixpoint bits_pos (s : string) : option positive :=
  match s with
  | EmptyString => Some xH
  | String c s' =>
      match bits_pos s' with
      | Some q =>
          if Ascii.eqb c "0" then Some (xO q)
          else if Ascii.eqb c "1" then Some (xI q) else None
      | None => None
      end
  end.

Definition claims_tuple (c : claims) : option Z * option string * option Z :=
  (c_user_id c, c_email c, c_exp c).

Definition toy_encode (c : claims) (key : string) : string :=
  String "t" (pos_bits (encode (claims_tuple c))).

Definition toy_decode (token key : string) (now_us : Z) : jwt_result :=
  match token with
  | String _ bits =>
      match bits_pos bits ≫= decode with
      | Some (u, e, x) =>
          if match x with Some t => t * 1000000 <=? now_us | None => false end
          then JwtExpired
          else JwtOk (mkClaims u e x)
      | None => JwtInvalid
      end
  | EmptyString => JwtInvalid
  end.

(** * More of the application *)

(** ** Bodies of the other endpoints *)

Record company_entry : Type := mk_company_entry {
  co_name : string;
  co_count : Z
}.

Inductive body_more : Type :=
| BodyOf (b : body)
| BMessage (message : string)
| BCompanies (cs : list company_entry)
| BHealth (health_status : string) (health_timestamp : string)
    (gemini_configured : bool) (database : string).

Record response_more : Type :=
  mkResponseMore { status_more : Z; payload_more : body_more }.

Record password_change : Type := mkPasswordChange {
  pc_email : option string;
  pc_current_password : option string;
  pc_new_password : option string
}.

Record company_args : Type := mkCompanyArgs {
  carg_category : option string;
  carg_from_date : option string;
  carg_to_date : option string
}.

(** ** [change_password()] *)

(** [user.password_hash = h] for the first user that the query finds. *)
Fixpoint set_password_hash (p : User -> bool) (h : string) (us : list User)
    : list User :=
  match us with
  | nil => nil
  | u :: rest =>
      if p u then mkUser (u_id u) (u_email u) h (u_created_at u) :: rest
      else u :: set_password_hash p h rest
  end.

Definition change_password (sha256_hexdigest : string -> string) (db : Db)
    (data : password_change) (commit : commit_result) : response_more * Db :=
  let email := PyStr.lower (PyStr.strip (get (pc_email data) "")) in
  let current_password := get (pc_current_password data) "" in
  let new_password := get (pc_new_password data) "" in
  if negb (PyStr.truthy email) || negb (PyStr.truthy current_password)
     || negb (PyStr.truthy new_password)
  then (mkResponseMore 400 (BodyOf (BError "All fields are required")), db)
  else if Z.of_nat (String.length new_password) <? 6
  then (mkResponseMore 400
          (BodyOf (BError "New password must be at least 6 characters")), db)
  else
    let matches u :=
      String.eqb (u_email u) email
      && String.eqb (u_password_hash u)
           (hash_password sha256_hexdigest current_password) in
    match List.find matches (users db) with
    | None =>
        (mkResponseMore 401 (BodyOf (BError "Invalid email or current password")), db)
    | Some _ =>
        match commit with
        | CommitOk =>
            (mkResponseMore 200
               (BMessage
                  "Password updated successfully. Please login with your new password."),
             mkDb (set_password_hash matches
                     (hash_password sha256_hexdigest new_password) (users db))
               (questions db) (user_progress db))
        | CommitFail e =>
            (mkResponseMore 500
               (BodyOf (BError ("Password update failed: " ++ e)%string)), db)
        end
    end.

(** ** [get_companies()] *)

(** [company_counts[company] = company_counts.get(company, 0) + 1] on a
    dictionary kept in insertion order. *)
Fixpoint count_add (company_counts : list (string * Z)) (company : string)
    : list (string * Z) :=
  match company_counts with
  | nil => (company, 0 + 1) :: nil
  | (k, v) :: rest =>
      if String.eqb k company then (k, v + 1) :: rest
      else (k, v) :: count_add rest company
  end.

(** The label to filter on: none when the argument is empty. *)
Definition companies_category (category : string) : option string :=
  if PyStr.truthy category
  then Some (get (dict_get category_map category) category) else None.

(** The query: questions with a normalized company (not [NULL], not empty),
    of the category when one is given. *)
Definition companies_query (db : Db) (category_name : option string)
    : list Question :=
  List.filter
    (fun q =>
       match q_company_normalized q with
       | Some c => PyStr.truthy c
       | None => false
       end
       && match category_name with
          | Some n =>
              if PyStr.truthy n then sql_eq (q_question_category q) n else true
          | None => true
          end)
    (questions db).

(** The companies of the rows that pass the date test, in query order. *)
Definition companies_kept (db : Db) (args : company_args) : list string :=
  List.map (fun q => get (q_company_normalized q) "")
    (List.filter
       (date_keep (parse_from_date (get (carg_from_date args) ""))
          (parse_to_date (get (carg_to_date args) "")))
       (companies_query db (companies_category (get (carg_category args) "")))).

Definition get_companies (db : Db) (args : company_args) : response_more :=
  let company_counts := List.fold_left count_add (companies_kept db args) nil in
  let companies := py_sort snd Z.ltb true company_counts in
  mkResponseMore 200
    (BCompanies (List.map (fun r => mk_company_entry (fst r) (snd r)) companies)).

(** ** Database URL and [health()] *)

Fixpoint string_drop (n : nat) (s : string) : string :=
  match n, s with
  | O, _ => s
  | S n', String _ s' => string_drop n' s'
  | S _, EmptyString => EmptyString
  end.

(** [s.replace(old, new, 1)] for a non-empty [old] *)
Fixpoint replace_first (old new s : string) : string :=
  match s with
  | EmptyString => EmptyString
  | String c s' =>
      if String.prefix old s
      then (new ++ string_drop (String.length old) s)%string
      else String c (replace_first old new s')
  end.

(** [app.config['SQLALCHEMY_DATABASE_URI']] from the value of
    [DATABASE_URL], if it is set. *)
Definition database_uri (env_database_url : option string) : string :=
  let database_url := get env_database_url "sqlite:///product_siksha.db" in
  if PyStr.startswith "postgres://" database_url
  then replace_first "postgres://" "postgresql://" database_url
  else database_url.

Definition health (GEMINI_API_KEY : string) (env_database_url : option string)
    (now : datetime) : response_more :=
  mkResponseMore 200
    (BHealth "healthy" (isoformat now) (PyStr.truthy GEMINI_API_KEY)
       (if contains "postgres" (database_uri env_database_url)
        then "postgresql" else "sqlite")).

(** ** The cleanup script ([cleanup_pm_questions.py]) *)

Definition COMPANY_NORMALIZATION : list (string * string) :=
  ("meta", "Meta")
  :: ("META", "Meta")
  :: ("MEta", "Meta")
  :: ("Meta (team match)", "Meta")
  :: ("Meta / Facebook", "Meta")
  :: ("Meta/ Facebook", "Meta")
  :: ("Meta/Facebook", "Meta")
  :: ("Facebook", "Meta")
  :: ("facebook", "Meta")
  :: ("FACEBOOK", "Meta")
  :: ("FaceBook", "Meta")
  :: ("Faceboook", "Meta")
  :: ("Facebook/Meta", "Meta")
  :: ("Facbook", "Meta")
  :: ("FB", "Meta")
  :: ("fb", "Meta")
  :: ("google", "Google")
  :: ("Googlw", "Google")
  :: ("Google`", "Google")
  :: ("Google (GCP)", "Google")
  :: ("Google Cloud", "Google")
  :: ("StraGoogletegic Insights", "Google")
  :: ("Google/Amazon", "Google")
  :: ("amazon", "Amazon")
  :: ("Amazxon", "Amazon")
  :: ("Amzon", "Amazon")
  :: ("Amazon AWS", "Amazon")
  :: ("AWS", "Amazon")
  :: ("Doordash", "DoorDash")
  :: ("doordash", "DoorDash")
  :: ("Door Dash", "DoorDash")
  :: ("MICROSOFT", "Microsoft")
  :: ("Microsoft Round 1", "Microsoft")
  :: ("LInkedIn", "LinkedIn")
  :: ("Linkedin", "LinkedIn")
  :: ("Tiktok", "TikTok")
  :: ("Tik Tok", "TikTok")
  :: ("ebay", "eBay")
  :: ("Ebay", "eBay")
  :: ("Paypal", "PayPal")
  :: ("Sofi", "SoFi")
  :: ("Inuit", "Intuit")
  :: ("Intuit Mailchimp", "Intuit")
  :: ("adobe", "Adobe")
  :: ("Capital one", "Capital One")
  :: ("CapitalOne", "Capital One")
  :: ("Nu Bank", "Nubank")
  :: ("Docusign", "DocuSign")
  :: ("wayfair", "Wayfair")
  :: ("T-mobile", "T-Mobile")
  :: ("TMobile", "T-Mobile")
  :: ("lyft", "Lyft")
  :: ("7shifts", "7Shifts")
  :: ("Oscar Health", "Oscar Health")
  :: ("NA", "Other")
  :: ("Na", "Other")
  :: ("Test", "Other")
  :: ("-", "Other")
  :: ("<>", "Other")
  :: nil.

Definition product_design_keywords : list string :=
  "product sense" :: "product design" :: "sense" :: "design"
  :: "produce sense" :: "product improvement" :: "product" :: nil.

Definition strategy_keywords : list string :=
  "strategy" :: "product strategy" :: "roadmap" :: "market"
  :: "go-to-market" :: "gtm" :: "vision" :: nil.

Definition execution_keywords : list string :=
  "execution" :: "product execution" :: "metrics" :: "analytics"
  :: "analytical" :: "analytical thinking" :: "product analytics"
  :: "product analytical" :: "tradeoff" :: "trade-off" :: "prioritization"
  :: "product prioritization" :: "product metrics" :: "goal"
  :: "product retrospective" :: "product values" :: nil.

Definition estimation_keywords : list string :=
  "estimation" :: "estimate" :: "pricing" :: "market sizing" :: nil.

Definition technical_keywords : list string :=
  "technical" :: "system design" :: "api" :: "engineering" :: nil.

Definition behavioral_keywords : list string :=
  "behavioral" :: "behaviour" :: "behavioural" :: "behav" :: "behavior"
  :: "leadership" :: "leadership & drive" :: "leadership and drive" :: nil.

(** [for kw in keywords: if kw in qt: return ...] reaches the [return]. *)
Definition any_keyword (keywords : list string) (qt : string) : bool :=
  List.existsb (fun kw => contains kw qt) keywords.

(** [categorize_question(question_type)] *)
Definition categorize_question (question_type : string) : string :=
  if negb (PyStr.truthy question_type) then "Other"
  else
    let qt := PyStr.lower (PyStr.strip question_type) in
    if any_keyword technical_keywords qt then "Technical"
    else if any_keyword behavioral_keywords qt then "Behavioral"
    else if any_keyword estimation_keywords qt then "Estimation & Pricing"
    else if any_keyword execution_keywords qt then "Execution & Metrics"
    else if any_keyword strategy_keywords qt then "Product Strategy"
    else if any_keyword product_design_keywords qt then "Product Design"
    else "Other".

(** [normalize_company(company_name)] *)
Definition normalize_company (company_name : string) : string :=
  if negb (PyStr.truthy company_name) then "Unknown"
  else
    let company_name := PyStr.strip company_name in
    match dict_get COMPANY_NORMALIZATION company_name with
    | Some v => v
    | None => company_name
    end.

(** [row[i] if len(row) > i else ''] *)
Definition column (row : list string) (i : nat) : string :=
  List.nth i row "".

(** The body of the loop of [main()]: no output row for a row of fewer
    than 4 columns. *)
Definition clean_row (row : list string) : option (list string) :=
  if (length row <? 4)%nat then None
  else
    let timestamp := column row 0 in
    let company := column row 1 in
    let question := column row 2 in
    let question_type := column row 3 in
    let interview_type := column row 4 in
    let comments := column row 5 in
    let job_title := column row 6 in
    let company_normalized := normalize_company company in
    let question_category := categorize_question question_type in
    Some (timestamp :: company :: question :: question_type
          :: interview_type :: comments :: job_title
          :: company_normalized :: question_category :: nil).

(** The header and the rows that [main()] writes. *)
Definition clean_table (header : list string) (rows : list (list string))
    : list string * list (list string) :=
  ((List.firstn 7 header ++ "Company_Normalized" :: "Question_Category" :: nil)%list,
   List.flat_map
     (fun row => match clean_row row with Some r => r :: nil | None => nil end)
     rows).

(** ** Vocabulary of the further properties *)

(** The question matches the category of the request and, when a company
    is given, the company. *)
Definition selected (category : string) (args : question_args) (q : Question)
    : Prop :=
  q_question_category q = Some (category_name_of category)
  /\ (get (arg_company args) "" = ""
      \/ q_company_normalized q = Some (get (arg_company args) "")).

(** The date test of a request. *)
Definition in_dates (args : question_args) (q : Question) : bool :=
  date_keep (parse_from_date (get (arg_from_date args) ""))
    (parse_to_date (get (arg_to_date args) "")) q.

(** A lower (upper) bound that lets through at least what [narrow] does. *)
Definition from_widens (wide narrow : option datetime) : Prop :=
  wide = None
  \/ exists w n, wide = Some w /\ narrow = Some n /\ dt_le w n = true.

Definition to_widens (wide narrow : option datetime) : Prop :=
  wide = None
  \/ exists w n, wide = Some w /\ narrow = Some n /\ dt_le n w = true.

(** Two times that neither precedes the other. *)
Definition dt_eqb (a b : datetime) : bool := negb (dt_lt a b) && negb (dt_lt b a).

Definition response_companies (r : response_more) : list company_entry :=
  match payload_more r with
  | BCompanies cs => cs
  | _ => nil
  end.

Definition response_count (r : response) : Z :=
  match payload r with
  | BQuestions _ n _ => n
  | _ => 0
  end.

(** The number of rows of the company among the rows that pass the date
    test of [get_companies]. *)
Definition company_rows (db : Db) (args : company_args) (name : string) : Z :=
  Z.of_nat (length (List.filter (String.eqb name) (companies_kept db args))).

Fixpoint sum_counts (cs : list company_entry) : Z :=
  match cs with
  | nil => 0
  | c :: rest => co_count c + sum_counts rest
  end.

(** The seven labels. *)
Definition category_labels : list string := List.map snd category_map.

(** The joined row of a question after a committed toggle of
    [question_id] by the user. *)
Definition toggled_row (db : Db) (user_id question_id : Z) (now : datetime)
    (r : Question * option UserProgress) : Question * option UserProgress :=
  if q_id (fst r) =? question_id
  then (fst r,
        Some (toggle_row (user_progress db !! (user_id, question_id)) now))
  else r.

(** Every question has its own identifier. *)
Definition question_ids_unique (db : Db) : Prop :=
  List.NoDup (List.map q_id (questions db)).

(** [company_counts.get(company, 0)] *)
Fixpoint count_of (company_counts : list (string * Z)) (company : string) : Z :=
  match company_counts with
  | nil => 0
  | (k, v) :: rest => if String.eqb k company then v else count_of rest company
  end.

Fixpoint sum_values (company_counts : list (string * Z)) : Z :=
  match company_counts with
  | nil => 0
  | (_, v) :: rest => v + sum_values rest
  end.

(** The number of occurrences of a string in a list. *)
Definition occurrences (k : string) (l : list string) : Z :=
  Z.of_nat (length (List.filter (String.eqb k) l)).

(** [k] and the key of [x] are not ordered by [lt]. *)
Definition tied {A K : Type} (key : A -> K) (lt : K -> K -> bool) (k : K)
    (x : A) : bool :=
  negb (lt (key x) k) && negb (lt k (key x)).

(** A part that carries a file: its media type is an image type. *)
Definition image_blob (p : content_part) : Prop :=
  match p with
  | PartBlob mime_type _ => PyStr.startswith "image/" mime_type = true
  | PartText _ => False
  end.

(** The [database] field of a response of [health]. *)
Definition response_database (r : response_more) : string :=
  match payload_more r with
  | BHealth _ _ _ database => database
  | _ => ""
  end.

(** A date in the form YYYY-MM-DD, zero padded. *)
Definition iso_date (y m d : Z) : string :=
  (PyStr.zpad 4 y ++ "-" ++ PyStr.zpad 2 m ++ "-" ++ PyStr.zpad 2 d)%string.

(** The pattern of '%Y-%m-%d' after the year. *)
Definition pattern_md : Re.re :=
  Re.Seq (Re.c "-") (Re.Seq Strptime.re_m (Re.Seq (Re.c "-") Strptime.re_d)).

(** A database with one user, whose password hash is the text "secret". *)
Definition scenario_users_db : Db :=
  mkDb (mkUser 1 "pm@example.com" "secret" datetime_min :: nil)
    scenario_questions ∅.

Definition scenario_now : datetime := mkdatetime 2024 1 15 9 30 0 0.

(** A later reading of the clock than the completion of [scenario_db_done]. *)
Definition scenario_later : datetime := mkdatetime 2024 1 16 8 0 0 0.

(** * Properties *)

(** ** The stable sort *)

Section PySortFacts.
Context {A K : Type} (key : A -> K) (lt : K -> K -> bool).

Lemma insert_stable_perm (x : A) (l : list A) :
  Permutation (insert_stable key lt x l) (x :: l).
Proof.
  induction l as [|y l IH]; simpl.
  - apply Permutation_refl.
  - destruct (lt (key y) (key x)).
    + eapply perm_trans; [apply perm_skip, IH | apply perm_swap].
    + apply Permutation_refl.
Qed.

Lemma sort_stable_perm (l : list A) : Permutation (sort_stable key lt l) l.
Proof.
  induction l as [|x l IH]; simpl.
  - constructor.
  - eapply perm_trans; [apply insert_stable_perm | apply perm_skip, IH].
Qed.

Lemma py_sort_perm (reverse : bool) (l : list A) :
  Permutation (py_sort key lt reverse l) l.
Proof.
  unfold py_sort. destruct reverse.
  - eapply perm_trans; [symmetry; apply Permutation_rev |].
    eapply perm_trans; [apply sort_stable_perm |].
    symmetry. apply Permutation_rev.
  - apply sort_stable_perm.
Qed.

Lemma py_sort_In (reverse : bool) (l : list A) (x : A) :
  In x (py_sort key lt reverse l) <-> In x l.
Proof.
  split; apply Permutation_in;
    [apply py_sort_perm | symmetry; apply py_sort_perm].
Qed.

(** Sortedness needs a strict weak order on the keys. *)
Hypothesis lt_asym : forall a b, lt a b = true -> lt b a = false.
Hypothesis ge_trans : forall a b c, lt a b = false -> lt b c = false -> lt a c = false.

Lemma insert_stable_sorted (x : A) (l : list A) :
  StronglySorted (key_le key lt) l -> StronglySorted (key_le key lt) (insert_stable key lt x l).
Proof.
  induction l as [|y l IH]; intros Hs; simpl.
  - repeat constructor.
  - inversion Hs as [|? ? Hs' Hall]; subst.
    destruct (lt (key y) (key x)) eqn:E.
    + constructor; [apply IH, Hs' |].
      apply (Permutation_Forall (x := x :: l)).
      * symmetry. apply insert_stable_perm.
      * constructor; [apply lt_asym, E | exact Hall].
    + constructor; [exact Hs |].
      constructor; [exact E |].
      eapply List.Forall_impl; [| exact Hall].
      intros z Hz. unfold key_le in *. eapply ge_trans; eauto.
Qed.

Lemma sort_stable_sorted (l : list A) : StronglySorted (key_le key lt) (sort_stable key lt l).
Proof.
  induction l as [|x l IH]; simpl; [constructor | apply insert_stable_sorted, IH].
Qed.

Lemma StronglySorted_app_one (R : A -> A -> Prop) (l : list A) (x : A) :
  StronglySorted R l -> Forall (fun y => R y x) l -> StronglySorted R (l ++ x :: nil).
Proof.
  induction l as [|y l IH]; intros Hs Hall; simpl.
  - repeat constructor.
  - inversion Hs; subst. inversion Hall; subst.
    constructor; [apply IH; assumption |].
    apply Forall_app. split; [assumption | repeat constructor; assumption].
Qed.

Lemma StronglySorted_rev (R : A -> A -> Prop) (l : list A) :
  StronglySorted R l -> StronglySorted (fun x y => R y x) (rev l).
Proof.
  induction 1 as [|x l Hs IH Hall]; simpl; [constructor |].
  apply StronglySorted_app_one; [exact IH |].
  apply Forall_rev. exact Hall.
Qed.

Lemma py_sort_sorted_asc (l : list A) :
  StronglySorted (key_le key lt) (py_sort key lt false l).
Proof. apply sort_stable_sorted. Qed.

Lemma py_sort_sorted_desc (l : list A) :
  StronglySorted (key_ge key lt) (py_sort key lt true l).
Proof.
  unfold py_sort.
  apply (StronglySorted_rev (key_le key lt)). apply sort_stable_sorted.
Qed.
End PySortFacts.

Lemma sort_stable_map {A B K : Type} (f : A -> B) (key : B -> K)
    (lt : K -> K -> bool) (l : list A) :
  sort_stable key lt (List.map f l)
  = List.map f (sort_stable (fun x => key (f x)) lt l).
Proof.
  induction l as [|x l IH]; simpl; [reflexivity |].
  rewrite IH. generalize (sort_stable (fun x => key (f x)) lt l). intros m.
  induction m as [|y m IHm]; simpl; [reflexivity |].
  destruct (lt (key (f y)) (key (f x))); simpl; [rewrite IHm |]; reflexivity.
Qed.

Lemma py_sort_map {A B K : Type} (f : A -> B) (key : B -> K)
    (lt : K -> K -> bool) (reverse : bool) (l : list A) :
  py_sort key lt reverse (List.map f l)
  = List.map f (py_sort (fun x => key (f x)) lt reverse l).
Proof.
  unfold py_sort. destruct reverse; [| apply sort_stable_map].
  rewrite <- List.map_rev, sort_stable_map, List.map_rev. reflexivity.
Qed.

Lemma insert_stable_ext {A K K' : Type} (key : A -> K) (lt : K -> K -> bool)
    (key' : A -> K') (lt' : K' -> K' -> bool) (x : A) (l : list A) :
  (forall y, In y l -> lt (key y) (key x) = lt' (key' y) (key' x)) ->
  insert_stable key lt x l = insert_stable key' lt' x l.
Proof.
  induction l as [|y l IH]; intros H; simpl; [reflexivity |].
  rewrite (H y (or_introl eq_refl)).
  destruct (lt' (key' y) (key' x)); [| reflexivity].
  f_equal. apply IH. intros z Hz. apply H. right. exact Hz.
Qed.

Lemma sort_stable_ext {A K K' : Type} (key : A -> K) (lt : K -> K -> bool)
    (key' : A -> K') (lt' : K' -> K' -> bool) (l : list A) :
  (forall x y, In x l -> In y l -> lt (key x) (key y) = lt' (key' x) (key' y)) ->
  sort_stable key lt l = sort_stable key' lt' l.
Proof.
  induction l as [|x l IH]; intros H; simpl; [reflexivity |].
  rewrite IH by (intros; apply H; right; assumption).
  apply insert_stable_ext. intros y Hy. apply H; [right | left; reflexivity].
  eapply Permutation_in; [apply (sort_stable_perm key' lt') | exact Hy].
Qed.

(** ** The order on [datetime] values *)

Lemma lex_compare_refl (a : list Z) : lex_compare a a = Eq.
Proof. induction a as [|x a IH]; simpl; [| rewrite Z.compare_refl]; auto. Qed.

Lemma lex_compare_antisym (a b : list Z) :
  lex_compare b a = CompOpp (lex_compare a b).
Proof.
  revert b. induction a as [|x a IH]; intros [|y b]; simpl; try reflexivity.
  rewrite (Z.compare_antisym x y).
  destruct (x ?= y); simpl; auto.
Qed.

Lemma lex_ge_trans (a b c : list Z) :
  lex_compare a b <> Lt -> lex_compare b c <> Lt -> lex_compare a c <> Lt.
Proof.
  revert b c. induction a as [|x a IH]; intros [|y b] [|z c]; simpl;
    try congruence.
  destruct (Z.compare_spec x y), (Z.compare_spec y z), (Z.compare_spec x z);
    subst; try lia; try congruence; eauto.
Qed.

Lemma dt_lt_asym (a b : datetime) : dt_lt a b = true -> dt_lt b a = false.
Proof.
  unfold dt_lt, dt_compare. rewrite (lex_compare_antisym (dt_fields a)).
  destruct (lex_compare (dt_fields a) (dt_fields b)); simpl; congruence.
Qed.

Lemma dt_ge_trans (a b c : datetime) :
  dt_lt a b = false -> dt_lt b c = false -> dt_lt a c = false.
Proof.
  unfold dt_lt, dt_compare. intros H1 H2.
  pose proof (lex_ge_trans (dt_fields a) (dt_fields b) (dt_fields c)) as H.
  destruct (lex_compare (dt_fields a) (dt_fields b)); try discriminate;
    destruct (lex_compare (dt_fields b) (dt_fields c)); try discriminate;
    destruct (lex_compare (dt_fields a) (dt_fields c)); try reflexivity;
    exfalso; apply H; congruence.
Qed.

Lemma dt_le_refl (a : datetime) : dt_le a a = true.
Proof. unfold dt_le, dt_lt, dt_compare. rewrite lex_compare_refl. reflexivity. Qed.

Lemma dt_le_trans (a b c : datetime) :
  dt_le a b = true -> dt_le b c = true -> dt_le a c = true.
Proof.
  unfold dt_le. rewrite !negb_true_iff. intros H1 H2.
  eapply dt_ge_trans; eassumption.
Qed.

Lemma dt_le_total (a b : datetime) : dt_le a b = true \/ dt_le b a = true.
Proof.
  unfold dt_le. destruct (dt_lt b a) eqn:E; [right | left; reflexivity].
  rewrite (dt_lt_asym _ _ E). reflexivity.
Qed.

Lemma opt_dt_lt_asym (a b : option datetime) :
  opt_dt_lt a b = true -> opt_dt_lt b a = false.
Proof. destruct a, b; simpl; try congruence. apply dt_lt_asym. Qed.

Lemma opt_dt_ge_trans (a b c : option datetime) :
  opt_dt_lt a b = false -> opt_dt_lt b c = false -> opt_dt_lt a c = false.
Proof. destruct a, b, c; simpl; try congruence. apply dt_ge_trans. Qed.

(** ** [isoformat] keeps the order *)

Lemma string_compare_app (p p' s s' : string) :
  String.length p = String.length p' ->
  String.compare (p ++ s) (p' ++ s')
  = match String.compare p p' with
    | Eq => String.compare s s'
    | c => c
    end.
Proof.
  revert p'. induction p as [|a p IH]; intros [|a' p'] Hlen; simpl in *;
    try discriminate; [reflexivity |].
  destruct (Ascii.compare a a'); [apply IH; lia | reflexivity | reflexivity].
Qed.

Lemma string_length_app (a b : string) :
  String.length (a ++ b) = (String.length a + String.length b)%nat.
Proof. induction a as [|x a IH]; simpl; [| rewrite IH]; reflexivity. Qed.

Lemma zpad_length (w : nat) (n : Z) : String.length (PyStr.zpad w n) = w.
Proof.
  revert n. induction w as [|w IH]; intros n; simpl; [reflexivity |].
  rewrite string_length_app, IH. simpl. lia.
Qed.

Lemma digit_compare (a b : Z) :
  0 <= a < 10 -> 0 <= b < 10 -> Ascii.compare (digit a) (digit b) = (a ?= b).
Proof.
  intros Ha Hb. unfold Ascii.compare, digit.
  rewrite !N_ascii_embedding by lia.
  rewrite Z2N.inj_compare by lia.
  apply Z.add_compare_mono_l.
Qed.

Lemma zpad_compare (w : nat) (n m : Z) :
  0 <= n < 10 ^ Z.of_nat w -> 0 <= m < 10 ^ Z.of_nat w ->
  String.compare (PyStr.zpad w n) (PyStr.zpad w m) = (n ?= m).
Proof.
  revert n m. induction w as [|w IH]; intros n m Hn Hm.
  - simpl in *. assert (n = 0) by lia. assert (m = 0) by lia. subst. reflexivity.
  - rewrite Nat2Z.inj_succ, Z.pow_succ_r in Hn, Hm by lia.
    cbn [PyStr.zpad].
    rewrite string_compare_app by (rewrite !zpad_length; reflexivity).
    rewrite IH by (split; [apply Z.div_pos; lia | apply Z.div_lt_upper_bound; lia]).
    fold (digit (n mod 10)). fold (digit (m mod 10)).
    cbn [String.compare].
    rewrite digit_compare by (apply Z.mod_pos_bound; lia).
    pose proof (Z.div_mod n 10 ltac:(lia)) as En.
    pose proof (Z.div_mod m 10 ltac:(lia)) as Em.
    pose proof (Z.mod_pos_bound n 10 ltac:(lia)).
    pose proof (Z.mod_pos_bound m 10 ltac:(lia)).
    destruct (Z.compare_spec (n / 10) (m / 10)) as [E|E|E].
    + destruct (Z.compare_spec (n mod 10) (m mod 10)) as [E'|E'|E'];
        symmetry; [apply Z.compare_eq_iff | apply Z.compare_lt_iff
                  | apply Z.compare_gt_iff]; lia.
    + symmetry. apply Z.compare_lt_iff. lia.
    + symmetry. apply Z.compare_gt_iff. lia.
Qed.

Lemma zpad2_compare (n m : Z) :
  0 <= n < 100 -> 0 <= m < 100 ->
  String.compare (PyStr.zpad 2 n) (PyStr.zpad 2 m) = (n ?= m).
Proof. intros. apply zpad_compare; change (10 ^ Z.of_nat 2) with 100; lia. Qed.

Lemma zpad4_compare (n m : Z) :
  0 <= n < 10000 -> 0 <= m < 10000 ->
  String.compare (PyStr.zpad 4 n) (PyStr.zpad 4 m) = (n ?= m).
Proof. intros. apply zpad_compare; change (10 ^ Z.of_nat 4) with 10000; lia. Qed.

Lemma zpad6_compare (n m : Z) :
  0 <= n < 1000000 -> 0 <= m < 1000000 ->
  String.compare (PyStr.zpad 6 n) (PyStr.zpad 6 m) = (n ?= m).
Proof. intros. apply zpad_compare; change (10 ^ Z.of_nat 6) with 1000000; lia. Qed.

Lemma fraction_compare (u u' : Z) :
  0 <= u < 1000000 -> 0 <= u' < 1000000 ->
  String.compare (fraction u) (fraction u') = (u ?= u').
Proof.
  intros Hu Hu'. unfold fraction.
  destruct (Z.eqb_spec u 0) as [->|Hn], (Z.eqb_spec u' 0) as [->|Hn'].
  - reflexivity.
  - cbn [String.append String.compare]. symmetry. apply Z.compare_lt_iff. lia.
  - cbn [String.append String.compare]. symmetry. apply Z.compare_gt_iff. lia.
  - change ("." ++ PyStr.zpad 6 u)%string with (String "." (PyStr.zpad 6 u)).
    change ("." ++ PyStr.zpad 6 u')%string with (String "." (PyStr.zpad 6 u')).
    cbn [String.compare]. change (Ascii.compare "." ".") with Eq. cbv iota.
    apply zpad6_compare; assumption.
Qed.

Lemma days_in_month_le (y m : Z) : days_in_month y m <= 31.
Proof.
  unfold days_in_month.
  destruct (m =? 2); [destruct (is_leap y); lia |].
  destruct ((m =? 4) || (m =? 6) || (m =? 9) || (m =? 11)); lia.
Qed.

Lemma valid_datetime_bounds (d : datetime) :
  valid_datetime d = true ->
  (0 <= year d < 10000) /\ (0 <= month d < 100) /\ (0 <= day d < 100)
  /\ (0 <= hour d < 100) /\ (0 <= minute d < 100) /\ (0 <= second d < 100)
  /\ (0 <= microsecond d < 1000000).
Proof.
  unfold valid_datetime, valid_date, valid_time.
  rewrite !andb_true_iff, !Z.leb_le. intros H.
  pose proof (days_in_month_le (year d) (month d)). lia.
Qed.

Lemma isoformat_compare (a b : datetime) :
  valid_datetime a = true -> valid_datetime b = true ->
  String.compare (isoformat a) (isoformat b) = dt_compare a b.
Proof.
  intros Ha Hb.
  apply valid_datetime_bounds in Ha, Hb.
  destruct Ha as (Hy & Hm & Hd & Hh & Hmi & Hs & Hu).
  destruct Hb as (Hy' & Hm' & Hd' & Hh' & Hmi' & Hs' & Hu').
  unfold isoformat, dt_compare, dt_fields. cbn [lex_compare].
  fold (fraction (microsecond a)). fold (fraction (microsecond b)).
  rewrite string_compare_app by (rewrite !zpad_length; reflexivity).
  rewrite zpad4_compare by assumption.
  destruct (year a ?= year b); try reflexivity.
  rewrite string_compare_app by reflexivity.
  change (String.compare "-" "-") with Eq. cbv iota.
  rewrite string_compare_app by (rewrite !zpad_length; reflexivity).
  rewrite zpad2_compare by assumption.
  destruct (month a ?= month b); try reflexivity.
  rewrite string_compare_app by reflexivity.
  change (String.compare "-" "-") with Eq. cbv iota.
  rewrite string_compare_app by (rewrite !zpad_length; reflexivity).
  rewrite zpad2_compare by assumption.
  destruct (day a ?= day b); try reflexivity.
  rewrite string_compare_app by reflexivity.
  change (String.compare "T" "T") with Eq. cbv iota.
  rewrite string_compare_app by (rewrite !zpad_length; reflexivity).
  rewrite zpad2_compare by assumption.
  destruct (hour a ?= hour b); try reflexivity.
  rewrite string_compare_app by reflexivity.
  change (String.compare ":" ":") with Eq. cbv iota.
  rewrite string_compare_app by (rewrite !zpad_length; reflexivity).
  rewrite zpad2_compare by assumption.
  destruct (minute a ?= minute b); try reflexivity.
  rewrite string_compare_app by reflexivity.
  change (String.compare ":" ":") with Eq. cbv iota.
  rewrite string_compare_app by (rewrite !zpad_length; reflexivity).
  rewrite zpad2_compare by assumption.
  destruct (second a ?= second b); try reflexivity.
  rewrite fraction_compare by assumption.
  destruct (microsecond a ?= microsecond b); reflexivity.
Qed.

Lemma isoformat_truthy (d : datetime) : PyStr.truthy (isoformat d) = true.
Proof.
  unfold isoformat.
  pose proof (zpad_length 4 (year d)) as H.
  destruct (PyStr.zpad 4 (year d)); [discriminate | reflexivity].
Qed.

Lemma iso_key_lt (a b : option datetime) :
  opt_valid a = true -> opt_valid b = true ->
  PyStr.lt (iso_key a) (iso_key b) = opt_dt_lt a b.
Proof.
  unfold PyStr.lt, String.ltb, iso_key, get, opt_valid, opt_dt_lt.
  destruct a as [a|], b as [b|]; intros Ha Hb.
  - rewrite isoformat_compare by assumption. reflexivity.
  - pose proof (isoformat_truthy a) as H.
    destruct (isoformat a); [discriminate | reflexivity].
  - pose proof (isoformat_truthy b) as H.
    destruct (isoformat b); [discriminate | reflexivity].
  - reflexivity.
Qed.

(** ** The question list *)

Lemma filter_map_comm {A B : Type} (f : B -> bool) (g : A -> B) (l : list A) :
  List.filter f (List.map g l) = List.map g (List.filter (fun x => f (g x)) l).
Proof.
  induction l as [|x l IH]; simpl; [reflexivity |].
  destruct (f (g x)); simpl; rewrite IH; reflexivity.
Qed.

Lemma filter_split_perm {A : Type} (f : A -> bool) (l : list A) :
  Permutation (List.filter f l ++ List.filter (fun x => negb (f x)) l)%list l.
Proof.
  induction l as [|x l IH]; simpl; [constructor |].
  destruct (f x); simpl.
  - apply perm_skip, IH.
  - eapply perm_trans; [symmetry; apply Permutation_middle | apply perm_skip, IH].
Qed.

(** The list of the response, on the joined rows. *)
Lemma get_questions_rows (db : Db) (user_id : Z) (category : string)
    (args : question_args) :
  response_questions (get_questions db user_id category args)
  = List.map row_dict
      (py_sort (fun r => completed_key (row_dict r)) PyStr.lt false
         (List.filter row_completed (kept_rows db user_id category args))
       ++ py_sort row_time dt_lt true
            (List.filter (fun r => negb (row_completed r))
               (kept_rows db user_id category args)))%list.
Proof.
  unfold get_questions, response_questions. cbn [payload].
  fold (category_name_of category).
  fold (kept_rows db user_id category args).
  fold row_dict.
  rewrite !filter_map_comm, !py_sort_map, List.map_app.
  reflexivity.
Qed.

Lemma get_questions_perm (db : Db) (user_id : Z) (category : string)
    (args : question_args) :
  Permutation (response_questions (get_questions db user_id category args))
    (List.map row_dict (kept_rows db user_id category args)).
Proof.
  rewrite get_questions_rows. apply Permutation_map.
  eapply perm_trans; [| apply (filter_split_perm row_completed)].
  apply Permutation_app; apply py_sort_perm.
Qed.

Lemma completed_key_row (r : Question * option UserProgress) :
  completed_key (row_dict r) = iso_key (row_completed_at r).
Proof.
  unfold completed_key, row_dict, iso_key, row_completed_at. simpl.
  destruct (snd r) as [p|]; [destruct (completed_at p) |]; reflexivity.
Qed.

Lemma select_questions_valid (db : Db) (user_id : Z) (c f : string)
    (r : Question * option UserProgress) :
  completion_times_valid db ->
  In r (select_questions db user_id c f) ->
  opt_valid (row_completed_at r) = true.
Proof.
  intros Hv Hin. unfold select_questions in Hin.
  apply List.in_map_iff in Hin. destruct Hin as (q & <- & _).
  unfold row_completed_at, opt_valid. simpl.
  destruct (user_progress db !! (user_id, q_id q)) as [p|] eqn:E; [| reflexivity].
  destruct (completed_at p) as [t|] eqn:Et; [| reflexivity].
  eapply Hv; eassumption.
Qed.

Lemma completed_sort_by_time (db : Db) (user_id : Z) (category : string)
    (args : question_args) :
  completion_times_valid db ->
  py_sort (fun r => completed_key (row_dict r)) PyStr.lt false
    (List.filter row_completed (kept_rows db user_id category args))
  = py_sort row_completed_at opt_dt_lt false
      (List.filter row_completed (kept_rows db user_id category args)).
Proof.
  intros Hv. unfold py_sort. apply sort_stable_ext.
  intros x y Hx Hy. rewrite !completed_key_row.
  apply List.filter_In in Hx, Hy. destruct Hx as [Hx _], Hy as [Hy _].
  unfold kept_rows in Hx, Hy.
  apply List.filter_In in Hx, Hy. destruct Hx as [Hx _], Hy as [Hy _].
  apply iso_key_lt; eapply select_questions_valid; eassumption.
Qed.

Lemma StronglySorted_impl {A : Type} (R R' : A -> A -> Prop) (l : list A) :
  (forall x y, R x y -> R' x y) -> StronglySorted R l -> StronglySorted R' l.
Proof.
  intros HR. induction 1 as [|x l Hs IH Hall]; constructor; [exact IH |].
  eapply List.Forall_impl; [| exact Hall]. intros y. apply HR.
Qed.

Lemma get_questions_shape (db : Db) (user_id : Z) (category : string)
    (args : question_args) :
  get_questions db user_id category args
  = mkResponse 200
      (BQuestions (category_name_of category)
         (Z.of_nat (length (response_questions (get_questions db user_id category args))))
         (response_questions (get_questions db user_id category args))).
Proof. reflexivity. Qed.

Lemma blocks_in_order {A : Type} (P : A -> bool) (cs us : list A) :
  Forall (fun x => P x = true) cs -> Forall (fun x => P x = false) us ->
  forall i j x y,
    nth_error (cs ++ us) i = Some x -> nth_error (cs ++ us) j = Some y ->
    P x = true -> P y = false -> (i < j)%nat.
Proof.
  intros Hc Hu i j x y Hi Hj Px Py.
  rewrite List.Forall_forall in Hc, Hu.
  destruct (Nat.lt_ge_cases i (length cs)) as [Hlt|Hge].
  - destruct (Nat.lt_ge_cases j (length cs)) as [Hlt'|Hge']; [| lia].
    rewrite nth_error_app1 in Hj by assumption.
    apply nth_error_In, Hc in Hj. congruence.
  - rewrite nth_error_app2 in Hi by assumption.
    apply nth_error_In, Hu in Hi. congruence.
Qed.

Lemma valid_datetime_ge_min (d : datetime) :
  valid_datetime d = true -> dt_le datetime_min d = true.
Proof.
  unfold valid_datetime, valid_date, valid_time.
  rewrite !andb_true_iff, !Z.leb_le. intros H.
  unfold dt_le, dt_lt, dt_compare, dt_fields, datetime_min. cbn [lex_compare year month day hour minute second microsecond].
  destruct (Z.compare_spec (year d) 1); [| lia |reflexivity].
  destruct (Z.compare_spec (month d) 1); [| lia |reflexivity].
  destruct (Z.compare_spec (day d) 1); [| lia |reflexivity].
  destruct (Z.compare_spec (hour d) 0); [| lia |reflexivity].
  destruct (Z.compare_spec (minute d) 0); [| lia |reflexivity].
  destruct (Z.compare_spec (second d) 0); [| lia |reflexivity].
  destruct (Z.compare_spec (microsecond d) 0); [reflexivity | lia |reflexivity].
Qed.

Lemma strptime_valid (s : string) (f : format) (d : datetime) :
  strptime s f = Some d -> valid_datetime d = true.
Proof.
  unfold strptime. destruct (Re.rmatch (pattern f) s) as [[g rest]|]; [| discriminate].
  destruct (PyStr.truthy rest); [discriminate |].
  match goal with |- context [if ?c then _ else _] => destruct c eqn:E end;
    [| discriminate].
  intros [= <-]. exact E.
Qed.

Lemma parse_timestamp_valid (ts : option string) (d : datetime) :
  parse_timestamp ts = Some d -> valid_datetime d = true.
Proof.
  unfold parse_timestamp. destruct ts as [s|]; [| discriminate].
  destruct (negb (PyStr.truthy s)); [discriminate |].
  destruct (strptime (PyStr.strip s) F_mdY_HMS) eqn:E1.
  { intros [= <-]. eapply strptime_valid, E1. }
  destruct (strptime (PyStr.strip s) F_mdY) eqn:E2.
  { intros [= <-]. eapply strptime_valid, E2. }
  destruct (strptime (PyStr.strip s) F_Ymd) eqn:E3; [| discriminate].
  intros [= <-]. eapply strptime_valid, E3.
Qed.

(** C1: the list of [get_questions] is the completed block followed by the
    not-completed block; the completed block is in ascending order of the
    completion time, the not-completed block in descending order of the
    parsed question time, where a time that does not parse counts as
    [datetime.min], which no parsed time precedes; every completed question
    comes before every question that is not completed. *)
Theorem get_questions_completed_first (db : Db) (user_id : Z)
    (category : string) (args : question_args) :
  completion_times_valid db ->
  exists cs us : list (Question * option UserProgress),
    get_questions db user_id category args
    = mkResponse 200
        (BQuestions (category_name_of category)
           (Z.of_nat (length (cs ++ us)%list)) (List.map row_dict (cs ++ us)%list))
    /\ Permutation cs (List.filter row_completed (kept_rows db user_id category args))
    /\ Permutation us
         (List.filter (fun r => negb (row_completed r))
            (kept_rows db user_id category args))
    /\ StronglySorted
         (fun a b => opt_dt_le (row_completed_at a) (row_completed_at b) = true) cs
    /\ StronglySorted (fun a b => dt_le (row_time b) (row_time a) = true) us
    /\ (forall ts d, parse_timestamp ts = Some d -> dt_le datetime_min d = true)
    /\ (forall i j x y,
          nth_error (response_questions (get_questions db user_id category args)) i = Some x ->
          nth_error (response_questions (get_questions db user_id category args)) j = Some y ->
          qd_is_completed x = true -> qd_is_completed y = false -> (i < j)%nat).
Proof.
  intros Hv.
  pose proof (get_questions_rows db user_id category args) as Hrows.
  rewrite (completed_sort_by_time db user_id category args Hv) in Hrows.
  set (cs := py_sort row_completed_at opt_dt_lt false
               (List.filter row_completed (kept_rows db user_id category args))) in *.
  set (us := py_sort row_time dt_lt true
               (List.filter (fun r => negb (row_completed r))
                  (kept_rows db user_id category args))) in *.
  exists cs, us.
  assert (Hpc : Permutation cs
                  (List.filter row_completed (kept_rows db user_id category args)))
    by apply py_sort_perm.
  assert (Hpu : Permutation us
                  (List.filter (fun r => negb (row_completed r))
                     (kept_rows db user_id category args)))
    by apply py_sort_perm.
  split; [| split; [exact Hpc | split; [exact Hpu | split; [| split; [| split]]]]].
  - rewrite get_questions_shape, Hrows, List.length_map. reflexivity.
  - eapply StronglySorted_impl;
      [| apply (py_sort_sorted_asc row_completed_at opt_dt_lt
                  opt_dt_lt_asym opt_dt_ge_trans)].
    intros a b Hab. unfold key_le in Hab. unfold opt_dt_le. rewrite Hab. reflexivity.
  - eapply StronglySorted_impl;
      [| apply (py_sort_sorted_desc row_time dt_lt dt_lt_asym dt_ge_trans)].
    intros a b Hab. unfold key_ge in Hab. unfold dt_le. rewrite Hab. reflexivity.
  - intros ts d Hd. apply valid_datetime_ge_min. eapply parse_timestamp_valid, Hd.
  - rewrite Hrows, List.map_app.
    apply (blocks_in_order qd_is_completed).
    + apply List.Forall_forall. intros x Hx.
      apply List.in_map_iff in Hx. destruct Hx as (r & <- & Hr).
      eapply Permutation_in in Hr; [| exact Hpc].
      apply List.filter_In in Hr. destruct Hr as [_ Hr]. exact Hr.
    + apply List.Forall_forall. intros x Hx.
      apply List.in_map_iff in Hx. destruct Hx as (r & <- & Hr).
      eapply Permutation_in in Hr; [| exact Hpu].
      apply List.filter_In in Hr. destruct Hr as [_ Hr].
      apply negb_true_iff in Hr. exact Hr.
Qed.

(** ** The date filter *)

Lemma date_keep_iff (from_date to_date : option datetime) (q : Question) :
  date_keep from_date to_date q = true
  <-> (from_date = None /\ to_date = None)
      \/ exists d, parse_timestamp (q_timestamp q) = Some d
                   /\ (forall f, from_date = Some f -> dt_lt d f = false)
                   /\ (forall t, to_date = Some t -> dt_lt t d = false).
Proof.
  unfold date_keep. split.
  - destruct from_date as [f|], to_date as [t|]; simpl;
      try (intros _; left; split; reflexivity);
      destruct (parse_timestamp (q_timestamp q)) as [d|]; try discriminate;
      intros H; right; exists d; (split; [reflexivity |]).
    + destruct (dt_lt d f) eqn:Ef; [discriminate |].
      destruct (dt_lt t d) eqn:Et; [discriminate |].
      split; intros ? [= <-]; assumption.
    + destruct (dt_lt d f) eqn:Ef; [discriminate |].
      split; [intros ? [= <-]; assumption | intros ? [=]].
    + destruct (dt_lt t d) eqn:Et; [discriminate |].
      split; [intros ? [=] | intros ? [= <-]; assumption].
  - intros [[-> ->] | (d & Hd & Hf & Ht)]; [reflexivity |].
    rewrite Hd.
    destruct from_date as [f|], to_date as [t|]; simpl; try reflexivity.
    + rewrite (Hf f eq_refl), (Ht t eq_refl). reflexivity.
    + rewrite (Hf f eq_refl). reflexivity.
    + rewrite (Ht t eq_refl). reflexivity.
Qed.

(** ** The timestamp parser *)

Example parse_padded : parse_timestamp (Some "01/09/2023") = Some (mkdatetime 2023 1 9 0 0 0 0).
Proof. vm_compute. reflexivity. Qed.

Example parse_source_comment :
  parse_timestamp (Some "9/7/2022 11:48:35") = Some (mkdatetime 2022 9 7 11 48 35 0).
Proof. vm_compute. reflexivity. Qed.

Example parse_surrounding_space :
  parse_timestamp (Some " 12/31/2022   23:59:07 ") = Some (mkdatetime 2022 12 31 23 59 7 0).
Proof. vm_compute. reflexivity. Qed.

Example parse_unpadded_iso : parse_timestamp (Some "2023-6-5") = Some (mkdatetime 2023 6 5 0 0 0 0).
Proof. vm_compute. reflexivity. Qed.

Example parse_leap_day : parse_timestamp (Some "2/29/2024") = Some (mkdatetime 2024 2 29 0 0 0 0).
Proof. vm_compute. reflexivity. Qed.

Example parse_no_such_day : parse_timestamp (Some "2/29/2023") = None.
Proof. vm_compute. reflexivity. Qed.

Example parse_no_such_month : parse_timestamp (Some "13/7/2022") = None.
Proof. vm_compute. reflexivity. Qed.

Example parse_short_year : parse_timestamp (Some "1/1/23") = None.
Proof. vm_compute. reflexivity. Qed.

Example parse_leap_second : parse_timestamp (Some "1/7/2022 1:02:60") = None.
Proof. vm_compute. reflexivity. Qed.

Example parse_text_left_over : parse_timestamp (Some "1/7/2022 10:30") = None.
Proof. vm_compute. reflexivity. Qed.

Example parse_blank : parse_timestamp (Some "   ") = None.
Proof. vm_compute. reflexivity. Qed.

(** C3: [parse_timestamp] gives the first success among [strptime] with
    '%m/%d/%Y %H:%M:%S', with '%m/%d/%Y' and with '%Y-%m-%d', in this order,
    on the stripped string, and no value when all three fail (or when there
    is no string); "1/1/2023 10:00:00" and "2023-06-15" parse, "not-a-date"
    does not. *)
Theorem parse_timestamp_fallback :
  (forall s : string,
     parse_timestamp (Some s)
     = first_success
         (strptime (PyStr.strip s) F_mdY_HMS
          :: strptime (PyStr.strip s) F_mdY
          :: strptime (PyStr.strip s) F_Ymd :: nil))
  /\ parse_timestamp None = None
  /\ parse_timestamp (Some "1/1/2023 10:00:00") = Some (mkdatetime 2023 1 1 10 0 0 0)
  /\ strptime "1/1/2023 10:00:00" F_mdY_HMS = Some (mkdatetime 2023 1 1 10 0 0 0)
  /\ parse_timestamp (Some "2023-06-15") = Some (mkdatetime 2023 6 15 0 0 0 0)
  /\ strptime "2023-06-15" F_mdY_HMS = None
  /\ strptime "2023-06-15" F_mdY = None
  /\ strptime "2023-06-15" F_Ymd = Some (mkdatetime 2023 6 15 0 0 0 0)
  /\ parse_timestamp (Some "not-a-date") = None.
Proof.
  split.
  - intros s. unfold parse_timestamp.
    destruct s as [|c s]; [vm_compute; reflexivity |].
    cbn [PyStr.truthy negb first_success].
    destruct (strptime (PyStr.strip (String c s)) F_mdY_HMS); [reflexivity |].
    destruct (strptime (PyStr.strip (String c s)) F_mdY); [reflexivity |].
    destruct (strptime (PyStr.strip (String c s)) F_Ymd); reflexivity.
  - repeat split; vm_compute; reflexivity.
Qed.

(** ** Completion toggle *)

Lemma toggle_ok (db : Db) (user_id question_id : Z) (now : datetime) :
  toggle_question_completion db user_id question_id now CommitOk
  = (mkResponse 200
       (BToggle question_id (negb (effective_completed db user_id question_id))),
     mkDb (users db) (questions db)
       (<[(user_id, question_id) :=
            toggle_row (user_progress db !! (user_id, question_id)) now]>
          (user_progress db))).
Proof.
  unfold toggle_question_completion, effective_completed, toggle_row.
  destruct (user_progress db !! (user_id, question_id)); reflexivity.
Qed.

(** C4: two toggles in a row, both committed, leave the row of the pair with
    the completed flag that the pair had before (no row counting as not
    completed); its completion time is absent when that flag is false (and
    the time of the second toggle when it is true); the second response
    reports that flag, and no other row or table changes. *)
Theorem toggle_twice (db : Db) (user_id question_id : Z) (now1 now2 : datetime) :
  let c := effective_completed db user_id question_id in
  let db1 := snd (toggle_question_completion db user_id question_id now1 CommitOk) in
  let r2 := toggle_question_completion db1 user_id question_id now2 CommitOk in
  fst r2 = mkResponse 200 (BToggle question_id c)
  /\ user_progress (snd r2) !! (user_id, question_id)
     = Some {| is_completed := c;
               completed_at := if c then Some now2 else None |}
  /\ effective_completed (snd r2) user_id question_id = c
  /\ (forall k, k <> (user_id, question_id) ->
        user_progress (snd r2) !! k = user_progress db !! k)
  /\ users (snd r2) = users db /\ questions (snd r2) = questions db.
Proof.
  intros c db1 r2. subst r2 db1. rewrite !toggle_ok. cbn [fst snd user_progress users questions].
  unfold effective_completed at 1 2. cbn [user_progress].
  rewrite !lookup_insert_eq.
  subst c. unfold effective_completed, toggle_row.
  destruct (user_progress db !! (user_id, question_id)) as [p|] eqn:E.
  - destruct (is_completed p); cbn; repeat split; try reflexivity;
      intros k Hk; rewrite !lookup_insert_ne by congruence; reflexivity.
  - cbn. repeat split; try reflexivity;
      intros k Hk; rewrite !lookup_insert_ne by congruence; reflexivity.
Qed.

Lemma toggle_row_cases (progress : option UserProgress) (now : datetime) :
  toggle_row progress now = {| is_completed := false; completed_at := None |}
  \/ toggle_row progress now = {| is_completed := true; completed_at := Some now |}.
Proof.
  unfold toggle_row. destruct progress as [p|]; [| right; reflexivity].
  destruct (is_completed p); [left | right]; reflexivity.
Qed.

Lemma run_toggles_snoc (db : Db) (calls : list toggle_call) (c : toggle_call) :
  run_toggles db (calls ++ c :: nil) = apply_toggle (run_toggles db calls) c.
Proof. unfold run_toggles. rewrite List.fold_left_app. reflexivity. Qed.

Lemma row_invariant_snoc (db0 : Db) (calls : list toggle_call) (c : toggle_call)
    (k : Z * Z) (p : UserProgress) :
  leaves k c -> row_invariant db0 calls k p ->
  row_invariant db0 (calls ++ c :: nil) k p.
Proof.
  intros Hc [H | (Ht & pre & c0 & post & -> & Hk & Hok & Hat & Hresp & Hpost)];
    [left; exact H | right].
  split; [exact Ht |].
  exists pre, c0, (post ++ c :: nil)%list.
  rewrite <- List.app_assoc. cbn [List.app].
  repeat split; try assumption.
  apply Forall_app. split; [exact Hpost | constructor; [exact Hc | constructor]].
Qed.

(** C5: both branches of the toggle write a row that is either not
    completed and without a time, or completed with the time of this very
    request; a toggle request (committed or not) keeps the invariant of
    every row of the table; and starting from an empty [user_progress]
    table, after any sequence of toggle requests every row is not completed
    and without a time, or completed with a time, which is the clock
    reading of the request that last wrote the row and turned it to
    completed. *)
Theorem toggle_invariant :
  (forall progress now,
     toggle_row progress now = {| is_completed := false; completed_at := None |}
     \/ toggle_row progress now = {| is_completed := true; completed_at := Some now |})
  /\ (forall db user_id question_id now commit,
        (forall k p, user_progress db !! k = Some p -> row_ok p) ->
        forall k p,
          user_progress
            (snd (toggle_question_completion db user_id question_id now commit))
          !! k = Some p ->
          row_ok p)
  /\ (forall us qs calls k p,
        user_progress (run_toggles (mkDb us qs ∅) calls) !! k = Some p ->
        row_ok p /\ row_invariant (mkDb us qs ∅) calls k p).
Proof.
  split; [apply toggle_row_cases |].
  split.
  { intros db user_id question_id now commit Hdb k p.
    unfold toggle_question_completion. destruct commit as [|e]; cbn [snd user_progress].
    - destruct (decide ((user_id, question_id) = k)) as [Hk|Hk].
      + rewrite Hk, lookup_insert_eq. intros [= <-].
        destruct (toggle_row_cases (user_progress db !! k) now) as [Hr|Hr];
          rewrite Hr; split; cbn; intros; try congruence; eauto.
      + rewrite lookup_insert_ne by assumption. apply Hdb.
    - apply Hdb. }
  intros us qs calls k p Hlook.
  assert (Hinv : row_invariant (mkDb us qs ∅) calls k p).
  { revert k p Hlook.
    induction calls as [|c calls IH] using List.rev_ind; intros k p Hlook.
    - cbn in Hlook. rewrite lookup_empty in Hlook. discriminate.
    - rewrite run_toggles_snoc in Hlook.
      unfold apply_toggle, toggle_question_completion in Hlook.
      destruct (tc_commit c) as [|e] eqn:Ec.
      + cbn [snd user_progress] in Hlook.
        destruct (decide ((tc_user c, tc_question c) = k)) as [Hk|Hk].
        * rewrite Hk, lookup_insert_eq in Hlook. injection Hlook as <-.
          destruct (toggle_row_cases
                      (user_progress (run_toggles (mkDb us qs ∅) calls) !! k)
                      (tc_now c)) as [Hr|Hr]; rewrite Hr.
          { left. split; reflexivity. }
          right. split; [reflexivity |].
          exists calls, c, nil. repeat split; try assumption.
          -- unfold committed. rewrite Ec. reflexivity.
          -- unfold toggle_question_completion. rewrite Ec.
             cbn [fst]. rewrite Hk, Hr. reflexivity.
          -- constructor.
        * rewrite lookup_insert_ne in Hlook by assumption.
          apply row_invariant_snoc; [left; exact Hk | apply IH, Hlook].
      + cbn [snd] in Hlook.
        apply row_invariant_snoc; [| apply IH, Hlook].
        right. unfold committed. rewrite Ec. reflexivity. }
  split; [| exact Hinv].
  destruct Hinv as [[Hf Hn] | (Ht & pre & c & post & _ & _ & _ & Hat & _)].
  - split; [intros _; exact Hn | intros H; congruence].
  - split; [intros H; congruence | intros _; eexists; exact Hat].
Qed.

(** C10: the toggle does not look at the [questions] table.  With no
    question of the given identifier and no row yet, a toggle whose commit
    succeeds answers 200 with "completed" and creates the row, completed at
    the time of the request, exactly as it does when the question exists;
    a toggle whose commit raises (as it does in a store that enforces the
    foreign key of [user_progress.question_id]) answers 500 with the
    message of the exception and creates no row; and the status is 200 or
    500, never 404. *)
Theorem toggle_unknown_question (db : Db) (user_id question_id : Z)
    (now : datetime) :
  (forall q, In q (questions db) -> q_id q <> question_id) ->
  user_progress db !! (user_id, question_id) = None ->
  toggle_question_completion db user_id question_id now CommitOk
  = (mkResponse 200 (BToggle question_id true),
     mkDb (users db) (questions db)
       (<[(user_id, question_id) :=
            {| is_completed := true; completed_at := Some now |}]>
          (user_progress db)))
  /\ (forall e,
        toggle_question_completion db user_id question_id now (CommitFail e)
        = (mkResponse 500 (BError e), db))
  /\ (forall qs,
        let r := toggle_question_completion db user_id question_id now CommitOk in
        let r' := toggle_question_completion
                    (mkDb (users db) qs (user_progress db))
                    user_id question_id now CommitOk in
        fst r' = fst r /\ user_progress (snd r') = user_progress (snd r))
  /\ (forall commit,
        let r := toggle_question_completion db user_id question_id now commit in
        (status (fst r) = 200 \/ status (fst r) = 500)
        /\ (status (fst r) = 500 -> snd r = db)).
Proof.
  intros _ Hnone. split; [| split; [| split]].
  - unfold toggle_question_completion, toggle_row. rewrite Hnone. reflexivity.
  - intros e. reflexivity.
  - intros qs. unfold toggle_question_completion. cbn [user_progress fst snd].
    split; reflexivity.
  - intros commit. unfold toggle_question_completion.
    destruct commit; cbn [fst snd status]; split;
      [left; reflexivity | discriminate | right; reflexivity | reflexivity].
Qed.

(** The claim C10 read literally (every toggle of an unknown question
    creates the row and reports "completed") fails when the commit raises:
    the answer is 500 and the table has no row for the question. *)
Lemma toggle_unknown_question_commit_fails :
  ~ (forall (db : Db) (user_id question_id : Z) (now : datetime)
       (commit : commit_result),
       (forall q, In q (questions db) -> q_id q <> question_id) ->
       user_progress db !! (user_id, question_id) = None ->
       let r := toggle_question_completion db user_id question_id now commit in
       fst r = mkResponse 200 (BToggle question_id true)
       /\ user_progress (snd r) !! (user_id, question_id)
          = Some {| is_completed := true; completed_at := Some now |}).
Proof.
  intros H.
  destruct (H scenario_db 7 99 scenario_now
              (CommitFail "violates foreign key constraint user_progress_question_id_fkey"))
    as [Hr _].
  - intros q [<- | [<- | []]]; discriminate.
  - reflexivity.
  - discriminate Hr.
Qed.

(** ** Token check *)

Lemma prefix_bearer_space (s : string) :
  String.prefix "Bearer " s = true -> PyStr.contains_char " " s = true.
Proof.
  intros H.
  repeat (destruct s as [|? s]; cbn [String.prefix] in H; [discriminate |];
          match type of H with
          | context [ascii_dec ?a ?b] =>
              destruct (ascii_dec a b); [subst | discriminate]
          end).
  cbn. reflexivity.
Qed.

Lemma replace_bearer_no_space (s : string) :
  PyStr.contains_char " " s = false -> PyStr.replace_from "Bearer " "" 0 s = s.
Proof.
  induction s as [|c s IH]; intros H; [reflexivity |].
  cbn [PyStr.replace_from].
  destruct (String.prefix "Bearer " (String c s)) eqn:E.
  - apply prefix_bearer_space in E. congruence.
  - cbn [PyStr.contains_char] in H. apply orb_false_iff in H. destruct H as [_ H].
    rewrite IH by exact H. reflexivity.
Qed.

Lemma prefix_app (p s : string) : String.prefix p (p ++ s) = true.
Proof.
  induction p as [|c p IH]; [destruct s; reflexivity |].
  change (String c p ++ s)%string with (String c (p ++ s)).
  cbn [String.prefix]. destruct (ascii_dec c c); [exact IH | congruence].
Qed.

Lemma bearer_token_of_header (tok : string) :
  PyStr.contains_char " " tok = false ->
  bearer_token (Some ("Bearer " ++ tok)%string) = tok.
Proof.
  intros H. unfold bearer_token, get, PyStr.replace.
  pose proof (prefix_app "Bearer " tok) as E.
  change ("Bearer " ++ tok)%string
    with (String "B" (String "e" (String "a" (String "r" (String "e"
            (String "r" (String " " tok))))))) in *.
  cbn [PyStr.replace_from String.length Nat.pred].
  rewrite E.
  change ("" ++ PyStr.replace_from "Bearer " "" 0 tok)%string
    with (PyStr.replace_from "Bearer " "" 0 tok).
  apply replace_bearer_no_space, H.
Qed.

Lemma issued_token_outcome (SECRET_KEY : string)
    (jwt_encode : claims -> string -> string)
    (jwt_decode : string -> string -> Z -> jwt_result)
    {R : Type} (fail : response -> R) (f : Z -> string -> R)
    (user_id : Z) (email : string) (t0 now : Z) :
  jwt_issued_contract jwt_encode jwt_decode ->
  jwt_token_text jwt_encode ->
  let r := token_required SECRET_KEY jwt_decode fail
             (Some ("Bearer " ++ issue_token SECRET_KEY jwt_encode user_id email t0)%string)
             now f in
  (r = fail (mkResponse 401 (BError "Token expired"))
   /\ exp_in_24h t0 * 1000000 <= now)
  \/ (r = f user_id email /\ now < (exp_in_24h t0 + 1) * 1000000).
Proof.
  intros Hc Ht r. subst r. unfold token_required.
  fold (bearer_token (Some ("Bearer " ++ issue_token SECRET_KEY jwt_encode user_id email t0)%string)).
  unfold issue_token.
  set (c := {| c_user_id := Some user_id; c_email := Some email;
               c_exp := Some (exp_in_24h t0) |}).
  destruct (Ht c SECRET_KEY) as [Hne Hsp].
  rewrite (bearer_token_of_header _ Hsp), Hne. cbn [negb].
  specialize (Hc c SECRET_KEY now).
  destruct (jwt_decode (jwt_encode c SECRET_KEY) SECRET_KEY now) as [c'| |].
  - destruct Hc as [-> Hc]. right. split; [reflexivity |].
    apply Hc. reflexivity.
  - destruct Hc as (e & He & Hle). injection He as <-. left. split; [reflexivity | exact Hle].
  - contradiction.
Qed.

Lemma route_get_questions_accepted (SECRET_KEY : string)
    (jwt_decode : string -> string -> Z -> jwt_result)
    (db : Db) (authorization : option string) (now_us : Z)
    (category : string) (args : question_args) (user_id : Z) (email : string)
    (exp : option Z) :
  PyStr.truthy (bearer_token authorization) = true ->
  jwt_decode (bearer_token authorization) SECRET_KEY now_us
  = JwtOk (mkClaims (Some user_id) (Some email) exp) ->
  route_get_questions SECRET_KEY jwt_decode db authorization now_us category args
  = get_questions db user_id category args.
Proof.
  intros Ht Hd. unfold route_get_questions, token_required.
  fold (bearer_token authorization). rewrite Ht, Hd. reflexivity.
Qed.

Lemma route_toggle_accepted (SECRET_KEY : string)
    (jwt_decode : string -> string -> Z -> jwt_result)
    (db : Db) (authorization : option string) (now_us : Z)
    (question_id : Z) (now : datetime) (commit : commit_result)
    (user_id : Z) (email : string) (exp : option Z) :
  PyStr.truthy (bearer_token authorization) = true ->
  jwt_decode (bearer_token authorization) SECRET_KEY now_us
  = JwtOk (mkClaims (Some user_id) (Some email) exp) ->
  route_toggle SECRET_KEY jwt_decode db authorization now_us question_id now commit
  = toggle_question_completion db user_id question_id now commit.
Proof.
  intros Ht Hd. unfold route_toggle, token_required.
  fold (bearer_token authorization). rewrite Ht, Hd. reflexivity.
Qed.

(** C6: [token_required] answers 401 "Token required" when the header is
    absent or holds no token, 401 "Token expired" when [jwt.decode] raises
    [ExpiredSignatureError], 401 "Invalid token" when it raises another
    [InvalidTokenError].  A token that [login] or [signup] issued is, at any
    later time, either accepted or answered with "Token expired", never with
    "Invalid token"; once 24 hours and the running second have passed it is
    answered with "Token expired". *)
Theorem token_required_rejections (SECRET_KEY : string)
    (jwt_encode : claims -> string -> string)
    (jwt_decode : string -> string -> Z -> jwt_result)
    (f : Z -> string -> response) :
  jwt_issued_contract jwt_encode jwt_decode ->
  jwt_token_text jwt_encode ->
  let check := token_required SECRET_KEY jwt_decode (fun r => r) in
  let rejected msg := mkResponse 401 (BError msg) in
  (forall now, check None now f = rejected "Token required")
  /\ (forall authorization now,
        PyStr.truthy (bearer_token authorization) = false ->
        check authorization now f = rejected "Token required")
  /\ (forall authorization now,
        PyStr.truthy (bearer_token authorization) = true ->
        jwt_decode (bearer_token authorization) SECRET_KEY now = JwtExpired ->
        check authorization now f = rejected "Token expired")
  /\ (forall authorization now,
        PyStr.truthy (bearer_token authorization) = true ->
        jwt_decode (bearer_token authorization) SECRET_KEY now = JwtInvalid ->
        check authorization now f = rejected "Invalid token")
  /\ (forall user_id email t0 now,
        let header :=
          Some ("Bearer " ++ issue_token SECRET_KEY jwt_encode user_id email t0)%string in
        (check header now f = rejected "Token expired"
         \/ check header now f = f user_id email)
        /\ ((exp_in_24h t0 + 1) * 1000000 <= now ->
            check header now f = rejected "Token expired")
        /\ (now < exp_in_24h t0 * 1000000 ->
            check header now f = f user_id email)).
Proof.
  intros Hc Ht check rejected. subst check rejected.
  split; [reflexivity |].
  split.
  { intros a now H. unfold token_required. fold (bearer_token a). rewrite H. reflexivity. }
  split.
  { intros a now H E. unfold token_required. fold (bearer_token a).
    rewrite H, E. reflexivity. }
  split.
  { intros a now H E. unfold token_required. fold (bearer_token a).
    rewrite H, E. reflexivity. }
  intros user_id email t0 now header. subst header.
  destruct (issued_token_outcome SECRET_KEY jwt_encode jwt_decode
              (fun r => r) f user_id email t0 now Hc Ht) as [[E H]|[E H]];
    rewrite E.
  - split; [left; reflexivity |]. split; [reflexivity | lia].
  - split; [right; reflexivity |]. split; [lia | reflexivity].
Qed.

(** ** Signup and login *)

Lemma find_all_false {A : Type} (p : A -> bool) (l : list A) :
  (forall x, In x l -> p x = false) -> List.find p l = None.
Proof.
  induction l as [|x l IH]; intros H; simpl; [reflexivity |].
  rewrite (H x (or_introl eq_refl)). apply IH. intros y Hy. apply H. right. exact Hy.
Qed.

Lemma find_app_skip {A : Type} (p : A -> bool) (l l' : list A) :
  List.find p l = None -> List.find p (l ++ l') = List.find p l'.
Proof.
  induction l as [|x l IH]; simpl; [reflexivity |].
  destruct (p x); [discriminate | exact IH].
Qed.

Lemma truthy_length (s : string) :
  PyStr.truthy s = true <-> (0 < String.length s)%nat.
Proof. destruct s; simpl; split; intros; try reflexivity; try lia; discriminate. Qed.

(** C7, as the code has it: when the email is not empty once stripped of
    surrounding white space and lowercased, no user has that email, the
    password has at least 6 characters and the commit succeeds, [signup]
    answers 201 with a token and the new user, and a [login] with the same
    payload on the resulting database answers 200 with a token and that
    user; both use the same [hash_password], a function of the password. *)
Theorem signup_then_login (SECRET_KEY : string)
    (sha256_hexdigest : string -> string)
    (jwt_encode : claims -> string -> string)
    (db : Db) (data : credentials) (created_at : datetime) (now1 now2 : Z) :
  let email := PyStr.lower (PyStr.strip (get (cr_email data) "")) in
  let password := get (cr_password data) "" in
  PyStr.truthy email = true ->
  6 <= Z.of_nat (String.length password) ->
  (forall u, In u (users db) -> u_email u <> email) ->
  let r := signup SECRET_KEY sha256_hexdigest jwt_encode db data created_at now1
             CommitOk in
  fst r
  = mkResponse 201
      (BAuth (issue_token SECRET_KEY jwt_encode (next_user_id db) email now1)
         (next_user_id db) email (Some "Account created successfully"))
  /\ snd r
     = mkDb (users db
             ++ mkUser (next_user_id db) email (hash_password sha256_hexdigest password)
                  created_at :: nil)%list
         (questions db) (user_progress db)
  /\ login SECRET_KEY sha256_hexdigest jwt_encode (snd r) data now2
     = mkResponse 200
         (BAuth (issue_token SECRET_KEY jwt_encode (next_user_id db) email now2)
            (next_user_id db) email None).
Proof.
  intros email password Hemail Hlen Hfree r.
  assert (Hpw : PyStr.truthy password = true) by (apply truthy_length; lia).
  assert (Hnone : List.find (fun u => String.eqb (u_email u) email) (users db) = None).
  { apply find_all_false. intros u Hu. apply String.eqb_neq, Hfree, Hu. }
  assert (Hr : r = (mkResponse 201
                      (BAuth (issue_token SECRET_KEY jwt_encode (next_user_id db) email now1)
                         (next_user_id db) email (Some "Account created successfully")),
                    mkDb (users db
                          ++ mkUser (next_user_id db) email
                               (hash_password sha256_hexdigest password) created_at :: nil)%list
                      (questions db) (user_progress db))).
  { subst r. unfold signup. fold email. fold password.
    rewrite Hemail, Hpw. cbn [negb orb].
    destruct (Z.ltb_spec (Z.of_nat (String.length password)) 6) as [Hlt|_]; [lia |].
    rewrite Hnone. reflexivity. }
  rewrite Hr. cbn [fst snd]. split; [reflexivity |]. split; [reflexivity |].
  unfold login. fold email. fold password. cbn [users].
  rewrite Hemail, Hpw. cbn [negb orb].
  rewrite find_app_skip.
  - cbn [List.find u_email u_password_hash u_id].
    rewrite !String.eqb_refl. reflexivity.
  - apply find_all_false. intros u Hu.
    apply andb_false_iff. left. apply String.eqb_neq, Hfree, Hu.
Qed.

(** The claim C7 read literally (any non-empty email) fails: an email of
    one space is not empty, is not registered, and is rejected with 400. *)
Lemma signup_blank_email_rejected :
  ~ (forall (SECRET_KEY : string) (sha256_hexdigest : string -> string)
       (jwt_encode : claims -> string -> string)
       (db : Db) (data : credentials) (created_at : datetime) (now : Z),
       PyStr.truthy (get (cr_email data) "") = true ->
       6 <= Z.of_nat (String.length (get (cr_password data) "")) ->
       (forall u, In u (users db) ->
          u_email u <> PyStr.lower (PyStr.strip (get (cr_email data) ""))) ->
       status (fst (signup SECRET_KEY sha256_hexdigest jwt_encode db data
                      created_at now CommitOk)) = 201).
Proof.
  intros H.
  specialize (H "key" (fun s => s) (fun _ _ => "token")
                (mkDb nil nil ∅)
                (mkCredentials (Some " ") (Some "secret"))
                datetime_min 0).
  assert (E : status (fst (signup "key" (fun s => s) (fun _ _ => "token")
                             (mkDb nil nil ∅)
                             (mkCredentials (Some " ") (Some "secret"))
                             datetime_min 0 CommitOk)) = 400)
    by reflexivity.
  rewrite E in H. 
  assert (400 = 201) as Habs; [| discriminate Habs].
  apply H; [reflexivity | cbn; lia | intros u []].
Qed.

(** ** Feedback in demo mode *)

Lemma contains_prefix (needle s : string) : contains needle (needle ++ s) = true.
Proof.
  pose proof (prefix_app needle s) as H.
  destruct (needle ++ s)%string; cbn [contains]; rewrite H; reflexivity.
Qed.

Lemma contains_app_r (needle a b : string) :
  contains needle b = true -> contains needle (a ++ b) = true.
Proof.
  intros H. induction a as [|c a IH]; [exact H |].
  change (String c a ++ b)%string with (String c (a ++ b)).
  cbn [contains]. rewrite IH. apply orb_true_r.
Qed.

Lemma string_app_assoc (a b c : string) : ((a ++ b) ++ c = a ++ (b ++ c))%string.
Proof.
  induction a as [|x a IH]; [reflexivity |].
  change (String x a ++ b)%string with (String x (a ++ b)).
  change (String x (a ++ b) ++ c)%string with (String x ((a ++ b) ++ c)).
  change (String x a ++ (b ++ c))%string with (String x (a ++ (b ++ c))).
  rewrite IH. reflexivity.
Qed.

(** C8, as the code has it: with a non-empty question and no Gemini key the
    endpoint answers 200 with model "demo" and the demo text, a fixed
    template around the first 100 characters of the question, and makes no
    call to the service; the text names the number of attached files when
    there is at least one, and has no file note when there is none. *)
Theorem demo_mode_feedback (GEMINI_API_KEY : string)
    (b64decode : string -> option string)
    (generative_model :
       string -> string -> (list content_part -> string + string) + string)
    (data : feedback_request) :
  PyStr.truthy (get (fr_question data) "") = true ->
  PyStr.truthy GEMINI_API_KEY = false ->
  let question := get (fr_question data) "" in
  let files := get (fr_files data) nil in
  let r := get_ai_feedback GEMINI_API_KEY b64decode generative_model data in
  r = (mkResponse 200
         (BFeedback
            (demo_head ++ PyStr.take 100 question ++ demo_middle
             ++ file_mention files ++ demo_tail)%string
            "demo" None),
       nil)
  /\ (files = nil -> file_mention files = "")
  /\ (files <> nil ->
      file_mention files
      = (nl ++ nl ++ "*Note: " ++ file_count_note (length files)
         ++ ". In demo mode, file analysis is not available.*")%string
      /\ contains (file_count_note (length files)) (response_feedback (fst r)) = true).
Proof.
  intros Hq Hk question files r.
  assert (Hr : r = (mkResponse 200
                      (BFeedback (demo_feedback question files) "demo" None), nil)).
  { subst r question files. unfold get_ai_feedback.
    rewrite Hq, Hk. reflexivity. }
  split; [rewrite Hr; reflexivity |].
  split; [intros ->; reflexivity |].
  intros Hne.
  assert (Hm : file_mention files
               = (nl ++ nl ++ "*Note: " ++ file_count_note (length files)
                  ++ ". In demo mode, file analysis is not available.*")%string).
  { destruct files as [|x files']; [congruence |].
    unfold file_mention, file_count_note.
    rewrite !string_app_assoc. reflexivity. }
  split; [exact Hm |].
  rewrite Hr. cbn [fst response_feedback payload]. unfold demo_feedback.
  rewrite Hm, !string_app_assoc.
  do 6 apply contains_app_r.
  apply contains_prefix.
Qed.

(** The claim C8 read literally (the text always refers to the number of
    files) fails when no file is attached: the text then has no file note. *)
Lemma demo_feedback_without_files :
  ~ (forall (GEMINI_API_KEY : string) (b64decode : string -> option string)
       (generative_model :
          string -> string -> (list content_part -> string + string) + string)
       (data : feedback_request),
       PyStr.truthy (get (fr_question data) "") = true ->
       PyStr.truthy GEMINI_API_KEY = false ->
       contains (pretty (length (get (fr_files data) nil)) ++ " file")%string
         (response_feedback
            (fst (get_ai_feedback GEMINI_API_KEY b64decode generative_model data)))
       = true).
Proof.
  intros H.
  specialize (H "" (fun _ => None) (fun _ _ => inr "")
                (mkFeedbackRequest (Some "Design a product") None None None)
                eq_refl eq_refl).
  vm_compute in H. discriminate H.
Qed.

(** ** Categories *)

Lemma labels_In (qs : list Question) (l : string) :
  In l (labels qs)
  <-> (exists q, In q qs /\ q_question_category q = Some l) /\ l <> "".
Proof.
  unfold labels. rewrite List.in_flat_map. split.
  - intros (q & Hq & Hl).
    destruct (q_question_category q) as [l'|] eqn:E; [| destruct Hl].
    destruct l' as [|c l']; [destruct Hl |].
    destruct Hl as [<- | []]. split; [exists q; auto | discriminate].
  - intros [(q & Hq & E) Hne]. exists q. split; [exact Hq |].
    rewrite E. destruct l; [congruence | left; reflexivity].
Qed.

Lemma count_label_questions (qs : list Question) (l : string) :
  l <> "" -> count_label qs l = questions_with_label qs l.
Proof.
  intros Hne. unfold count_label, questions_with_label, labels. f_equal.
  induction qs as [|q qs IH]; [reflexivity |].
  cbn [List.flat_map List.filter]. rewrite List.filter_app, List.length_app, IH.
  unfold sql_eq at 2.
  destruct (q_question_category q) as [l'|]; [| reflexivity].
  destruct l' as [|c l']; cbn [PyStr.truthy List.filter].
  - destruct (String.eqb_spec "" l) as [E|E]; [congruence | reflexivity].
  - rewrite (String.eqb_sym l). destruct (String.eqb (String c l') l); reflexivity.
Qed.

Lemma distinct_In (l : list string) (x : string) : In x (distinct l) <-> In x l.
Proof.
  induction l as [|y l IH]; [reflexivity |].
  cbn [distinct]. split.
  - intros [-> | H]; [left; reflexivity |].
    apply List.filter_In in H. right. apply IH, H.
  - intros [-> | H]; [left; reflexivity |].
    destruct (String.eqb_spec y x) as [E|E]; [left; exact E |].
    right. apply List.filter_In. split; [apply IH, H |].
    apply negb_true_iff, String.eqb_neq, E.
Qed.

Lemma NoDup_filter {A : Type} (f : A -> bool) (l : list A) :
  List.NoDup l -> List.NoDup (List.filter f l).
Proof.
  induction 1 as [|x l Hx Hnd IH]; cbn [List.filter]; [constructor |].
  destruct (f x); [| exact IH].
  constructor; [| exact IH].
  intros H. apply List.filter_In in H. apply Hx, H.
Qed.

Lemma distinct_NoDup (l : list string) : List.NoDup (distinct l).
Proof.
  induction l as [|y l IH]; cbn [distinct]; [constructor |].
  constructor; [| apply NoDup_filter, IH].
  intros H. apply List.filter_In in H. destruct H as [_ H].
  rewrite String.eqb_refl in H. discriminate.
Qed.

Lemma StronglySorted_map {A B : Type} (f : A -> B) (R : B -> B -> Prop)
    (l : list A) :
  StronglySorted (fun x y => R (f x) (f y)) l -> StronglySorted R (List.map f l).
Proof.
  induction 1 as [|x l Hs IH Hall]; cbn [List.map]; constructor; [exact IH |].
  apply List.Forall_map. exact Hall.
Qed.

Lemma zltb_asym (a b : Z) : Z.ltb a b = true -> Z.ltb b a = false.
Proof. rewrite Z.ltb_lt, Z.ltb_ge. lia. Qed.

Lemma zltb_ge_trans (a b c : Z) :
  Z.ltb a b = false -> Z.ltb b c = false -> Z.ltb a c = false.
Proof. rewrite !Z.ltb_ge. lia. Qed.

(** C9, as the code has it: [get_categories] returns one entry for each
    label that occurs (not [NULL], not empty) among the questions, with the
    number of questions that carry the label, the largest count first, and
    with the slug made by lowercasing the label, replacing each " & " (the
    ampersand with its two spaces) with one hyphen and then each remaining
    space with a hyphen; for each of the seven labels of [category_map] the
    slug is made of lowercase letters and hyphens only and is the key under
    which [get_questions] finds the label. *)
Theorem get_categories_slugs (db : Db) :
  get_categories db
  = mkResponse 200 (BCategories (response_categories (get_categories db)))
  /\ (forall e,
        In e (response_categories (get_categories db))
        <-> exists l,
              (exists q, In q (questions db) /\ q_question_category q = Some l)
              /\ l <> "" /\ e = entry_of (questions db) l)
  /\ List.NoDup (List.map ce_name (response_categories (get_categories db)))
  /\ StronglySorted (fun a b => ce_count b <= ce_count a)
       (response_categories (get_categories db))
  /\ (forall l,
        slug l = PyStr.replace " " "-" (PyStr.replace " & " "-" (PyStr.lower l)))
  /\ Forall (fun kv => slug (snd kv) = fst kv
                       /\ string_forallb slug_char (slug (snd kv)) = true
                       /\ dict_get category_map (slug (snd kv)) = Some (snd kv))
       category_map
  /\ List.map snd category_map
     = "Product Design" :: "Execution & Metrics" :: "Product Strategy"
       :: "Behavioral" :: "Estimation & Pricing" :: "Technical" :: "Other" :: nil.
Proof.
  split; [reflexivity |].
  assert (Hperm : Permutation
                    (group_by_category (questions db))
                    (List.map (fun l => (l, count_label (questions db) l))
                       (distinct (labels (questions db)))))
    by apply py_sort_perm.
  split; [| split; [| split; [| split; [| split]]]].
  - intros e. unfold get_categories, response_categories. cbn [payload].
    rewrite List.in_map_iff. split.
    + intros (r & <- & Hr).
      eapply Permutation_in in Hr; [| exact Hperm].
      apply List.in_map_iff in Hr. destruct Hr as (l & <- & Hl).
      apply distinct_In, labels_In in Hl. destruct Hl as [Hq Hne].
      exists l. split; [exact Hq |]. split; [exact Hne |].
      unfold entry_of. cbn [fst snd]. rewrite count_label_questions by exact Hne.
      reflexivity.
    + intros (l & Hq & Hne & ->).
      exists (l, count_label (questions db) l). split.
      * unfold entry_of. cbn [fst snd]. rewrite count_label_questions by exact Hne.
        reflexivity.
      * eapply Permutation_in; [symmetry; exact Hperm |].
        apply List.in_map_iff. exists l. split; [reflexivity |].
        apply distinct_In, labels_In. split; assumption.
  - unfold get_categories, response_categories. cbn [payload].
    rewrite List.map_map. cbn [ce_name].
    eapply Permutation.Permutation_NoDup.
    + symmetry. apply Permutation_map. exact Hperm.
    + rewrite List.map_map. cbn [fst]. rewrite List.map_id. apply distinct_NoDup.
  - unfold get_categories, response_categories. cbn [payload].
    apply StronglySorted_map. cbn [ce_count].
    eapply StronglySorted_impl;
      [| apply (py_sort_sorted_desc (A := string * Z) snd Z.ltb
                  zltb_asym zltb_ge_trans)].
    intros x y Hxy. unfold key_ge in Hxy. apply Z.ltb_ge in Hxy. exact Hxy.
  - reflexivity.
  - repeat constructor; vm_compute; reflexivity.
  - reflexivity.
Qed.

(** The claim C9 read literally (spaces and "&" each turned into a hyphen)
    fails on the label "Execution & Metrics": its slug is
    "execution-metrics", not "execution---metrics". *)
Lemma slug_differs_from_wording :
  ~ (forall (db : Db) (e : category_entry),
       In e (response_categories (get_categories db)) ->
       ce_path e = spec_slug (ce_name e)).
Proof.
  intros H.
  specialize (H (mkDb nil
                   (mkQuestion 1 (Some "3/1/2023") None None None None None None
                      None (Some "Execution & Metrics") :: nil) ∅)
                (mk_category_entry "Execution & Metrics" "execution-metrics" 1)).
  assert (E : spec_slug "Execution & Metrics" = "execution---metrics")
    by (vm_compute; reflexivity).
  cbn [ce_path ce_name] in H. rewrite E in H.
  assert ("execution-metrics" = "execution---metrics") as Habs; [| discriminate Habs].
  apply H. vm_compute. left. reflexivity.
Qed.

(** ** Scenarios *)

Example scenario_newest_first :
  List.map qd_id (response_questions (get_questions scenario_db 7 "product-design" no_args))
  = 2 :: 1 :: nil.
Proof. vm_compute. reflexivity. Qed.

Example scenario_completed_first :
  List.map qd_id
    (response_questions (get_questions scenario_db_done 7 "product-design" no_args))
  = 1 :: 2 :: nil.
Proof. vm_compute. reflexivity. Qed.

Example scenario_february_empty :
  get_questions scenario_db 7 "product-design"
    (mkArgs None (Some "2023-02-01") (Some "2023-02-28"))
  = mkResponse 200 (BQuestions "Product Design" 0 nil).
Proof. vm_compute. reflexivity. Qed.

Example scenario_bounds_inclusive :
  List.map qd_id
    (response_questions
       (get_questions scenario_db 7 "product-design"
          (mkArgs None (Some "2023-03-01") (Some "2023-03-02"))))
  = 2 :: 1 :: nil.
Proof. vm_compute. reflexivity. Qed.

Lemma scenario_db_done_valid : completion_times_valid scenario_db_done.
Proof.
  intros k p t Hk Ht. cbn [scenario_db_done user_progress] in Hk.
  apply lookup_singleton_Some in Hk. destruct Hk as [_ <-].
  cbn in Ht. injection Ht as <-. reflexivity.
Qed.

Lemma get_questions_completed_first_witness :
  completion_times_valid scenario_db_done
  /\ exists cs us : list (Question * option UserProgress),
       get_questions scenario_db_done 7 "product-design" no_args
       = mkResponse 200
           (BQuestions "Product Design"
              (Z.of_nat (length (cs ++ us)%list)) (List.map row_dict (cs ++ us)%list))
       /\ StronglySorted
            (fun a b => opt_dt_le (row_completed_at a) (row_completed_at b) = true) cs
       /\ StronglySorted (fun a b => dt_le (row_time b) (row_time a) = true) us.
Proof.
  split; [exact scenario_db_done_valid |].
  destruct (get_questions_completed_first scenario_db_done 7 "product-design"
              no_args scenario_db_done_valid)
    as (cs & us & H1 & _ & _ & H4 & H5 & _).
  exists cs, us. split; [exact H1 | split; [exact H4 | exact H5]].
Defined.

(** ** The small codec meets the PyJWT contract *)

Lemma bits_pos_bits (p : positive) : bits_pos (pos_bits p) = Some p.
Proof. induction p as [p IH|p IH|]; cbn; rewrite ?IH; reflexivity. Qed.

Lemma pos_bits_no_space (p : positive) : PyStr.contains_char " " (pos_bits p) = false.
Proof. induction p as [p IH|p IH|]; cbn; rewrite ?IH; reflexivity. Qed.

Lemma toy_contract : jwt_issued_contract toy_encode toy_decode.
Proof.
  intros [u e x] k now. unfold toy_encode, toy_decode, claims_tuple.
  cbn [c_user_id c_email c_exp].
  rewrite bits_pos_bits. cbn [mbind option_bind].
  rewrite decode_encode.
  destruct x as [t|]; cbn [c_exp].
  - destruct (Z.leb_spec (t * 1000000) now).
    + exists t. split; [reflexivity | assumption].
    + split; [reflexivity |]. intros e' [= <-]. lia.
  - split; [reflexivity |]. intros e' [=].
Qed.

Lemma toy_token_text : jwt_token_text toy_encode.
Proof.
  intros c k. unfold toy_encode. split; [reflexivity |].
  cbn [PyStr.contains_char]. rewrite pos_bits_no_space. reflexivity.
Qed.

Lemma token_required_rejections_witness :
  jwt_issued_contract toy_encode toy_decode
  /\ jwt_token_text toy_encode
  /\ token_required "secret" toy_decode (fun r => r) None 0
       (fun _ _ => mkResponse 200 (BToggle 1 true))
     = mkResponse 401 (BError "Token required")
  /\ token_required "secret" toy_decode (fun r => r)
       (Some ("Bearer " ++ issue_token "secret" toy_encode 7 "pm@example.com" 0)%string)
       86401000000
       (fun _ _ => mkResponse 200 (BToggle 1 true))
     = mkResponse 401 (BError "Token expired").
Proof.
  split; [exact toy_contract |]. split; [exact toy_token_text |].
  destruct (token_required_rejections "secret" toy_encode toy_decode
              (fun _ _ => mkResponse 200 (BToggle 1 true))
              toy_contract toy_token_text)
    as (H1 & _ & _ & _ & H5).
  split; [apply H1 |].
  destruct (H5 7 "pm@example.com" 0 86401000000) as (_ & Hexp & _).
  apply Hexp. vm_compute. discriminate.
Defined.

Lemma signup_then_login_witness :
  let data := mkCredentials (Some "  PM@Example.com ") (Some "secret") in
  let r := signup "secret" (fun s => s) toy_encode scenario_db data datetime_min 0
             CommitOk in
  status (fst r) = 201
  /\ status (login "secret" (fun s => s) toy_encode (snd r) data 5000000) = 200.
Proof.
  intros data r.
  destruct (signup_then_login "secret" (fun s => s) toy_encode scenario_db data
              datetime_min 0 5000000)
    as (H1 & _ & H3).
  - reflexivity.
  - cbn. lia.
  - intros u [].
  - subst r. rewrite H1. rewrite H3. split; reflexivity.
Defined.

Lemma demo_mode_feedback_witness :
  let data :=
    mkFeedbackRequest (Some "Design a product") (Some "") None
      (Some (mkAttachment (Some "a.png") (Some "image/png") (Some "AAAA") :: nil)) in
  contains "You attached 1 file(s)"
    (response_feedback
       (fst (get_ai_feedback "" (fun _ => None) (fun _ _ => inr "") data))) = true
  /\ snd (get_ai_feedback "" (fun _ => None) (fun _ _ => inr "") data) = nil.
Proof.
  intros data.
  destruct (demo_mode_feedback "" (fun _ => None) (fun _ _ => inr "") data
              eq_refl eq_refl)
    as (H1 & _ & H3).
  split.
  - apply H3. discriminate.
  - rewrite H1. reflexivity.
Defined.

Lemma toggle_unknown_question_witness :
  toggle_question_completion scenario_db 7 99 (mkdatetime 2024 1 15 9 30 0 0) CommitOk
  = (mkResponse 200 (BToggle 99 true),
     mkDb nil scenario_questions
       (<[(7, 99) := mkUserProgress true (Some (mkdatetime 2024 1 15 9 30 0 0))]> ∅))
  /\ toggle_question_completion scenario_db 7 99 (mkdatetime 2024 1 15 9 30 0 0)
       (CommitFail "violates foreign key constraint")
     = (mkResponse 500 (BError "violates foreign key constraint"), scenario_db).
Proof.
  destruct (toggle_unknown_question scenario_db 7 99 (mkdatetime 2024 1 15 9 30 0 0))
    as (H1 & H2 & _).
  - intros q [<- | [<- | []]]; discriminate.
  - reflexivity.
  - split; [exact H1 | apply H2].
Defined.

(** * Further properties *)

(** ** Login *)

Lemma find_exists {A : Type} (p : A -> bool) (l : list A) :
  (exists x, In x l /\ p x = true) -> exists y, List.find p l = Some y.
Proof.
  intros (x & Hx & Hp). destruct (List.find p l) as [y|] eqn:E; [eauto |].
  rewrite (List.find_none _ _ E x Hx) in Hp. discriminate.
Qed.

(** X1: [login] answers 400 exactly when the normalized email or the
    password is empty, 200 exactly when both are present and some user has
    that email and the hash of that password, and 401 otherwise; the user
    and the token of a 200 answer are those of such a user. *)
Theorem login_outcomes (SECRET_KEY : string)
    (sha256_hexdigest : string -> string)
    (jwt_encode : claims -> string -> string)
    (db : Db) (data : credentials) (now_us : Z) :
  let email := PyStr.lower (PyStr.strip (get (cr_email data) "")) in
  let password := get (cr_password data) "" in
  let known u :=
    u_email u = email /\ u_password_hash u = sha256_hexdigest password in
  let r := login SECRET_KEY sha256_hexdigest jwt_encode db data now_us in
  (status r = 400 <-> PyStr.truthy email = false \/ PyStr.truthy password = false)
  /\ (status r = 200
      <-> PyStr.truthy email = true /\ PyStr.truthy password = true
          /\ exists u, In u (users db) /\ known u)
  /\ (status r = 401
      <-> PyStr.truthy email = true /\ PyStr.truthy password = true
          /\ forall u, In u (users db) -> ~ known u)
  /\ (forall token user_id user_email message,
        payload r = BAuth token user_id user_email message ->
        exists u, In u (users db) /\ known u
                  /\ user_id = u_id u /\ user_email = u_email u
                  /\ token = issue_token SECRET_KEY jwt_encode (u_id u) (u_email u) now_us).
Proof.
  intros email password known r. subst r. unfold login.
  fold email. fold password. unfold hash_password.
  set (p := fun u => String.eqb (u_email u) email
                     && String.eqb (u_password_hash u) (sha256_hexdigest password)).
  assert (Hp : forall u, p u = true <-> known u).
  { intros u. unfold p, known. rewrite andb_true_iff, !String.eqb_eq. reflexivity. }
  destruct (PyStr.truthy email), (PyStr.truthy password); cbn [negb orb status payload];
    try (repeat split; try (intros; intuition (discriminate || lia));
         intros; discriminate).
  destruct (List.find p (users db)) as [u|] eqn:E; cbn [status payload].
  - apply List.find_some in E. destruct E as [Hin Hu]. apply Hp in Hu.
    split; [split; [lia | intros [H|H]; discriminate] |].
    split; [split; [intros _; repeat split; eauto | reflexivity] |].
    split.
    + split; [lia |]. intros (_ & _ & H). exfalso. apply (H u Hin Hu).
    + intros token user_id user_email message [= <- <- <- <-].
      exists u. repeat split; try assumption; apply Hu.
  - pose proof (List.find_none _ _ E) as Hnone.
    split; [split; [lia | intros [H|H]; discriminate] |].
    split.
    + split; [lia |]. intros (_ & _ & u & Hin & Hu).
      apply Hp in Hu. rewrite (Hnone u Hin) in Hu. discriminate.
    + split.
      * split; [| reflexivity]. intros _. repeat split.
        intros u Hin Hu. apply Hp in Hu. rewrite (Hnone u Hin) in Hu. discriminate.
      * intros ? ? ? ? [=].
Qed.

(** ** Signup *)

Lemma signup_cases (SECRET_KEY : string) (sha256_hexdigest : string -> string)
    (jwt_encode : claims -> string -> string)
    (db : Db) (data : credentials) (created_at : datetime) (now_us : Z)
    (commit : commit_result) :
  let email := PyStr.lower (PyStr.strip (get (cr_email data) "")) in
  let password := get (cr_password data) "" in
  let valid :=
    PyStr.truthy email = true /\ 6 <= Z.of_nat (String.length password)
    /\ forall u, In u (users db) -> u_email u <> email in
  let r := signup SECRET_KEY sha256_hexdigest jwt_encode db data created_at now_us
             commit in
  (~ valid /\ status (fst r) = 400 /\ snd r = db)
  \/ (valid /\ exists e,
        commit = CommitFail e
        /\ r = (mkResponse 500 (BError ("Registration failed: " ++ e)%string), db))
  \/ (valid /\ commit = CommitOk
      /\ status (fst r) = 201
      /\ snd r
         = mkDb (users db
                 ++ mkUser (next_user_id db) email (sha256_hexdigest password)
                      created_at :: nil)%list
             (questions db) (user_progress db)).
Proof.
  intros email password valid r. subst r valid. unfold signup.
  fold email. fold password.
  destruct (PyStr.truthy email) eqn:He; cbn [negb orb].
  2:{ left. split; [intros (H & _); discriminate | split; reflexivity]. }
  destruct (PyStr.truthy password) eqn:Hp; cbn [negb orb].
  2:{ left. split; [| split; reflexivity].
      intros (_ & H & _). destruct password; [cbn in H; lia | discriminate]. }
  destruct (Z.ltb_spec (Z.of_nat (String.length password)) 6) as [Hlt|Hge].
  { left. split; [intros (_ & H & _); lia | split; reflexivity]. }
  destruct (List.find (fun u => String.eqb (u_email u) email) (users db))
    as [u|] eqn:E; cbn [is_some].
  - apply List.find_some in E. destruct E as [Hin Hu]. apply String.eqb_eq in Hu.
    left. split; [| split; reflexivity].
    intros (_ & _ & H). apply (H u Hin Hu).
  - assert (Hfree : forall u, In u (users db) -> u_email u <> email).
    { intros u Hin. apply String.eqb_neq. apply (List.find_none _ _ E u Hin). }
    destruct commit as [|e].
    + right. right. repeat split; assumption.
    + right. left. split; [repeat split; assumption |].
      exists e. split; reflexivity.
Qed.

(** X2: [signup] answers 201 exactly when the normalized email is not
    empty, the password has at least 6 characters, no user has that email
    and the commit succeeds; a payload that fails one of the three checks
    gets 400, a failed commit gets 500 with its message; and unless the
    answer is 201 the database is left as it was. *)
Theorem signup_outcomes (SECRET_KEY : string)
    (sha256_hexdigest : string -> string)
    (jwt_encode : claims -> string -> string)
    (db : Db) (data : credentials) (created_at : datetime) (now_us : Z)
    (commit : commit_result) :
  let email := PyStr.lower (PyStr.strip (get (cr_email data) "")) in
  let password := get (cr_password data) "" in
  let valid :=
    PyStr.truthy email = true /\ 6 <= Z.of_nat (String.length password)
    /\ forall u, In u (users db) -> u_email u <> email in
  let r := signup SECRET_KEY sha256_hexdigest jwt_encode db data created_at now_us
             commit in
  (status (fst r) = 201 <-> valid /\ commit = CommitOk)
  /\ (status (fst r) = 400 <-> ~ valid)
  /\ (status (fst r) = 500 <-> valid /\ exists e, commit = CommitFail e)
  /\ (forall e, valid -> commit = CommitFail e ->
        payload (fst r) = BError ("Registration failed: " ++ e)%string)
  /\ (status (fst r) <> 201 -> snd r = db).
Proof.
  intros email password valid r.
  pose proof (signup_cases SECRET_KEY sha256_hexdigest jwt_encode db data
                created_at now_us commit) as H.
  cbv zeta in H. fold email in H. fold password in H. fold valid in H. fold r in H.
  destruct H as [(Hnv & Hs & Hdb) | [(Hv & e & Hc & Hr) | (Hv & Hc & Hs & Hdb)]].
  - rewrite Hs. split; [split; [lia | tauto] |].
    split; [tauto |]. split; [split; [lia | tauto] |].
    split; [tauto | intros _; exact Hdb].
  - rewrite Hr. cbn [fst snd status payload]. subst commit.
    split; [split; [lia | intros [_ H]; discriminate] |].
    split; [split; [lia | tauto] |].
    split; [split; eauto |].
    split; [intros e0 _ [= <-]; reflexivity | reflexivity].
  - rewrite Hs. subst commit.
    split; [tauto |]. split; [split; [lia | tauto] |].
    split; [split; [lia | intros (_ & e & He); discriminate] |].
    split; [intros e _ He; discriminate | intros H; lia].
Qed.

Lemma next_user_id_fresh (db : Db) (u : User) :
  In u (users db) -> u_id u < next_user_id db.
Proof.
  unfold next_user_id. induction (users db) as [|v l IH]; intros Hin; [destruct Hin |].
  cbn [List.fold_right]. destruct Hin as [-> | Hin]; [lia |].
  specialize (IH Hin). lia.
Qed.

Lemma NoDup_snoc {A : Type} (l : list A) (x : A) :
  List.NoDup l -> ~ In x l -> List.NoDup (l ++ x :: nil).
Proof.
  intros Hl Hx. apply List.NoDup_app; [exact Hl | repeat constructor; intros [] |].
  intros y Hy [<- | []]. contradiction.
Qed.

(** X3: [signup] keeps the [users] table well formed: when emails and
    identifiers are unique before the request they are unique after it,
    whatever the payload and the outcome of the commit; the users that
    existed stay as they were, at most one user is added, and the other
    tables are not touched. *)
Theorem signup_keeps_users_unique (SECRET_KEY : string)
    (sha256_hexdigest : string -> string)
    (jwt_encode : claims -> string -> string)
    (db : Db) (data : credentials) (created_at : datetime) (now_us : Z)
    (commit : commit_result) :
  List.NoDup (List.map u_email (users db)) ->
  List.NoDup (List.map u_id (users db)) ->
  let db' := snd (signup SECRET_KEY sha256_hexdigest jwt_encode db data
                    created_at now_us commit) in
  List.NoDup (List.map u_email (users db'))
  /\ List.NoDup (List.map u_id (users db'))
  /\ (exists added, users db' = (users db ++ added)%list /\ (length added <= 1)%nat)
  /\ questions db' = questions db
  /\ user_progress db' = user_progress db.
Proof.
  intros Hemails Hids db'.
  pose proof (signup_cases SECRET_KEY sha256_hexdigest jwt_encode db data
                created_at now_us commit) as H.
  cbv zeta in H. fold db' in H.
  destruct H as [(_ & _ & Hdb) | [(_ & e & _ & Hr) | ((_ & _ & Hfree) & _ & _ & Hdb)]].
  - rewrite Hdb. repeat split; try assumption.
    exists nil. rewrite List.app_nil_r. split; [reflexivity | cbn; lia].
  - assert (Hdb : db' = db) by (subst db'; rewrite Hr; reflexivity).
    rewrite Hdb. repeat split; try assumption.
    exists nil. rewrite List.app_nil_r. split; [reflexivity | cbn; lia].
  - rewrite Hdb. cbn [users questions user_progress].
    rewrite !List.map_app. cbn [List.map u_email u_id].
    split; [| split; [| split; [| split; reflexivity]]].
    + apply NoDup_snoc; [exact Hemails |].
      intros Hin. apply List.in_map_iff in Hin. destruct Hin as (u & Hu & Hin).
      apply (Hfree u Hin Hu).
    + apply NoDup_snoc; [exact Hids |].
      intros Hin. apply List.in_map_iff in Hin. destruct Hin as (u & Hu & Hin).
      pose proof (next_user_id_fresh db u Hin). lia.
    + eexists. split; [reflexivity | cbn; lia].
Qed.

(** X4: the duplicate check of [signup] is on the normalized email: once a
    signup has answered 201, a later signup whose email is the same up to
    surrounding white space and letter case is answered with 400, whatever
    its password and the outcome of the commit, and changes nothing. *)
Theorem signup_duplicate_rejected (SECRET_KEY : string)
    (sha256_hexdigest : string -> string)
    (jwt_encode : claims -> string -> string)
    (db : Db) (data1 data2 : credentials) (created1 created2 : datetime)
    (now1 now2 : Z) (commit1 commit2 : commit_result) :
  PyStr.lower (PyStr.strip (get (cr_email data2) ""))
  = PyStr.lower (PyStr.strip (get (cr_email data1) "")) ->
  let r1 := signup SECRET_KEY sha256_hexdigest jwt_encode db data1 created1 now1
              commit1 in
  status (fst r1) = 201 ->
  let r2 := signup SECRET_KEY sha256_hexdigest jwt_encode (snd r1) data2 created2
              now2 commit2 in
  status (fst r2) = 400 /\ snd r2 = snd r1.
Proof.
  intros Hsame r1 H201 r2.
  pose proof (signup_cases SECRET_KEY sha256_hexdigest jwt_encode db data1
                created1 now1 commit1) as H1.
  cbv zeta in H1. fold r1 in H1.
  destruct H1 as [(_ & Hs & _) | [(_ & e & _ & Hr) | (_ & _ & _ & Hdb)]];
    [rewrite Hs in H201; discriminate | rewrite Hr in H201; discriminate |].
  pose proof (signup_cases SECRET_KEY sha256_hexdigest jwt_encode (snd r1) data2
                created2 now2 commit2) as H2.
  cbv zeta in H2. fold r2 in H2.
  destruct H2 as [(_ & Hs & Hd) | [((_ & _ & Hfree) & _) | ((_ & _ & Hfree) & _)]];
    [split; assumption | exfalso | exfalso];
    rewrite Hdb in Hfree; cbn [users] in Hfree;
    eapply (Hfree (mkUser _ _ _ _));
    try (apply List.in_or_app; right; left; reflexivity);
    cbn [u_email]; symmetry; exact Hsame.
Qed.

(** ** Password change *)

Lemma set_password_hash_emails (p : User -> bool) (h : string) (us : list User) :
  List.map u_email (set_password_hash p h us) = List.map u_email us
  /\ List.map u_id (set_password_hash p h us) = List.map u_id us
  /\ List.map u_created_at (set_password_hash p h us) = List.map u_created_at us.
Proof.
  induction us as [|u us (IH1 & IH2 & IH3)]; [repeat split |].
  cbn [set_password_hash]. destruct (p u); cbn [List.map]; [repeat split |].
  rewrite IH1, IH2, IH3. repeat split.
Qed.

Lemma set_password_hash_split (p : User -> bool) (h : string) (us : list User)
    (u : User) :
  List.find p us = Some u ->
  exists a b,
    us = (a ++ u :: b)%list
    /\ set_password_hash p h us
       = (a ++ mkUser (u_id u) (u_email u) h (u_created_at u) :: b)%list
    /\ Forall (fun v => p v = false) a.
Proof.
  induction us as [|v us IH]; [discriminate |].
  cbn [List.find set_password_hash]. destruct (p v) eqn:E.
  - intros [= ->]. exists nil, us. repeat split. constructor.
  - intros H. destruct (IH H) as (a & b & -> & -> & Ha).
    exists (v :: a), b. repeat split. constructor; assumption.
Qed.

Lemma change_password_cases (sha256_hexdigest : string -> string) (db : Db)
    (data : password_change) (commit : commit_result) :
  let email := PyStr.lower (PyStr.strip (get (pc_email data) "")) in
  let current_password := get (pc_current_password data) "" in
  let new_password := get (pc_new_password data) "" in
  let matches u :=
    String.eqb (u_email u) email
    && String.eqb (u_password_hash u) (sha256_hexdigest current_password) in
  let complete :=
    PyStr.truthy email = true /\ PyStr.truthy current_password = true
    /\ 6 <= Z.of_nat (String.length new_password) in
  let r := change_password sha256_hexdigest db data commit in
  (~ complete /\ status_more (fst r) = 400 /\ snd r = db)
  \/ (complete /\ List.find matches (users db) = None
      /\ status_more (fst r) = 401 /\ snd r = db)
  \/ (complete /\ exists u, List.find matches (users db) = Some u
      /\ ((exists e, commit = CommitFail e /\ status_more (fst r) = 500 /\ snd r = db)
          \/ (commit = CommitOk
              /\ fst r = mkResponseMore 200
                           (BMessage "Password updated successfully. Please login with your new password.")
              /\ snd r = mkDb (set_password_hash matches
                                 (sha256_hexdigest new_password) (users db))
                           (questions db) (user_progress db)))).
Proof.
  intros email current_password new_password matches complete r.
  subst r complete. unfold change_password, hash_password.
  fold email. fold current_password. fold new_password. fold matches.
  destruct (PyStr.truthy email) eqn:He; cbn [negb orb].
  2:{ left. split; [intros (H & _); discriminate | split; reflexivity]. }
  destruct (PyStr.truthy current_password) eqn:Hc; cbn [negb orb].
  2:{ left. split; [intros (_ & H & _); discriminate | split; reflexivity]. }
  destruct (PyStr.truthy new_password) eqn:Hn; cbn [negb orb].
  2:{ left. split; [| split; reflexivity].
      intros (_ & _ & H). destruct new_password; [cbn in H; lia | discriminate]. }
  destruct (Z.ltb_spec (Z.of_nat (String.length new_password)) 6) as [Hlt|Hge].
  { left. split; [intros (_ & _ & H); lia | split; reflexivity]. }
  destruct (List.find matches (users db)) as [u|] eqn:E.
  - right. right. split; [repeat split; assumption |]. exists u. split; [reflexivity |].
    destruct commit as [|e]; [right; repeat split | left; exists e; repeat split].
  - right. left. repeat split; assumption.
Qed.

(** X5: [change_password] answers 400 when a field is empty or the new
    password has fewer than 6 characters, 401 when no user has the
    normalized email with the hash of the current password, 500 when the
    commit fails and 200 otherwise; it changes nothing unless it answers
    200, and it never changes an email, an identifier, a creation date, the
    number of users or another table. *)
Theorem change_password_outcomes (sha256_hexdigest : string -> string) (db : Db)
    (data : password_change) (commit : commit_result) :
  let email := PyStr.lower (PyStr.strip (get (pc_email data) "")) in
  let current_password := get (pc_current_password data) "" in
  let new_password := get (pc_new_password data) "" in
  let complete :=
    PyStr.truthy email = true /\ PyStr.truthy current_password = true
    /\ 6 <= Z.of_nat (String.length new_password) in
  let known :=
    exists u, In u (users db) /\ u_email u = email
              /\ u_password_hash u = sha256_hexdigest current_password in
  let r := change_password sha256_hexdigest db data commit in
  (status_more (fst r) = 400 <-> ~ complete)
  /\ (status_more (fst r) = 401 <-> complete /\ ~ known)
  /\ (status_more (fst r) = 500
      <-> complete /\ known /\ exists e, commit = CommitFail e)
  /\ (status_more (fst r) = 200 <-> complete /\ known /\ commit = CommitOk)
  /\ (status_more (fst r) <> 200 -> snd r = db)
  /\ List.map u_email (users (snd r)) = List.map u_email (users db)
  /\ List.map u_id (users (snd r)) = List.map u_id (users db)
  /\ List.map u_created_at (users (snd r)) = List.map u_created_at (users db)
  /\ questions (snd r) = questions db
  /\ user_progress (snd r) = user_progress db.
Proof.
  intros email current_password new_password complete known r.
  pose proof (change_password_cases sha256_hexdigest db data commit) as H.
  cbv zeta in H. fold email in H. fold current_password in H.
  fold new_password in H. fold complete in H. fold r in H.
  set (matches := fun u => String.eqb (u_email u) email
                           && String.eqb (u_password_hash u)
                                (sha256_hexdigest current_password)) in *.
  assert (Hm : forall u, matches u = true
                         <-> u_email u = email
                             /\ u_password_hash u = sha256_hexdigest current_password).
  { intros u. unfold matches. rewrite andb_true_iff, !String.eqb_eq. reflexivity. }
  destruct H as [(Hnc & Hs & Hdb)
                | [(Hc & Hnone & Hs & Hdb)
                  | (Hc & u & Hsome & [(e & He & Hs & Hdb) | (He & Hr & Hdb)])]].
  - clearbody complete known.
    rewrite Hs, Hdb. repeat split; try tauto; intros; lia.
  - assert (Hnk : ~ known).
    { intros (u & Hin & Hu). apply Hm in Hu.
      rewrite (List.find_none _ _ Hnone u Hin) in Hu. discriminate. }
    clearbody complete known.
    rewrite Hs, Hdb. repeat split; try tauto; intros; lia.
  - assert (Hk : known).
    { apply List.find_some in Hsome. destruct Hsome as [Hin Hu].
      exists u. split; [exact Hin | apply Hm, Hu]. }
    clearbody complete known.
    rewrite Hs, Hdb. subst commit.
    repeat split; try tauto; eauto; try (intros; lia);
      intros (_ & _ & H); discriminate.
  - assert (Hk : known).
    { apply List.find_some in Hsome. destruct Hsome as [Hin Hu].
      exists u. split; [exact Hin | apply Hm, Hu]. }
    clearbody complete known.
    rewrite Hr, Hdb. subst commit. cbn [fst status_more users questions user_progress].
    destruct (set_password_hash_emails matches (sha256_hexdigest new_password)
                (users db)) as (E1 & E2 & E3).
    repeat split; try tauto; try assumption; try (intros; lia);
      intros (_ & _ & e & H); discriminate.
Qed.

Lemma change_password_done (sha256_hexdigest : string -> string) (db : Db)
    (data : password_change) :
  let email := PyStr.lower (PyStr.strip (get (pc_email data) "")) in
  let r := change_password sha256_hexdigest db data CommitOk in
  status_more (fst r) = 200 ->
  PyStr.truthy email = true
  /\ PyStr.truthy (get (pc_current_password data) "") = true
  /\ PyStr.truthy (get (pc_new_password data) "") = true
  /\ exists a u b,
       users db = (a ++ u :: b)%list
       /\ u_email u = email
       /\ u_password_hash u = sha256_hexdigest (get (pc_current_password data) "")
       /\ users (snd r)
          = (a ++ mkUser (u_id u) email
                    (sha256_hexdigest (get (pc_new_password data) ""))
                    (u_created_at u) :: b)%list.
Proof.
  intros email r H200.
  pose proof (change_password_cases sha256_hexdigest db data CommitOk) as H.
  cbv zeta in H. fold email in H. fold r in H.
  destruct H as [(_ & Hs & _)
                | [(_ & _ & Hs & _)
                  | ((He & Hc & Hn) & u & Hsome & [(e & Hx & _) | (_ & _ & Hdb)])]];
    try (rewrite Hs in H200; discriminate); try discriminate.
  split; [exact He |]. split; [exact Hc |].
  split; [apply truthy_length; lia |].
  destruct (set_password_hash_split _
              (sha256_hexdigest (get (pc_new_password data) "")) _ _ Hsome)
    as (a & b & Ha & Hb & _).
  apply List.find_some in Hsome. destruct Hsome as [_ Hu].
  apply andb_true_iff in Hu. rewrite !String.eqb_eq in Hu. destruct Hu as [Hu1 Hu2].
  exists a, u, b. rewrite Hdb. cbn [users]. rewrite Hb, Hu1. repeat split; assumption.
Qed.

(** X6: after [change_password] has answered 200, a [login] with the same
    email and the new password answers 200. *)
Theorem change_password_then_login (SECRET_KEY : string)
    (sha256_hexdigest : string -> string)
    (jwt_encode : claims -> string -> string)
    (db : Db) (data : password_change) (now_us : Z) :
  let r := change_password sha256_hexdigest db data CommitOk in
  status_more (fst r) = 200 ->
  status (login SECRET_KEY sha256_hexdigest jwt_encode (snd r)
            (mkCredentials (pc_email data) (pc_new_password data)) now_us) = 200.
Proof.
  intros r H200.
  destruct (change_password_done sha256_hexdigest db data H200)
    as (He & _ & Hn & a & u & b & _ & _ & _ & Husers).
  fold r in Husers.
  unfold login. cbn [cr_email cr_password]. rewrite He, Hn. cbn [negb orb].
  rewrite Husers.
  match goal with
  | |- context [List.find ?p ?l] =>
      destruct (find_exists p l) as [v Hv]; [| rewrite Hv; reflexivity]
  end.
  eexists. split; [apply List.in_or_app; right; left; reflexivity |].
  cbn [u_email u_password_hash]. unfold hash_password.
  rewrite !String.eqb_refl. reflexivity.
Qed.

(** X7: when emails are unique and the two passwords have different
    hashes, after [change_password] has answered 200 a [login] with the same
    email and the former password is answered with 401. *)
Theorem change_password_retires_old (SECRET_KEY : string)
    (sha256_hexdigest : string -> string)
    (jwt_encode : claims -> string -> string)
    (db : Db) (data : password_change) (now_us : Z) :
  List.NoDup (List.map u_email (users db)) ->
  sha256_hexdigest (get (pc_current_password data) "")
  <> sha256_hexdigest (get (pc_new_password data) "") ->
  let r := change_password sha256_hexdigest db data CommitOk in
  status_more (fst r) = 200 ->
  login SECRET_KEY sha256_hexdigest jwt_encode (snd r)
    (mkCredentials (pc_email data) (pc_current_password data)) now_us
  = mkResponse 401 (BError "Invalid credentials").
Proof.
  intros Hnd Hdiff r H200.
  destruct (change_password_done sha256_hexdigest db data H200)
    as (He & Hc & _ & a & u & b & Hdb & Hu & _ & Husers).
  fold r in Husers.
  unfold login. cbn [cr_email cr_password]. rewrite He, Hc. cbn [negb orb].
  rewrite Husers, find_all_false; [reflexivity |].
  rewrite Hdb, List.map_app in Hnd. cbn [List.map] in Hnd.
  apply List.NoDup_remove_2 in Hnd. rewrite <- List.map_app in Hnd.
  intros v Hv. apply andb_false_iff.
  apply List.in_app_or in Hv. destruct Hv as [Hv | [<- | Hv]].
  - left. apply String.eqb_neq. intros E. apply Hnd.
    apply List.in_map_iff. exists v. split; [congruence |].
    apply List.in_or_app. left. exact Hv.
  - right. cbn [u_password_hash]. unfold hash_password.
    apply String.eqb_neq. congruence.
  - left. apply String.eqb_neq. intros E. apply Hnd.
    apply List.in_map_iff. exists v. split; [congruence |].
    apply List.in_or_app. right. exact Hv.
Qed.

(** ** Protected routes *)

(** X8: the toggle route writes only when it answers 200, and it answers
    200 only when [jwt.decode] accepts the token of the header with a user
    identifier and an email, and the commit succeeds; the row it writes is
    then the one of that user.  A request that is rejected, or whose commit
    fails, leaves the database as it was. *)
Theorem route_toggle_writes_only_when_accepted (SECRET_KEY : string)
    (jwt_decode : string -> string -> Z -> jwt_result)
    (db : Db) (authorization : option string) (now_us : Z)
    (question_id : Z) (now : datetime) (commit : commit_result) :
  let r := route_toggle SECRET_KEY jwt_decode db authorization now_us
             question_id now commit in
  (status (fst r) <> 200 -> snd r = db)
  /\ (status (fst r) = 200 ->
      commit = CommitOk
      /\ PyStr.truthy (bearer_token authorization) = true
      /\ exists user_id email exp,
           jwt_decode (bearer_token authorization) SECRET_KEY now_us
           = JwtOk (mkClaims (Some user_id) (Some email) exp)
           /\ r = toggle_question_completion db user_id question_id now CommitOk
           /\ forall k, k <> (user_id, question_id) ->
                user_progress (snd r) !! k = user_progress db !! k).
Proof.
  intros r. subst r. unfold route_toggle, token_required.
  fold (bearer_token authorization).
  destruct (PyStr.truthy (bearer_token authorization)); cbn [negb];
    [| split; [reflexivity | discriminate]].
  destruct (jwt_decode (bearer_token authorization) SECRET_KEY now_us)
    as [[[user_id|] [email|] exp]| |]; cbn [c_user_id c_email];
    try (split; [reflexivity | discriminate]).
  unfold toggle_question_completion. destruct commit as [|e]; cbn [fst snd status];
    [| split; [reflexivity | discriminate]].
  split; [intros H; exfalso; apply H; reflexivity |].
  intros _. repeat split.
  exists user_id, email, exp. repeat split.
  intros k Hk. cbn [user_progress]. apply lookup_insert_ne. congruence.
Qed.

(** X9: a token that [login] has just issued opens the protected routes for
    the user that logged in: presented as "Bearer <token>" before its
    expiry time, it makes the question route answer as [get_questions] does
    for the identifier of that user, who is a user of the table.  (PyJWT is
    assumed to meet its contract for the tokens it issues.) *)
Theorem login_token_opens_routes (SECRET_KEY : string)
    (sha256_hexdigest : string -> string)
    (jwt_encode : claims -> string -> string)
    (jwt_decode : string -> string -> Z -> jwt_result)
    (db db' : Db) (data : credentials) (now1 now2 : Z)
    (token : string) (user_id : Z) (email : string) (message : option string)
    (category : string) (args : question_args) :
  jwt_issued_contract jwt_encode jwt_decode ->
  jwt_token_text jwt_encode ->
  login SECRET_KEY sha256_hexdigest jwt_encode db data now1
  = mkResponse 200 (BAuth token user_id email message) ->
  now2 < exp_in_24h now1 * 1000000 ->
  route_get_questions SECRET_KEY jwt_decode db'
    (Some ("Bearer " ++ token)%string) now2 category args
  = get_questions db' user_id category args
  /\ exists u, In u (users db) /\ u_id u = user_id /\ u_email u = email.
Proof.
  intros Hc Ht Hlogin Hnow.
  unfold login in Hlogin.
  destruct (negb (PyStr.truthy (PyStr.lower (PyStr.strip (get (cr_email data) ""))))
            || negb (PyStr.truthy (get (cr_password data) "")));
    [discriminate |].
  match type of Hlogin with
  | context [List.find ?p ?l] => destruct (List.find p l) as [u|] eqn:E
  end; [| discriminate].
  injection Hlogin as <- <- <- <-.
  apply List.find_some in E. destruct E as [Hin _].
  split; [| exists u; repeat split; exact Hin].
  unfold route_get_questions.
  destruct (issued_token_outcome SECRET_KEY jwt_encode jwt_decode (fun r => r)
              (fun uid _ => get_questions db' uid category args)
              (u_id u) (u_email u) now1 now2 Hc Ht) as [[_ H]|[H _]];
    [lia | exact H].
Qed.

(** ** More on the question list *)

Lemma sql_eq_true (column : option string) (v : string) :
  sql_eq column v = true <-> column = Some v.
Proof.
  unfold sql_eq. destruct column as [x|]; [| split; discriminate].
  rewrite String.eqb_eq. split; congruence.
Qed.

Lemma truthy_false (s : string) : PyStr.truthy s = false <-> s = "".
Proof. destruct s; cbn; split; congruence. Qed.

Lemma select_questions_In (db : Db) (user_id : Z) (category : string)
    (args : question_args) (r : Question * option UserProgress) :
  In r (select_questions db user_id (category_name_of category)
          (get (arg_company args) ""))
  <-> In (fst r) (questions db) /\ selected category args (fst r)
      /\ snd r = user_progress db !! (user_id, q_id (fst r)).
Proof.
  unfold select_questions, selected. rewrite List.in_map_iff. split.
  - intros (q & <- & Hq). apply List.filter_In in Hq. destruct Hq as [Hin Hq].
    apply andb_true_iff in Hq. destruct Hq as [Hc Hco].
    apply sql_eq_true in Hc. cbn [fst snd]. repeat split; try assumption.
    destruct (PyStr.truthy (get (arg_company args) "")) eqn:E.
    + right. apply sql_eq_true, Hco.
    + left. apply truthy_false, E.
  - intros (Hin & (Hc & Hco) & Hup). exists (fst r). split.
    + rewrite <- Hup. destruct r; reflexivity.
    + apply List.filter_In. split; [exact Hin |].
      apply andb_true_iff. split; [apply sql_eq_true, Hc |].
      destruct (PyStr.truthy (get (arg_company args) "")) eqn:E; [| reflexivity].
      destruct Hco as [Hco|Hco]; [rewrite Hco in E; discriminate |].
      apply sql_eq_true, Hco.
Qed.

Lemma kept_rows_In (db : Db) (user_id : Z) (category : string)
    (args : question_args) (r : Question * option UserProgress) :
  In r (kept_rows db user_id category args)
  <-> In (fst r) (questions db) /\ selected category args (fst r)
      /\ in_dates args (fst r) = true
      /\ snd r = user_progress db !! (user_id, q_id (fst r)).
Proof.
  unfold kept_rows. rewrite List.filter_In, select_questions_In.
  unfold in_dates. tauto.
Qed.

(** X10: the list of [get_questions] holds exactly the questions of the
    table whose category is the label of the slug (an unknown slug standing
    for itself), whose normalized company is the one asked for when one is
    given, and that pass the date test, each with the completion flag of
    the requesting user; the count is the length of the list. *)
Theorem get_questions_lists_exactly (db : Db) (user_id : Z) (category : string)
    (args : question_args) :
  let r := get_questions db user_id category args in
  (forall x,
     In x (response_questions r)
     <-> exists q,
           In q (questions db) /\ selected category args q
           /\ in_dates args q = true
           /\ x = make_q_dict q (user_progress db !! (user_id, q_id q)))
  /\ (forall x, In x (response_questions r) ->
        qd_is_completed x = effective_completed db user_id (qd_id x)
        /\ qd_question_category x = Some (category_name_of category))
  /\ r = mkResponse 200
           (BQuestions (category_name_of category)
              (Z.of_nat (length (response_questions r))) (response_questions r))
  /\ (dict_get category_map category = None -> category_name_of category = category).
Proof.
  intros r.
  assert (Hmem : forall x,
            In x (response_questions r)
            <-> exists q,
                  In q (questions db) /\ selected category args q
                  /\ in_dates args q = true
                  /\ x = make_q_dict q (user_progress db !! (user_id, q_id q))).
  { intros x. split.
    - intros Hx. eapply Permutation_in in Hx; [| apply get_questions_perm].
      apply List.in_map_iff in Hx. destruct Hx as ([q up] & <- & Hr).
      apply kept_rows_In in Hr. cbn [fst snd] in Hr.
      destruct Hr as (Hin & Hsel & Hd & ->). exists q.
      split; [exact Hin | split; [exact Hsel | split; [exact Hd | reflexivity]]].
    - intros (q & Hin & Hsel & Hd & ->).
      eapply Permutation_in; [symmetry; apply get_questions_perm |].
      apply List.in_map_iff. exists (q, user_progress db !! (user_id, q_id q)).
      split; [reflexivity |]. apply kept_rows_In. cbn [fst snd].
      split; [exact Hin | split; [exact Hsel | split; [exact Hd | reflexivity]]]. }
  split; [exact Hmem |]. split; [| split; [reflexivity |]].
  - intros x Hx. apply Hmem in Hx. destruct Hx as (q & _ & (Hc & _) & _ & ->).
    cbn [make_q_dict qd_is_completed qd_id qd_question_category].
    split; [reflexivity | exact Hc].
  - intros H. unfold category_name_of. rewrite H. reflexivity.
Qed.

Lemma select_questions_other_user (db : Db) (user_id question_id : Z)
    (now : datetime) (commit : commit_result) (other : Z) (c f : string) :
  other <> user_id ->
  select_questions
    (snd (toggle_question_completion db user_id question_id now commit)) other c f
  = select_questions db other c f.
Proof.
  intros Hne. unfold toggle_question_completion.
  destruct commit as [|e]; [| reflexivity].
  unfold select_questions. cbn [snd questions user_progress].
  apply List.map_ext. intros q.
  rewrite lookup_insert_ne by congruence. reflexivity.
Qed.

(** X11: a toggle of one user does not change what [get_questions] answers
    to any other user, whatever the category, the filters and the outcome
    of the commit. *)
Theorem toggle_invisible_to_other_users (db : Db) (user_id question_id : Z)
    (now : datetime) (commit : commit_result)
    (other : Z) (category : string) (args : question_args) :
  other <> user_id ->
  get_questions
    (snd (toggle_question_completion db user_id question_id now commit))
    other category args
  = get_questions db other category args.
Proof.
  intros Hne. unfold get_questions.
  rewrite (select_questions_other_user db user_id question_id now commit other _ _ Hne).
  reflexivity.
Qed.

Lemma kept_rows_after_toggle (db : Db) (user_id question_id : Z) (now : datetime)
    (category : string) (args : question_args) :
  kept_rows (snd (toggle_question_completion db user_id question_id now CommitOk))
    user_id category args
  = List.map (toggled_row db user_id question_id now)
      (kept_rows db user_id category args).
Proof.
  unfold kept_rows, select_questions, toggle_question_completion.
  cbn [snd questions user_progress].
  rewrite !filter_map_comm, !List.map_map. cbn [fst].
  apply List.map_ext. intros q. unfold toggled_row. cbn [fst snd].
  destruct (Z.eqb_spec (q_id q) question_id) as [->|Hne].
  - rewrite lookup_insert_eq. reflexivity.
  - rewrite lookup_insert_ne by congruence. reflexivity.
Qed.

Lemma toggled_row_dict (db : Db) (user_id question_id : Z) (now : datetime)
    (r : Question * option UserProgress) :
  qd_id (row_dict (toggled_row db user_id question_id now r)) = qd_id (row_dict r).
Proof. unfold toggled_row. destruct (q_id (fst r) =? question_id); reflexivity. Qed.

(** X12: after a committed toggle, [get_questions] lists for that user the
    same questions as before (so the count is the same); the entries of
    other questions are unchanged, and every entry of the toggled question
    shows the flipped flag, with the time of the toggle in ISO form when it
    is now completed and no time when it is not. *)
Theorem toggle_then_get_questions (db : Db) (user_id question_id : Z)
    (now : datetime) (category : string) (args : question_args) :
  let db' := snd (toggle_question_completion db user_id question_id now CommitOk) in
  let before := response_questions (get_questions db user_id category args) in
  let after := response_questions (get_questions db' user_id category args) in
  let flag := negb (effective_completed db user_id question_id) in
  Permutation (List.map qd_id after) (List.map qd_id before)
  /\ response_count (get_questions db' user_id category args)
     = response_count (get_questions db user_id category args)
  /\ (forall x, qd_id x <> question_id -> (In x after <-> In x before))
  /\ (forall x, In x after -> qd_id x = question_id ->
        qd_is_completed x = flag
        /\ qd_completed_at x = if flag then Some (isoformat now) else None).
Proof.
  intros db' before after flag.
  assert (Hafter : Permutation after
                     (List.map row_dict
                        (List.map (toggled_row db user_id question_id now)
                           (kept_rows db user_id category args)))).
  { subst after db'. rewrite <- kept_rows_after_toggle. apply get_questions_perm. }
  assert (Hbefore : Permutation before
                      (List.map row_dict (kept_rows db user_id category args)))
    by apply get_questions_perm.
  assert (Hids : Permutation (List.map qd_id after) (List.map qd_id before)).
  { rewrite Hafter, Hbefore, !List.map_map.
    erewrite List.map_ext; [reflexivity |].
    intros r. apply toggled_row_dict. }
  split; [exact Hids |]. split; [| split].
  - unfold response_count. rewrite (get_questions_shape db' user_id category args).
    rewrite (get_questions_shape db user_id category args). cbn [payload].
    fold after. fold before.
    apply Permutation_length in Hids. rewrite !List.length_map in Hids.
    rewrite Hids. reflexivity.
  - intros x Hx. split; intros Hin.
    + eapply Permutation_in in Hin; [| exact Hafter].
      rewrite List.map_map in Hin. apply List.in_map_iff in Hin.
      destruct Hin as (r & <- & Hr).
      eapply Permutation_in; [symmetry; exact Hbefore |].
      apply List.in_map_iff. exists r. split; [| exact Hr].
      unfold toggled_row in *. destruct (Z.eqb_spec (q_id (fst r)) question_id) as [E|E];
        [exfalso; apply Hx; exact E | reflexivity].
    + eapply Permutation_in in Hin; [| exact Hbefore].
      apply List.in_map_iff in Hin. destruct Hin as (r & <- & Hr).
      eapply Permutation_in; [symmetry; exact Hafter |].
      rewrite List.map_map. apply List.in_map_iff. exists r. split; [| exact Hr].
      unfold toggled_row. destruct (Z.eqb_spec (q_id (fst r)) question_id) as [E|E];
        [exfalso; apply Hx; exact E | reflexivity].
  - intros x Hin Hx.
    eapply Permutation_in in Hin; [| exact Hafter].
    rewrite List.map_map in Hin. apply List.in_map_iff in Hin.
    destruct Hin as (r & <- & Hr).
    unfold toggled_row in *.
    destruct (Z.eqb_spec (q_id (fst r)) question_id) as [E|E];
      [| exfalso; apply E; exact Hx].
    subst flag. unfold effective_completed, toggle_row, row_dict.
    cbn [fst snd make_q_dict qd_is_completed qd_completed_at].
    destruct (user_progress db !! (user_id, question_id)) as [p|];
      [destruct (is_completed p) |]; split; reflexivity.
Qed.

Lemma NoDup_map_filter {A B : Type} (f : A -> B) (p : A -> bool) (l : list A) :
  List.NoDup (List.map f l) -> List.NoDup (List.map f (List.filter p l)).
Proof.
  induction l as [|x l IH]; cbn [List.map List.filter]; intros H; [constructor |].
  inversion H as [|? ? Hx Hl]; subst.
  destruct (p x); cbn [List.map]; [| apply IH, Hl].
  constructor; [| apply IH, Hl].
  intros Hin. apply Hx. apply List.in_map_iff in Hin.
  destruct Hin as (y & Hy & Hin). apply List.filter_In in Hin.
  apply List.in_map_iff. exists y. tauto.
Qed.

Lemma kept_rows_ids_unique (db : Db) (user_id : Z) (category : string)
    (args : question_args) :
  question_ids_unique db ->
  List.NoDup (List.map (fun r => q_id (fst r)) (kept_rows db user_id category args)).
Proof.
  intros H. unfold kept_rows, select_questions.
  apply NoDup_map_filter. rewrite List.map_map. cbn [fst].
  apply NoDup_map_filter. exact H.
Qed.

Lemma StronglySorted_after {A : Type} (R : A -> A -> Prop) (a b : list A) (x : A) :
  StronglySorted R (a ++ x :: b) -> Forall (R x) b.
Proof.
  induction a as [|y a IH]; cbn [List.app]; intros H; inversion H; subst; auto.
Qed.

Lemma toggle_keeps_times_valid (db : Db) (user_id question_id : Z)
    (now : datetime) (commit : commit_result) :
  completion_times_valid db -> valid_datetime now = true ->
  completion_times_valid
    (snd (toggle_question_completion db user_id question_id now commit)).
Proof.
  intros Hv Hnow k p t. unfold toggle_question_completion.
  destruct commit as [|e]; cbn [snd user_progress]; [| apply Hv].
  destruct (decide ((user_id, question_id) = k)) as [<-|Hk].
  - rewrite lookup_insert_eq. intros [= <-].
    destruct (toggle_row_cases (user_progress db !! (user_id, question_id)) now)
      as [E|E]; rewrite E; cbn [completed_at]; intros [= <-]. exact Hnow.
  - rewrite lookup_insert_ne by assumption. apply Hv.
Qed.

(** X13: the expectation written in [test_completion.py]: when a user marks
    as completed a question that the request lists, at a time later than
    every completion time that user has so far, the question is the last
    entry of the completed block of the list: completed entries before it,
    entries that are not completed after it.  (Question identifiers are
    unique and the stored times and the clock reading are [datetime]s.) *)
Theorem toggled_question_last_completed (db : Db) (user_id question_id : Z)
    (now : datetime) (category : string) (args : question_args) :
  question_ids_unique db ->
  completion_times_valid db ->
  valid_datetime now = true ->
  effective_completed db user_id question_id = false ->
  (forall q p t,
     In q (questions db) ->
     user_progress db !! (user_id, q_id q) = Some p ->
     completed_at p = Some t -> dt_lt t now = true) ->
  (exists q, In q (questions db) /\ q_id q = question_id
             /\ selected category args q /\ in_dates args q = true) ->
  let db' := snd (toggle_question_completion db user_id question_id now CommitOk) in
  exists before x after,
    response_questions (get_questions db' user_id category args)
    = (before ++ x :: after)%list
    /\ qd_id x = question_id
    /\ qd_is_completed x = true
    /\ qd_completed_at x = Some (isoformat now)
    /\ Forall (fun y => qd_is_completed y = true) before
    /\ Forall (fun y => qd_is_completed y = false) after.
Proof.
  intros Huniq Hvalid Hnow Heff Hearlier (q & Hq & Hid & Hsel & Hdates) db'.
  assert (Hvalid' : completion_times_valid db')
    by (apply toggle_keeps_times_valid; assumption).
  pose proof (get_questions_rows db' user_id category args) as Hrows.
  rewrite (completed_sort_by_time db' user_id category args Hvalid') in Hrows.
  subst db'. rewrite kept_rows_after_toggle in Hrows.
  set (kept := kept_rows db user_id category args) in *.
  set (kept' := List.map (toggled_row db user_id question_id now) kept) in *.
  set (cs := py_sort row_completed_at opt_dt_lt false
               (List.filter row_completed kept')) in *.
  set (us := py_sort row_time dt_lt true
               (List.filter (fun r => negb (row_completed r)) kept')) in *.
  assert (Hrow : toggle_row (user_progress db !! (user_id, question_id)) now
                 = {| is_completed := true; completed_at := Some now |}).
  { unfold effective_completed in Heff. unfold toggle_row.
    destruct (user_progress db !! (user_id, question_id)) as [p|]; [| reflexivity].
    rewrite Heff. reflexivity. }
  set (r0 := (q, Some {| is_completed := true; completed_at := Some now |})
             : Question * option UserProgress).
  assert (Hkept' : forall y, In y kept' ->
            y = r0
            \/ (q_id (fst y) <> question_id /\ In y kept)).
  { intros y Hy. apply List.in_map_iff in Hy. destruct Hy as (r & <- & Hr).
    unfold toggled_row. rewrite Hrow.
    destruct (Z.eqb_spec (q_id (fst r)) question_id) as [E|E]; [left | right; auto].
    (* the only kept row with this identifier is the one of [q] *)
    pose proof (kept_rows_ids_unique db user_id category args Huniq) as Hnd.
    fold kept in Hnd.
    assert (Hq' : In (q, user_progress db !! (user_id, q_id q)) kept).
    { apply kept_rows_In. cbn [fst snd]. repeat split; try assumption; apply Hsel. }
    apply List.in_split in Hq'. destruct Hq' as (l1 & l2 & Hsplit).
    rewrite Hsplit in Hr, Hnd.
    rewrite List.map_app in Hnd. cbn [List.map fst] in Hnd.
    apply List.NoDup_remove_2 in Hnd.
    apply List.in_app_or in Hr. destruct Hr as [Hr | [<- | Hr]];
      [exfalso | reflexivity | exfalso]; apply Hnd;
      apply List.in_or_app; [left | right];
      apply List.in_map_iff; exists r; (split; [congruence | exact Hr]). }
  assert (Hr0 : In r0 cs).
  { unfold cs. apply (proj2 (py_sort_In row_completed_at opt_dt_lt false _ _)).
    apply List.filter_In. split; [| reflexivity].
    apply List.in_map_iff. exists (q, user_progress db !! (user_id, q_id q)).
    split.
    - unfold toggled_row. cbn [fst]. rewrite Hid, Z.eqb_refl, Hrow. reflexivity.
    - apply kept_rows_In. cbn [fst snd]. repeat split; try assumption; apply Hsel. }
  apply List.in_split in Hr0. destruct Hr0 as (a & b & Hcs).
  assert (Hsorted : StronglySorted (key_le row_completed_at opt_dt_lt) cs)
    by apply (py_sort_sorted_asc row_completed_at opt_dt_lt
                opt_dt_lt_asym opt_dt_ge_trans).
  assert (Hcsin : forall y, In y cs -> In y kept' /\ row_completed y = true).
  { intros y Hy. unfold cs in Hy.
    apply (proj1 (py_sort_In row_completed_at opt_dt_lt false _ _)) in Hy.
    apply List.filter_In in Hy. exact Hy. }
  assert (Hndcs : List.NoDup (List.map (fun r => q_id (fst r)) cs)).
  { eapply Permutation.Permutation_NoDup.
    - symmetry. apply Permutation_map. apply py_sort_perm.
    - apply NoDup_map_filter. unfold kept'. rewrite List.map_map.
      erewrite List.map_ext; [apply (kept_rows_ids_unique db user_id category args Huniq) |].
      intros r. unfold toggled_row. destruct (q_id (fst r) =? question_id); reflexivity. }
  assert (Hb : b = nil).
  { destruct b as [|y b]; [reflexivity | exfalso].
    rewrite Hcs in Hsorted, Hcsin, Hndcs.
    apply StronglySorted_after in Hsorted.
    inversion Hsorted as [|? ? Hle _]; subst.
    unfold key_le in Hle. cbn [row_completed_at r0 snd completed_at] in Hle.
    destruct (Hcsin y) as [Hy Hyc]; [apply List.in_or_app; right; right; left; reflexivity |].
    destruct (Hkept' y Hy) as [-> | [Hne Hyk]].
    - rewrite List.map_app in Hndcs. cbn [List.map] in Hndcs.
      apply List.NoDup_remove_2 in Hndcs. apply Hndcs.
      apply List.in_or_app. right. left. reflexivity.
    - apply kept_rows_In in Hyk. destruct Hyk as (Hyq & _ & _ & Hup).
      unfold row_completed in Hyc. unfold row_completed_at in Hle.
      rewrite Hup in Hyc, Hle.
      destruct (user_progress db !! (user_id, q_id (fst y))) as [p|] eqn:Ep;
        [| discriminate].
      destruct (completed_at p) as [t|] eqn:Et; cbn [opt_dt_lt] in Hle;
        [| discriminate].
      rewrite (Hearlier (fst y) p t Hyq Ep Et) in Hle. discriminate. }
  subst b.
  exists (List.map row_dict a), (row_dict r0), (List.map row_dict us).
  split; [| split; [exact Hid | split; [reflexivity | split; [reflexivity | split]]]].
  - rewrite Hrows, Hcs, <- List.app_assoc, !List.map_app. reflexivity.
  - apply List.Forall_forall. intros x Hx. apply List.in_map_iff in Hx.
    destruct Hx as (y & <- & Hy).
    destruct (Hcsin y) as [_ Hyc]; [rewrite Hcs; apply List.in_or_app; left; exact Hy |].
    exact Hyc.
  - apply List.Forall_forall. intros x Hx. apply List.in_map_iff in Hx.
    destruct Hx as (y & <- & Hy).
    unfold us in Hy. apply (proj1 (py_sort_In row_time dt_lt true _ _)) in Hy.
    apply List.filter_In in Hy. destruct Hy as [_ Hy].
    apply negb_true_iff in Hy. exact Hy.
Qed.

(** ** More on the date filter *)

Lemma date_keep_widen (f1 t1 f2 t2 : option datetime) (q : Question) :
  from_widens f2 f1 -> to_widens t2 t1 ->
  date_keep f1 t1 q = true -> date_keep f2 t2 q = true.
Proof.
  intros Hf Ht H. apply date_keep_iff in H. apply date_keep_iff.
  destruct H as [[-> ->] | (d & Hd & Hlo & Hhi)].
  - left. split.
    + destruct Hf as [E | (w & n & _ & E & _)]; [exact E | discriminate].
    + destruct Ht as [E | (w & n & _ & E & _)]; [exact E | discriminate].
  - right. exists d. split; [exact Hd |]. split.
    + intros w Ew. destruct Hf as [E | (w' & n & E & En & Hle)]; [congruence |].
      assert (w' = w) by congruence. subst w'.
      specialize (Hlo n En). unfold dt_le in Hle. apply negb_true_iff in Hle.
      (* d >= n >= w *)
      eapply dt_ge_trans; eassumption.
    + intros w Ew. destruct Ht as [E | (w' & n & E & En & Hle)]; [congruence |].
      assert (w' = w) by congruence. subst w'.
      specialize (Hhi n En). unfold dt_le in Hle. apply negb_true_iff in Hle.
      eapply dt_ge_trans; eassumption.
Qed.

(** X14: widening the date range never loses a question: when the bounds
    of a second request let through at least what those of the first do
    (an unset bound, or an earlier [from_date], a later [to_date]), with the
    same category and company, every entry of the first list is in the
    second. *)
Theorem wider_dates_keep_questions (db : Db) (user_id : Z) (category : string)
    (company from1 to1 from2 to2 : option string) :
  from_widens (parse_from_date (get from2 "")) (parse_from_date (get from1 "")) ->
  to_widens (parse_to_date (get to2 "")) (parse_to_date (get to1 "")) ->
  forall x,
    In x (response_questions
            (get_questions db user_id category (mkArgs company from1 to1))) ->
    In x (response_questions
            (get_questions db user_id category (mkArgs company from2 to2))).
Proof.
  intros Hf Ht x Hx.
  eapply Permutation_in in Hx; [| apply get_questions_perm].
  eapply Permutation_in; [symmetry; apply get_questions_perm |].
  apply List.in_map_iff in Hx. destruct Hx as (r & <- & Hr).
  apply List.in_map_iff. exists r. split; [reflexivity |].
  unfold kept_rows in *. cbn [arg_company arg_from_date arg_to_date] in *.
  apply List.filter_In in Hr. destruct Hr as [Hin Hd].
  apply List.filter_In. split; [exact Hin |].
  eapply date_keep_widen; eassumption.
Qed.

Lemma date_keep_inverted (f t : datetime) (q : Question) :
  dt_lt t f = true -> date_keep (Some f) (Some t) q = false.
Proof.
  intros Hinv. destruct (date_keep (Some f) (Some t) q) eqn:E; [| reflexivity].
  apply date_keep_iff in E. destruct E as [[E _] | (d & _ & Hlo & Hhi)]; [discriminate |].
  specialize (Hlo f eq_refl). specialize (Hhi t eq_refl).
  rewrite (dt_ge_trans _ _ _ Hhi Hlo) in Hinv. discriminate.
Qed.

Lemma filter_none {A : Type} (p : A -> bool) (l : list A) :
  (forall x, p x = false) -> List.filter p l = nil.
Proof.
  intros H. induction l as [|x l IH]; cbn [List.filter]; [| rewrite H]; auto.
Qed.

(** X15: a date range whose end (at 23:59:59) lies before its start lets
    nothing through: [get_questions] answers with an empty list and count 0,
    and [get_companies] with no company. *)
Theorem inverted_dates_give_nothing (db : Db) (user_id : Z) (category : string)
    (company from_date_str to_date_str : option string) (f t : datetime) :
  parse_from_date (get from_date_str "") = Some f ->
  parse_to_date (get to_date_str "") = Some t ->
  dt_lt t f = true ->
  get_questions db user_id category (mkArgs company from_date_str to_date_str)
  = mkResponse 200 (BQuestions (category_name_of category) 0 nil)
  /\ get_companies db (mkCompanyArgs company from_date_str to_date_str)
     = mkResponseMore 200 (BCompanies nil).
Proof.
  intros Hf Ht Hinv. split.
  - rewrite get_questions_shape, get_questions_rows.
    unfold kept_rows. cbn [arg_from_date arg_to_date]. rewrite Hf, Ht.
    rewrite (filter_none (fun r => date_keep (Some f) (Some t) (fst r)))
      by (intros r; apply date_keep_inverted, Hinv).
    reflexivity.
  - unfold get_companies, companies_kept. cbn [carg_from_date carg_to_date].
    rewrite Hf, Ht.
    rewrite (filter_none (date_keep (Some f) (Some t)))
      by (intros q; apply date_keep_inverted, Hinv).
    reflexivity.
Qed.

(** ** Companies *)

Lemma count_add_count_of (d : list (string * Z)) (c k : string) :
  count_of (count_add d c) k
  = count_of d k + (if String.eqb c k then 1 else 0).
Proof.
  induction d as [|[k' v] d IH]; cbn [count_add count_of].
  - destruct (String.eqb c k); lia.
  - destruct (String.eqb_spec k' c) as [->|Hne]; cbn [count_of].
    + destruct (String.eqb c k); lia.
    + destruct (String.eqb_spec k' k) as [->|Hne'].
      * destruct (String.eqb_spec c k) as [->|_]; [congruence | lia].
      * exact IH.
Qed.

Lemma count_add_keys (d : list (string * Z)) (c k : string) :
  In k (List.map fst (count_add d c)) <-> In k (List.map fst d) \/ k = c.
Proof.
  induction d as [|[k' v] d IH]; cbn [count_add List.map fst In].
  - intuition congruence.
  - destruct (String.eqb_spec k' c) as [->|Hne]; cbn [List.map fst In].
    + intuition congruence.
    + rewrite IH. tauto.
Qed.

Lemma count_add_NoDup (d : list (string * Z)) (c : string) :
  List.NoDup (List.map fst d) -> List.NoDup (List.map fst (count_add d c)).
Proof.
  induction d as [|[k' v] d IH]; cbn [count_add List.map fst]; intros H.
  - repeat constructor. intros [].
  - inversion H as [|? ? Hk Hd]; subst.
    destruct (String.eqb_spec k' c) as [->|Hne]; cbn [List.map fst].
    + constructor; assumption.
    + constructor; [| apply IH, Hd].
      intros Hin. apply count_add_keys in Hin. destruct Hin as [Hin | ->]; auto.
Qed.

Lemma count_add_sum (d : list (string * Z)) (c : string) :
  sum_values (count_add d c) = sum_values d + 1.
Proof.
  induction d as [|[k' v] d IH]; cbn [count_add sum_values]; [lia |].
  destruct (String.eqb k' c); cbn [sum_values]; lia.
Qed.

Lemma tally_facts (l : list string) (d : list (string * Z)) :
  List.NoDup (List.map fst d) ->
  let t := List.fold_left count_add l d in
  List.NoDup (List.map fst t)
  /\ (forall k, count_of t k = count_of d k + occurrences k l)
  /\ (forall k, In k (List.map fst t) <-> In k (List.map fst d) \/ In k l)
  /\ sum_values t = sum_values d + Z.of_nat (length l).
Proof.
  revert d. induction l as [|c l IH]; intros d Hd; cbn [List.fold_left].
  - unfold occurrences. cbn. repeat split; try assumption; try tauto; intros; lia.
  - destruct (IH (count_add d c) (count_add_NoDup d c Hd)) as (H1 & H2 & H3 & H4).
    split; [exact H1 |]. split; [| split].
    + intros k. rewrite H2, count_add_count_of. unfold occurrences.
      cbn [List.filter]. rewrite (String.eqb_sym k c).
      destruct (String.eqb c k); cbn [length]; lia.
    + intros k. rewrite H3, count_add_keys. cbn [In]. intuition congruence.
    + rewrite H4, count_add_sum. cbn [length]. lia.
Qed.

Lemma count_of_In (d : list (string * Z)) (k : string) (v : Z) :
  List.NoDup (List.map fst d) -> (In (k, v) d <-> In k (List.map fst d) /\ count_of d k = v).
Proof.
  induction d as [|[k' v'] d IH]; cbn [List.map fst In count_of]; intros H.
  - tauto.
  - inversion H as [|? ? Hk Hd]; subst. specialize (IH Hd).
    destruct (String.eqb_spec k' k) as [->|Hne].
    + split.
      * intros [E | Hin]; [injection E as <-; auto |].
        exfalso. apply Hk. apply List.in_map_iff. exists (k, v). auto.
      * intros [_ ->]. left. reflexivity.
    + rewrite IH. split.
      * intros [E | Hin]; [congruence | tauto].
      * intros [[E | Hin] Hc]; [congruence | tauto].
Qed.

Lemma companies_kept_truthy (db : Db) (args : company_args) (name : string) :
  In name (companies_kept db args) -> PyStr.truthy name = true.
Proof.
  unfold companies_kept, companies_query. intros H.
  apply List.in_map_iff in H. destruct H as (q & <- & Hq).
  apply List.filter_In in Hq. destruct Hq as [Hq _].
  apply List.filter_In in Hq. destruct Hq as [_ Hq].
  apply andb_true_iff in Hq. destruct Hq as [Hq _].
  destruct (q_company_normalized q); [exact Hq | discriminate].
Qed.

Lemma sum_counts_perm (l l' : list (string * Z)) :
  Permutation l l' -> sum_values l = sum_values l'.
Proof.
  induction 1 as [| [k v] l l' _ IH | [k v] [k' v'] l | l l' l'' _ IH1 _ IH2];
    cbn [sum_values]; lia.
Qed.

Lemma sum_counts_entries (l : list (string * Z)) :
  sum_counts (List.map (fun r => mk_company_entry (fst r) (snd r)) l) = sum_values l.
Proof.
  induction l as [|[k v] l IH]; cbn [List.map sum_counts sum_values fst snd co_count];
    [| rewrite IH]; reflexivity.
Qed.

(** X16: [get_companies] returns each normalized company of the rows that
    pass the filters once, with the number of those rows that carry it;
    names are not empty, counts are at least 1 and come in descending
    order, and the counts add up to the number of rows that pass. *)
Theorem get_companies_counts (db : Db) (args : company_args) :
  let cs := response_companies (get_companies db args) in
  get_companies db args = mkResponseMore 200 (BCompanies cs)
  /\ List.NoDup (List.map co_name cs)
  /\ (forall e,
        In e cs
        <-> In (co_name e) (companies_kept db args)
            /\ co_count e = company_rows db args (co_name e))
  /\ (forall e, In e cs -> co_name e <> "" /\ 1 <= co_count e)
  /\ StronglySorted (fun a b => co_count b <= co_count a) cs
  /\ sum_counts cs = Z.of_nat (length (companies_kept db args)).
Proof.
  intros cs. subst cs. unfold get_companies, response_companies. cbn [payload_more].
  set (kept := companies_kept db args).
  set (t := List.fold_left count_add kept nil).
  destruct (tally_facts kept nil (List.NoDup_nil _)) as (Hnd & Hcount & Hkeys & Hsum).
  fold t in Hnd, Hcount, Hkeys, Hsum. cbn [count_of sum_values List.map In] in *.
  assert (Hperm : Permutation (py_sort snd Z.ltb true t) t) by apply py_sort_perm.
  assert (Hmem : forall e,
            In e (List.map (fun r => mk_company_entry (fst r) (snd r))
                    (py_sort snd Z.ltb true t))
            <-> In (co_name e) kept /\ co_count e = company_rows db args (co_name e)).
  { intros [n c]. cbn [co_name co_count]. rewrite List.in_map_iff. split.
    - intros ([k v] & [= -> ->] & Hin).
      eapply Permutation_in in Hin; [| exact Hperm].
      apply (count_of_In t n c Hnd) in Hin. destruct Hin as [Hk Hv].
      apply Hkeys in Hk. destruct Hk as [[] | Hk].
      split; [exact Hk |]. rewrite <- Hv, Hcount. unfold company_rows, occurrences.
      fold kept. lia.
    - intros [Hk Hv]. exists (n, c). split; [reflexivity |].
      eapply Permutation_in; [symmetry; exact Hperm |].
      apply (count_of_In t n c Hnd). split; [apply Hkeys; right; exact Hk |].
      rewrite Hcount, Hv. unfold company_rows, occurrences. fold kept. lia. }
  split; [reflexivity |]. split; [| split; [exact Hmem | split; [| split]]].
  - rewrite List.map_map. cbn [co_name].
    eapply Permutation.Permutation_NoDup; [| exact Hnd].
    symmetry. apply Permutation_map. exact Hperm.
  - intros e He. apply Hmem in He. destruct He as [Hk Hv]. split.
    + intros E. apply companies_kept_truthy in Hk. rewrite E in Hk. discriminate.
    + rewrite Hv. unfold company_rows. fold kept.
      apply List.in_split in Hk. destruct Hk as (l1 & l2 & ->).
      rewrite List.filter_app, List.length_app. cbn [List.filter].
      rewrite String.eqb_refl. cbn [length]. lia.
  - apply StronglySorted_map. cbn [co_count].
    eapply StronglySorted_impl;
      [| apply (py_sort_sorted_desc (A := string * Z) snd Z.ltb
                  zltb_asym zltb_ge_trans)].
    intros x y Hxy. unfold key_ge in Hxy. apply Z.ltb_ge in Hxy. exact Hxy.
  - rewrite sum_counts_entries, (sum_counts_perm _ _ Hperm), Hsum. lia.
Qed.

Lemma filter_filter {A : Type} (p q : A -> bool) (l : list A) :
  List.filter p (List.filter q l) = List.filter (fun x => q x && p x) l.
Proof.
  induction l as [|x l IH]; cbn [List.filter]; [reflexivity |].
  destruct (q x); cbn [List.filter andb]; [destruct (p x) |]; rewrite IH; reflexivity.
Qed.

Lemma category_name_truthy (category : string) :
  PyStr.truthy category = true -> PyStr.truthy (category_name_of category) = true.
Proof.
  intros H. unfold category_name_of, get. cbn [dict_get category_map].
  repeat match goal with
         | |- context [String.eqb ?a category] =>
             destruct (String.eqb a category); [reflexivity |]
         end.
  exact H.
Qed.

(** X17: the count that [get_companies] shows for a company of a category
    is the number of questions that [get_questions] returns for that
    category with that company and the same dates: the count of the
    dropdown and the length of the list agree. *)
Theorem company_count_matches_question_list (db : Db) (user_id : Z)
    (category : string) (from_date_str to_date_str : option string)
    (e : company_entry) :
  PyStr.truthy category = true ->
  In e (response_companies
          (get_companies db (mkCompanyArgs (Some category) from_date_str to_date_str))) ->
  get_questions db user_id category
    (mkArgs (Some (co_name e)) from_date_str to_date_str)
  = mkResponse 200
      (BQuestions (category_name_of category) (co_count e)
         (response_questions
            (get_questions db user_id category
               (mkArgs (Some (co_name e)) from_date_str to_date_str))))
  /\ Z.of_nat
       (length (response_questions
                  (get_questions db user_id category
                     (mkArgs (Some (co_name e)) from_date_str to_date_str))))
     = co_count e.
Proof.
  intros Hcat He.
  set (cargs := mkCompanyArgs (Some category) from_date_str to_date_str) in *.
  set (qargs := mkArgs (Some (co_name e)) from_date_str to_date_str).
  assert (Hname : PyStr.truthy (co_name e) = true /\ co_count e = company_rows db cargs (co_name e)).
  { unfold get_companies, response_companies in He. cbn [payload_more] in He.
    apply List.in_map_iff in He. destruct He as ([k v] & <- & Hin).
    cbn [fst snd co_name co_count].
    eapply Permutation_in in Hin; [| apply py_sort_perm].
    destruct (tally_facts (companies_kept db cargs) nil (List.NoDup_nil _))
      as (Hnd & Hcount & Hkeys & _).
    apply (count_of_In _ k v Hnd) in Hin. destruct Hin as [Hk Hv].
    apply Hkeys in Hk. destruct Hk as [[] | Hk].
    split; [eapply companies_kept_truthy, Hk |].
    rewrite <- Hv, Hcount. unfold company_rows, occurrences. cbn [count_of]. lia. }
  destruct Hname as [Hname Hcount].
  assert (Hlen : Z.of_nat (length (response_questions
                                     (get_questions db user_id category qargs)))
                 = co_count e).
  { rewrite (Permutation_length (get_questions_perm db user_id category qargs)).
    rewrite List.length_map, Hcount.
    unfold company_rows, companies_kept, kept_rows, select_questions, companies_query.
    cbn [carg_category carg_from_date carg_to_date arg_company arg_from_date
         arg_to_date qargs cargs get].
    unfold companies_category. rewrite Hcat.
    fold (category_name_of category).
    rewrite (category_name_truthy category Hcat), Hname.
    rewrite !filter_map_comm, !List.length_map, !filter_filter. cbn [fst].
    f_equal. f_equal. apply List.filter_ext. intros q.
    unfold sql_eq, get.
    set (A := match q_question_category q with
              | Some x => String.eqb x (category_name_of category)
              | None => false
              end).
    set (D := date_keep _ _ q).
    destruct (q_company_normalized q) as [c|].
    - rewrite (String.eqb_sym (co_name e) c).
      destruct (String.eqb_spec c (co_name e)) as [->|Hne].
      + rewrite Hname. destruct A, D; reflexivity.
      + destruct A, D, (PyStr.truthy c); reflexivity.
    - destruct A, D; reflexivity. }
  split; [| exact Hlen].
  rewrite get_questions_shape at 1. rewrite Hlen. reflexivity.
Qed.

(** ** Ties in the sort *)

Section Stability.
Context {A K : Type} (key : A -> K) (lt : K -> K -> bool).
Hypothesis ge_trans : forall a b c, lt a b = false -> lt b c = false -> lt a c = false.

Lemma insert_stable_tied (k : K) (x : A) (l : list A) :
  List.filter (tied key lt k) (insert_stable key lt x l) = List.filter (tied key lt k) (x :: l).
Proof.
  induction l as [|y l IH]; [reflexivity |].
  cbn [insert_stable]. destruct (lt (key y) (key x)) eqn:E; [| reflexivity].
  cbn [List.filter] in *. rewrite IH.
  destruct (tied key lt k x) eqn:Tx; [| reflexivity].
  destruct (tied key lt k y) eqn:Ty; [| reflexivity].
  exfalso. unfold tied in Tx, Ty.
  apply andb_true_iff in Tx, Ty. rewrite !negb_true_iff in Tx, Ty.
  destruct Tx as [_ Tx], Ty as [Ty _].
  rewrite (ge_trans _ _ _ Ty Tx) in E. discriminate.
Qed.

Lemma sort_stable_tied (k : K) (l : list A) :
  List.filter (tied key lt k) (sort_stable key lt l) = List.filter (tied key lt k) l.
Proof.
  induction l as [|x l IH]; [reflexivity |].
  cbn [sort_stable]. rewrite insert_stable_tied. cbn [List.filter].
  rewrite IH. reflexivity.
Qed.

Lemma filter_rev_comm (p : A -> bool) (l : list A) :
  List.filter p (rev l) = rev (List.filter p l).
Proof.
  induction l as [|x l IH]; [reflexivity |].
  cbn [rev List.filter]. rewrite List.filter_app, IH. cbn [List.filter].
  destruct (p x); cbn [rev]; [reflexivity | apply List.app_nil_r].
Qed.

Lemma py_sort_tied (reverse : bool) (k : K) (l : list A) :
  List.filter (tied key lt k) (py_sort key lt reverse l) = List.filter (tied key lt k) l.
Proof.
  unfold py_sort. destruct reverse; [| apply sort_stable_tied].
  rewrite filter_rev_comm, sort_stable_tied, filter_rev_comm, List.rev_involutive.
  reflexivity.
Qed.
End Stability.

Lemma filter_none_in {A : Type} (p : A -> bool) (l : list A) :
  (forall x, In x l -> p x = false) -> List.filter p l = nil.
Proof.
  induction l as [|x l IH]; intros H; cbn [List.filter]; [reflexivity |].
  rewrite (H x (or_introl eq_refl)). apply IH. intros y Hy. apply H. right. exact Hy.
Qed.

(** X18: ties keep the order of the query: for any time, the entries of
    the list that are not completed and whose parsed time (or
    [datetime.min]) is that time come in the order in which the query
    returned their questions, although the block is sorted newest first. *)
Theorem ties_keep_query_order (db : Db) (user_id : Z) (category : string)
    (args : question_args) (t : datetime) :
  List.filter (fun x => negb (qd_is_completed x) && dt_eqb (uncompleted_key x) t)
    (response_questions (get_questions db user_id category args))
  = List.map row_dict
      (List.filter (fun r => negb (row_completed r) && dt_eqb (row_time r) t)
         (kept_rows db user_id category args)).
Proof.
  rewrite get_questions_rows, filter_map_comm. f_equal.
  rewrite List.filter_app.
  rewrite (filter_none_in _ (py_sort _ PyStr.lt false _)).
  2:{ intros r Hr. apply (proj1 (py_sort_In _ _ _ _ _)) in Hr.
      apply List.filter_In in Hr. destruct Hr as [_ Hr].
      change (qd_is_completed (row_dict r)) with (row_completed r).
      rewrite Hr. reflexivity. }
  cbn [List.app].
  erewrite List.filter_ext_in.
  - rewrite (py_sort_tied row_time dt_lt dt_ge_trans true t), filter_filter.
    reflexivity.
  - intros r Hr. apply (proj1 (py_sort_In _ _ _ _ _)) in Hr.
    apply List.filter_In in Hr. destruct Hr as [_ Hr].
    change (qd_is_completed (row_dict r)) with (row_completed r).
    change (uncompleted_key (row_dict r)) with (row_time r).
    rewrite Hr. unfold dt_eqb. cbn [andb].
    reflexivity.
Qed.

(** ** Feedback through the service *)

Lemma image_parts_blobs (b64decode : string -> option string)
    (files : list attachment) :
  Forall image_blob (image_parts b64decode files)
  /\ (length (image_parts b64decode files) <= length (List.filter is_image files))%nat.
Proof.
  unfold image_parts. induction files as [|f files [IH1 IH2]];
    cbn [List.flat_map List.filter length]; [split; [constructor | lia] |].
  destruct (is_image f) eqn:Ei; cbn [andb].
  - destruct (PyStr.truthy (get (f_base64 f) ""));
      [| cbn [List.app length]; split; [exact IH1 | lia]].
    match goal with
    | |- context [b64decode ?x] => destruct (b64decode x)
    end; cbn [List.app length]; [| split; [exact IH1 | lia]].
    split; [constructor; [exact Ei | exact IH1] | lia].
  - cbn [List.app]. split; [exact IH1 | exact IH2].
Qed.

(** X19: [get_ai_feedback] calls the service at most once.  It rejects an
    empty question with 400 before anything else and without a call.  With
    a question and a Gemini key, an exception of the set-up of the client
    (the import, [genai.configure], [genai.GenerativeModel]) is answered
    with 500, its message and the fallback text, and no call is made;
    otherwise the service is called exactly once, with a text that holds
    the question, then one part for each image file whose payload decodes
    (never more parts than the number reported as processed), then the
    closing text; the text of the service comes back with 200, and an
    exception of the call becomes a 500 with its message and the fallback
    text. *)
Theorem get_ai_feedback_service_call (GEMINI_API_KEY : string)
    (b64decode : string -> option string)
    (generative_model :
       string -> string -> (list content_part -> string + string) + string)
    (data : feedback_request) :
  let question := get (fr_question data) "" in
  let files := get (fr_files data) nil in
  let r := get_ai_feedback GEMINI_API_KEY b64decode generative_model data in
  let failure e :=
    mkResponse 500
      (BFeedbackError ("AI service error: " ++ e)%string
         "Unable to get AI feedback at this time. Please try again.") in
  (length (snd r) <= 1)%nat
  /\ (PyStr.truthy question = false ->
      r = (mkResponse 400 (BError "Question is required"), nil))
  /\ (PyStr.truthy question = true -> PyStr.truthy GEMINI_API_KEY = true ->
      forall e,
        generative_model GEMINI_API_KEY "gemini-2.0-flash-exp" = inr e ->
        r = (failure e, nil))
  /\ (PyStr.truthy question = true -> PyStr.truthy GEMINI_API_KEY = true ->
      forall generate_content,
        generative_model GEMINI_API_KEY "gemini-2.0-flash-exp"
        = inl generate_content ->
        exists context blobs,
          let parts :=
            (PartText context :: blobs
             ++ PartText (nl ++ "Please provide your response:")%string :: nil)%list in
          snd r = parts :: nil
          /\ contains question context = true
          /\ blobs = image_parts b64decode files
          /\ Forall image_blob blobs
          /\ (length blobs <= length (List.filter is_image files))%nat
          /\ fst r
             = match generate_content parts with
               | inl text =>
                   mkResponse 200
                     (BFeedback text "gemini-2.0-flash-exp"
                        (Some (Z.of_nat (length (List.filter is_image files)))))
               | inr e => failure e
               end).
Proof.
  intros question files r failure.
  subst r question files failure. unfold get_ai_feedback, service_error.
  split; [| split; [| split]].
  - destruct (negb (PyStr.truthy (get (fr_question data) ""))); [cbn; lia |].
    destruct (negb (PyStr.truthy GEMINI_API_KEY)); [cbn; lia |].
    destruct (generative_model GEMINI_API_KEY "gemini-2.0-flash-exp")
      as [generate_content | e]; [| cbn; lia].
    cbv zeta.
    match goal with
    | |- context [generate_content ?p] => destruct (generate_content p)
    end; cbn; lia.
  - intros Hq. rewrite Hq. reflexivity.
  - intros Hq Hk e He. rewrite Hq, Hk, He. reflexivity.
  - intros Hq Hk generate_content Hm. rewrite Hq, Hk, Hm. cbn [negb].
    destruct (image_parts_blobs b64decode (get (fr_files data) nil)) as [Hb Hl].
    eexists. exists (image_parts b64decode (get (fr_files data) nil)).
    cbv zeta.
    split; [match goal with
            | |- context [generate_content ?p] => destruct (generate_content p)
            end; reflexivity |].
    split; [| split; [reflexivity | split; [exact Hb | split; [exact Hl |]]]].
    + do 3 apply contains_app_r. apply contains_app_r. apply contains_prefix.
    + match goal with
      | |- context [generate_content ?p] => destruct (generate_content p)
      end; reflexivity.
Qed.

(** ** More on the timestamp parser *)

(** X20: [parse_timestamp] returns only times that exist: a date of the
    calendar (months of 28 to 31 days, 29 February in leap years only,
    years 1 to 9999), an hour below 24, minutes and seconds below 60, no
    fraction; and it returns a time only for a string that is not blank. *)
Theorem parse_timestamp_calendar (ts : option string) (d : datetime) :
  parse_timestamp ts = Some d ->
  valid_datetime d = true
  /\ 1 <= day d <= days_in_month (year d) (month d)
  /\ 1 <= month d <= 12 /\ 1 <= year d <= 9999
  /\ 0 <= hour d <= 23 /\ 0 <= minute d <= 59 /\ 0 <= second d <= 59
  /\ microsecond d = 0
  /\ exists s, ts = Some s /\ PyStr.truthy (PyStr.strip s) = true.
Proof.
  intros H.
  assert (Hv : valid_datetime d = true) by (eapply parse_timestamp_valid, H).
  split; [exact Hv |].
  assert (Hfields : 1 <= day d <= days_in_month (year d) (month d)
                    /\ 1 <= month d <= 12 /\ 1 <= year d <= 9999
                    /\ 0 <= hour d <= 23 /\ 0 <= minute d <= 59
                    /\ 0 <= second d <= 59).
  { unfold valid_datetime, valid_date, valid_time in Hv.
    rewrite !andb_true_iff, !Z.leb_le in Hv. lia. }
  destruct Hfields as (H1 & H2 & H3 & H4 & H5 & H6).
  repeat (split; [assumption |]).
  unfold parse_timestamp in H. destruct ts as [s|]; [| discriminate].
  destruct (negb (PyStr.truthy s)); [discriminate |].
  assert (Hs : forall f d', strptime (PyStr.strip s) f = Some d' ->
                 microsecond d' = 0 /\ PyStr.truthy (PyStr.strip s) = true).
  { intros f d' E. split.
    - unfold strptime in E.
      destruct (Re.rmatch (pattern f) (PyStr.strip s)) as [[g rest]|]; [| discriminate].
      destruct (PyStr.truthy rest); [discriminate |].
      match type of E with context [if ?c then _ else _] => destruct c end;
        [| discriminate].
      injection E as <-. reflexivity.
    - destruct (PyStr.strip s); [| reflexivity].
      destruct f; vm_compute in E; discriminate. }
  destruct (strptime (PyStr.strip s) F_mdY_HMS) as [d1|] eqn:E1.
  { injection H as <-. destruct (Hs _ _ E1). split; [assumption | eauto]. }
  destruct (strptime (PyStr.strip s) F_mdY) as [d2|] eqn:E2.
  { injection H as <-. destruct (Hs _ _ E2). split; [assumption | eauto]. }
  destruct (strptime (PyStr.strip s) F_Ymd) as [d3|] eqn:E3; [| discriminate].
  injection H as <-. destruct (Hs _ _ E3). split; [assumption | eauto].
Qed.

Lemma parse_timestamp_calendar_witness :
  parse_timestamp (Some " 2/29/2024 23:59:59 ") = Some (mkdatetime 2024 2 29 23 59 59 0)
  /\ valid_datetime (mkdatetime 2024 2 29 23 59 59 0) = true.
Proof.
  split; [vm_compute; reflexivity |].
  apply (parse_timestamp_calendar (Some " 2/29/2024 23:59:59 ")).
  vm_compute. reflexivity.
Defined.

(** ** The cleanup script *)

Lemma category_labels_fixed :
  Forall (fun l => categorize_question l = l
                   /\ dict_get category_map (slug l) = Some l)
    category_labels.
Proof. repeat constructor; vm_compute; reflexivity. Qed.

(** X21: [categorize_question] always answers with one of the seven labels
    of the application, so every category that the cleanup writes has a
    slug under which [get_questions] finds it; an empty type gives "Other";
    and the seven labels are fixed points, so that categorizing a category
    again changes nothing. *)
Theorem categorize_question_labels (question_type : string) :
  In (categorize_question question_type) category_labels
  /\ dict_get category_map (slug (categorize_question question_type))
     = Some (categorize_question question_type)
  /\ categorize_question (categorize_question question_type)
     = categorize_question question_type
  /\ categorize_question "" = "Other".
Proof.
  assert (Hin : In (categorize_question question_type) category_labels).
  { unfold categorize_question.
    repeat match goal with
           | |- context [if ?c then _ else _] => destruct c
           end; cbn; tauto. }
  pose proof category_labels_fixed as Hfix.
  rewrite List.Forall_forall in Hfix. destruct (Hfix _ Hin) as [H1 H2].
  repeat split; assumption || reflexivity.
Qed.

(** The order of the tests decides when several keywords occur. *)
Example categorize_system_design :
  categorize_question "System Design" = "Technical".
Proof. vm_compute. reflexivity. Qed.

Example categorize_market_sizing :
  categorize_question " Market sizing " = "Estimation & Pricing".
Proof. vm_compute. reflexivity. Qed.

Example categorize_product_strategy :
  categorize_question "Product Strategy" = "Product Strategy".
Proof. vm_compute. reflexivity. Qed.

Lemma lstrip_head (s : string) :
  match PyStr.lstrip s with
  | EmptyString => True
  | String c _ => PyStr.isspace c = false
  end.
Proof.
  induction s as [|c s IH]; cbn [PyStr.lstrip]; [exact I |].
  destruct (PyStr.isspace c) eqn:E; [exact IH | exact E].
Qed.

Lemma rstrip_head (s : string) :
  match s with
  | EmptyString => True
  | String c _ => PyStr.isspace c = false
  end ->
  match PyStr.rstrip s with
  | EmptyString => True
  | String c _ => PyStr.isspace c = false
  end.
Proof.
  destruct s as [|c s]; [exact (fun H => H) |]. intros H. cbn [PyStr.rstrip].
  destruct (PyStr.rstrip s); [rewrite H |]; exact H.
Qed.

Lemma lstrip_id (s : string) :
  match s with
  | EmptyString => True
  | String c _ => PyStr.isspace c = false
  end -> PyStr.lstrip s = s.
Proof. destruct s as [|c s]; [reflexivity |]. intros H. cbn. rewrite H. reflexivity. Qed.

Lemma rstrip_cons (c : ascii) (s : string) :
  PyStr.rstrip (String c s)
  = match PyStr.rstrip s with
    | EmptyString => if PyStr.isspace c then EmptyString else String c EmptyString
    | r => String c r
    end.
Proof. reflexivity. Qed.

Lemma rstrip_idem (s : string) : PyStr.rstrip (PyStr.rstrip s) = PyStr.rstrip s.
Proof.
  induction s as [|c s IH]; [reflexivity |].
  rewrite rstrip_cons. destruct (PyStr.rstrip s) as [|c' r] eqn:E.
  - destruct (PyStr.isspace c) eqn:Ec; [reflexivity |].
    rewrite rstrip_cons. cbn [PyStr.rstrip]. rewrite Ec. reflexivity.
  - rewrite rstrip_cons, IH. reflexivity.
Qed.

Lemma strip_idem (s : string) : PyStr.strip (PyStr.strip s) = PyStr.strip s.
Proof.
  unfold PyStr.strip.
  rewrite (lstrip_id (PyStr.rstrip (PyStr.lstrip s)))
    by (apply rstrip_head, lstrip_head).
  apply rstrip_idem.
Qed.

Lemma company_values_fixed :
  Forall (fun kv => normalize_company (snd kv) = snd kv
                    /\ PyStr.truthy (snd kv) = true)
    COMPANY_NORMALIZATION.
Proof. repeat constructor; vm_compute; reflexivity. Qed.

Lemma dict_get_In (d : list (string * string)) (k v : string) :
  dict_get d k = Some v -> In (k, v) d.
Proof.
  induction d as [|[k' v'] d IH]; cbn [dict_get]; [discriminate |].
  destruct (String.eqb_spec k' k) as [->|_]; [intros [= ->]; left; reflexivity |].
  intros H. right. apply IH, H.
Qed.

(** X22: [normalize_company] is idempotent on every name that is not
    blank, and its result is then not empty: a name of the mapping goes to
    its canonical form, any other name to itself without the surrounding
    white space.  An empty name becomes "Unknown"; a name of white space
    only becomes the empty string (which a second pass would turn into
    "Unknown"). *)
Theorem normalize_company_idempotent (company_name : string) :
  (PyStr.truthy (PyStr.strip company_name) = true ->
   normalize_company (normalize_company company_name)
   = normalize_company company_name
   /\ PyStr.truthy (normalize_company company_name) = true
   /\ (dict_get COMPANY_NORMALIZATION (PyStr.strip company_name) = None ->
       normalize_company company_name = PyStr.strip company_name))
  /\ (PyStr.truthy company_name = true ->
      PyStr.truthy (PyStr.strip company_name) = false ->
      normalize_company company_name = ""
      /\ normalize_company (normalize_company company_name) = "Unknown")
  /\ normalize_company "" = "Unknown".
Proof.
  split; [| split; [| reflexivity]].
  - intros Hs.
    assert (Ht : PyStr.truthy company_name = true).
    { destruct company_name; [discriminate Hs | reflexivity]. }
    assert (Hn : normalize_company company_name
                 = match dict_get COMPANY_NORMALIZATION (PyStr.strip company_name) with
                   | Some v => v
                   | None => PyStr.strip company_name
                   end).
    { unfold normalize_company. rewrite Ht. reflexivity. }
    rewrite Hn.
    destruct (dict_get COMPANY_NORMALIZATION (PyStr.strip company_name)) as [v|] eqn:E.
    + apply dict_get_In in E.
      pose proof company_values_fixed as Hfix. rewrite List.Forall_forall in Hfix.
      destruct (Hfix _ E) as [H1 H2]. cbn [snd] in H1, H2.
      split; [exact H1 | split; [exact H2 | discriminate]].
    + split; [| split; [exact Hs | reflexivity]].
      unfold normalize_company. rewrite Hs. cbn [negb].
      rewrite strip_idem, E. reflexivity.
  - intros Ht Hs. apply truthy_false in Hs.
    unfold normalize_company. rewrite Ht. cbn [negb]. rewrite Hs. split; reflexivity.
Qed.

(** X23: the table that [main()] writes: one row for each input row of at
    least 4 columns, in the same order and no other; every row has 9
    columns, the first seven being those of the input row (empty where the
    input row is shorter), the eighth its normalized company and the ninth
    one of the seven category labels; the header gets the two new column
    names after its first seven. *)
Theorem clean_table_shape (header : list string) (rows : list (list string)) :
  let out := snd (clean_table header rows) in
  out
  = List.map
      (fun row =>
         (List.map (column row) (0 :: 1 :: 2 :: 3 :: 4 :: 5 :: 6 :: nil)%nat
          ++ normalize_company (column row 1)
             :: categorize_question (column row 3) :: nil)%list)
      (List.filter (fun row => (4 <=? length row)%nat) rows)
  /\ Forall (fun o => length o = 9%nat /\ In (List.nth 8 o "") category_labels) out
  /\ (length out <= length rows)%nat
  /\ fst (clean_table header rows)
     = (List.firstn 7 header ++ "Company_Normalized" :: "Question_Category" :: nil)%list.
Proof.
  intros out.
  assert (Hout : out
                 = List.map
                     (fun row =>
                        (List.map (column row) (0 :: 1 :: 2 :: 3 :: 4 :: 5 :: 6 :: nil)%nat
                         ++ normalize_company (column row 1)
                            :: categorize_question (column row 3) :: nil)%list)
                     (List.filter (fun row => (4 <=? length row)%nat) rows)).
  { subst out. unfold clean_table. cbn [snd].
    induction rows as [|row rows IH]; [reflexivity |].
    cbn [List.flat_map List.filter]. rewrite IH. unfold clean_row.
    destruct (Nat.ltb_spec (length row) 4) as [Hlt|Hge].
    - destruct (Nat.leb_spec 4 (length row)); [lia | reflexivity].
    - destruct (Nat.leb_spec 4 (length row)); [reflexivity | lia]. }
  split; [exact Hout |]. split; [| split; [| reflexivity]].
  - rewrite Hout. apply List.Forall_forall. intros o Ho.
    apply List.in_map_iff in Ho. destruct Ho as (row & <- & _).
    split; [reflexivity |]. cbn [List.map List.app List.nth].
    unfold categorize_question.
    repeat match goal with
           | |- context [if ?c then _ else _] => destruct c
           end; cbn; tauto.
  - rewrite Hout, List.length_map. apply List.filter_length_le.
Qed.

(** ** Database URL and health *)

Lemma prefix_split (p s : string) :
  String.prefix p s = true -> s = (p ++ string_drop (String.length p) s)%string.
Proof.
  revert s. induction p as [|c p IH]; intros s H; [reflexivity |].
  destruct s as [|c' s]; cbn [String.prefix] in H; [discriminate |].
  destruct (ascii_dec c c') as [<-|]; [| discriminate].
  change (String c p ++ string_drop (String.length (String c p)) (String c s))%string
    with (String c (p ++ string_drop (String.length p) s)).
  f_equal. apply IH, H.
Qed.

Lemma replace_first_prefix (old new s : string) :
  PyStr.truthy old = true -> String.prefix old s = true ->
  replace_first old new s = (new ++ string_drop (String.length old) s)%string.
Proof.
  intros Ho H. destruct s as [|c s].
  - destruct old; [discriminate Ho | discriminate H].
  - cbn [replace_first]. rewrite H. reflexivity.
Qed.

(** X24: the database URL that the application uses never starts with
    "postgres://": that scheme is rewritten to "postgresql://" and the rest
    of the URL is kept; any other URL is used as it is, and without a
    [DATABASE_URL] the local SQLite file is used.  [health] then reports
    "postgresql" for a URL of either PostgreSQL scheme and "sqlite" for the
    default. *)
Theorem database_uri_scheme (GEMINI_API_KEY : string) (now : datetime) :
  (forall env, PyStr.startswith "postgres://" (database_uri env) = false)
  /\ (forall rest,
        database_uri (Some ("postgres://" ++ rest)%string)
        = ("postgresql://" ++ rest)%string)
  /\ (forall url, PyStr.startswith "postgres://" url = false ->
        database_uri (Some url) = url)
  /\ database_uri None = "sqlite:///product_siksha.db"
  /\ (forall rest,
        response_database
          (health GEMINI_API_KEY (Some ("postgres://" ++ rest)%string) now)
        = "postgresql"
        /\ response_database
             (health GEMINI_API_KEY (Some ("postgresql://" ++ rest)%string) now)
           = "postgresql")
  /\ response_database (health GEMINI_API_KEY None now) = "sqlite".
Proof.
  assert (Hpg : forall rest,
            database_uri (Some ("postgres://" ++ rest)%string)
            = ("postgresql://" ++ rest)%string).
  { intros rest. unfold database_uri, get, PyStr.startswith.
    rewrite prefix_app.
    rewrite replace_first_prefix by (reflexivity || apply prefix_app).
    f_equal. }
  assert (Hql : forall rest,
            PyStr.startswith "postgres://" ("postgresql://" ++ rest)%string = false).
  { intros rest. vm_compute. reflexivity. }
  split; [| split; [exact Hpg | split; [| split; [reflexivity | split; [| reflexivity]]]]].
  - intros [url|]; [| reflexivity].
    destruct (PyStr.startswith "postgres://" url) eqn:E.
    + unfold PyStr.startswith in E. apply prefix_split in E.
      rewrite E, Hpg. apply Hql.
    + unfold database_uri, get. rewrite E. exact E.
  - intros url E. unfold database_uri, get. rewrite E. reflexivity.
  - intros rest. unfold health, response_database. cbn [payload_more]. split.
    + rewrite Hpg.
      change ("postgresql://" ++ rest)%string
        with ("postgres" ++ ("ql://" ++ rest))%string.
      rewrite contains_prefix. reflexivity.
    + unfold database_uri, get. rewrite Hql.
      change ("postgresql://" ++ rest)%string
        with ("postgres" ++ ("ql://" ++ rest))%string.
      rewrite contains_prefix. reflexivity.
Qed.

(** ** Dates in ISO form *)

Lemma digit_facts (n : Z) :
  0 <= n < 10 ->
  PyStr.isdigit (digit n) = true /\ PyStr.isspace (digit n) = false
  /\ PyStr.code (digit n) - 48 = n.
Proof.
  intros H.
  replace n with (Z.of_nat (Z.to_nat n)) by lia.
  assert (Hk : (Z.to_nat n < 10)%nat) by lia.
  revert Hk. generalize (Z.to_nat n) as k. intros k Hk.
  do 10 (destruct k as [| k]; [vm_compute; repeat split; reflexivity |]).
  lia.
Qed.

Lemma zpad2_digits (n : Z) :
  0 <= n < 100 ->
  PyStr.zpad 2 n = String (digit (n / 10)) (String (digit (n mod 10)) EmptyString)
  /\ 0 <= n / 10 < 10 /\ 0 <= n mod 10 < 10.
Proof.
  intros H. split.
  - cbv beta iota delta [PyStr.zpad String.append]. fold (digit (n mod 10)).
    rewrite (Z.mod_small (n / 10) 10)
      by (split; [apply Z.div_pos; lia | apply Z.div_lt_upper_bound; lia]).
    reflexivity.
  - split; [split; [apply Z.div_pos; lia | apply Z.div_lt_upper_bound; lia] |].
    apply Z.mod_pos_bound. lia.
Qed.

Lemma zpad4_digits (y : Z) :
  0 <= y < 10000 ->
  exists a b c e,
    PyStr.zpad 4 y
    = String (digit a) (String (digit b) (String (digit c)
        (String (digit e) EmptyString)))
    /\ 0 <= a < 10 /\ 0 <= b < 10 /\ 0 <= c < 10 /\ 0 <= e < 10
    /\ y = 1000 * a + 100 * b + 10 * c + e.
Proof.
  intros H.
  exists (y / 10 / 10 / 10), (y / 10 / 10 mod 10), (y / 10 mod 10), (y mod 10).
  pose proof (Z.div_mod y 10 ltac:(lia)).
  pose proof (Z.div_mod (y / 10) 10 ltac:(lia)).
  pose proof (Z.div_mod (y / 10 / 10) 10 ltac:(lia)).
  pose proof (Z.mod_pos_bound y 10 ltac:(lia)).
  pose proof (Z.mod_pos_bound (y / 10) 10 ltac:(lia)).
  pose proof (Z.mod_pos_bound (y / 10 / 10) 10 ltac:(lia)).
  assert (0 <= y / 10 / 10 / 10 < 10).
  { split; [repeat apply Z.div_pos; lia |].
    repeat apply Z.div_lt_upper_bound; lia. }
  split; [| repeat split; lia].
  cbv beta iota delta [PyStr.zpad String.append].
  rewrite (Z.mod_small (y / 10 / 10 / 10) 10) by assumption.
  reflexivity.
Qed.

Lemma run_year (c3 c2 c1 c0 : ascii) (s : string) (g : Re.groups)
    {R : Type} (k : string -> Re.groups -> option R) :
  PyStr.isdigit c3 = true -> PyStr.isdigit c2 = true ->
  PyStr.isdigit c1 = true -> PyStr.isdigit c0 = true ->
  Re.run re_Y (String c3 (String c2 (String c1 (String c0 s)))) g k
  = k s (("Y", String c3 (String c2 (String c1 (String c0 EmptyString)))) :: g).
Proof.
  intros H3 H2 H1 H0. unfold re_Y, Re.d09. cbn [Re.run].
  rewrite H3, H2, H1, H0. f_equal. f_equal. f_equal.
  replace (String.length (String c3 (String c2 (String c1 (String c0 s))))
           - String.length s)%nat with 4%nat by (cbn [String.length]; lia).
  cbn [String.substring]. destruct s; reflexivity.
Qed.

Lemma run_month_day (m d : Z) (g : Re.groups) :
  1 <= m <= 12 -> 1 <= d <= 31 ->
  Re.run pattern_md ("-" ++ PyStr.zpad 2 m ++ "-" ++ PyStr.zpad 2 d)%string g
    (fun rest g' => Some (g', rest))
  = Some (("d", PyStr.zpad 2 d) :: ("m", PyStr.zpad 2 m) :: g, EmptyString).
Proof.
  intros Hm Hd.
  assert (Em : m = 1 \/ m = 2 \/ m = 3 \/ m = 4 \/ m = 5 \/ m = 6 \/ m = 7
               \/ m = 8 \/ m = 9 \/ m = 10 \/ m = 11 \/ m = 12) by lia.
  assert (Ed : d = 1 \/ d = 2 \/ d = 3 \/ d = 4 \/ d = 5 \/ d = 6 \/ d = 7
               \/ d = 8 \/ d = 9 \/ d = 10 \/ d = 11 \/ d = 12 \/ d = 13
               \/ d = 14 \/ d = 15 \/ d = 16 \/ d = 17 \/ d = 18 \/ d = 19
               \/ d = 20 \/ d = 21 \/ d = 22 \/ d = 23 \/ d = 24 \/ d = 25
               \/ d = 26 \/ d = 27 \/ d = 28 \/ d = 29 \/ d = 30 \/ d = 31) by lia.
  clear Hm Hd.
  repeat destruct Em as [-> | Em]; try subst m;
    repeat destruct Ed as [-> | Ed]; try subst d;
    vm_compute; reflexivity.
Qed.

Lemma int_zpad2 (n : Z) : 0 <= n < 100 -> PyStr.int (PyStr.zpad 2 n) = n.
Proof.
  intros H. destruct (zpad2_digits n H) as (-> & Ha & Hb).
  destruct (digit_facts _ Ha) as (_ & Sa & Ca).
  destruct (digit_facts _ Hb) as (_ & Sb & Cb).
  unfold PyStr.int, PyStr.strip. cbn [PyStr.lstrip]. rewrite Sa.
  cbn [PyStr.rstrip]. rewrite Sb. cbn [PyStr.int_digits]. rewrite Ca, Cb.
  pose proof (Z.div_mod n 10 ltac:(lia)). lia.
Qed.

Lemma strptime_iso_date (y m d : Z) :
  valid_date y m d = true ->
  strptime (iso_date y m d) F_Ymd = Some (mkdatetime y m d 0 0 0 0).
Proof.
  intros Hv.
  assert (Hr : 1 <= y <= 9999 /\ 1 <= m <= 12 /\ 1 <= d <= 31).
  { unfold valid_date in Hv. rewrite !andb_true_iff, !Z.leb_le in Hv.
    pose proof (days_in_month_le y m). lia. }
  destruct Hr as (Hy & Hm & Hd).
  destruct (zpad4_digits y ltac:(lia)) as (a & b & c & e & Ey & Ha & Hb & Hc & He & Hsum).
  destruct (digit_facts a Ha) as (Da & Sa & Ca).
  destruct (digit_facts b Hb) as (Db & Sb & Cb).
  destruct (digit_facts c Hc) as (Dc & Sc & Cc).
  destruct (digit_facts e He) as (De & Se & Ce).
  unfold strptime, Re.rmatch, iso_date. rewrite Ey.
  change (pattern F_Ymd) with (Re.Seq re_Y pattern_md).
  cbn [Re.run].
  change (String (digit a) (String (digit b) (String (digit c) (String (digit e) "")))
          ++ "-" ++ PyStr.zpad 2 m ++ "-" ++ PyStr.zpad 2 d)%string
    with (String (digit a) (String (digit b) (String (digit c) (String (digit e)
            ("-" ++ PyStr.zpad 2 m ++ "-" ++ PyStr.zpad 2 d)%string)))).
  rewrite (run_year _ _ _ _ _ _ _ Da Db Dc De).
  rewrite (run_month_day m d _ Hm Hd).
  cbn [PyStr.truthy]. unfold field. cbn [Re.group String.eqb Ascii.eqb Bool.eqb].
  rewrite !int_zpad2 by lia.
  assert (Eyear : PyStr.int (String (digit a) (String (digit b) (String (digit c)
                               (String (digit e) EmptyString)))) = y).
  { unfold PyStr.int, PyStr.strip. cbn [PyStr.lstrip]. rewrite Sa.
    cbn [PyStr.rstrip]. rewrite Se. cbn [PyStr.int_digits].
    rewrite Ca, Cb, Cc, Ce. lia. }
  rewrite Eyear, Hv. reflexivity.
Qed.

Lemma strip_nonspace (s : string) :
  string_forallb (fun c => negb (PyStr.isspace c)) s = true -> PyStr.strip s = s.
Proof.
  intros H. unfold PyStr.strip.
  assert (Hr : forall t, string_forallb (fun c => negb (PyStr.isspace c)) t = true ->
                         PyStr.rstrip t = t).
  { induction t as [|c t IH]; [reflexivity |]. cbn [string_forallb].
    intros Ht. apply andb_true_iff in Ht. destruct Ht as [Hc Ht].
    apply negb_true_iff in Hc. rewrite rstrip_cons, (IH Ht).
    destruct t; [rewrite Hc |]; reflexivity. }
  rewrite lstrip_id; [apply Hr, H |].
  destruct s as [|c s]; [exact I |].
  cbn [string_forallb] in H. apply andb_true_iff in H. destruct H as [H _].
  apply negb_true_iff, H.
Qed.

Lemma month_first_fails (a b c : Z) (rest : string) (f : format) :
  0 <= a < 10 -> 0 <= b < 10 -> 0 <= c < 10 -> f <> F_Ymd ->
  Re.rmatch (pattern f)
    (String (digit a) (String (digit b) (String (digit c) rest))) = None.
Proof.
  intros Ha Hb Hc Hf.
  assert (Ea : a = 0 \/ a = 1 \/ a = 2 \/ a = 3 \/ a = 4 \/ a = 5 \/ a = 6
               \/ a = 7 \/ a = 8 \/ a = 9) by lia.
  assert (Eb : b = 0 \/ b = 1 \/ b = 2 \/ b = 3 \/ b = 4 \/ b = 5 \/ b = 6
               \/ b = 7 \/ b = 8 \/ b = 9) by lia.
  assert (Ec : c = 0 \/ c = 1 \/ c = 2 \/ c = 3 \/ c = 4 \/ c = 5 \/ c = 6
               \/ c = 7 \/ c = 8 \/ c = 9) by lia.
  clear Ha Hb Hc.
  destruct f; [| | congruence];
    repeat destruct Ea as [-> | Ea]; try subst a;
    repeat destruct Eb as [-> | Eb]; try subst b;
    repeat destruct Ec as [-> | Ec]; try subst c;
    vm_compute; reflexivity.
Qed.

Lemma iso_date_digits (y m d : Z) :
  valid_date y m d = true ->
  exists a b c rest,
    iso_date y m d = String (digit a) (String (digit b) (String (digit c) rest))
    /\ 0 <= a < 10 /\ 0 <= b < 10 /\ 0 <= c < 10
    /\ string_forallb (fun x => negb (PyStr.isspace x)) (iso_date y m d) = true.
Proof.
  intros Hv.
  assert (Hr : 1 <= y <= 9999 /\ 1 <= m <= 12 /\ 1 <= d <= 31).
  { unfold valid_date in Hv. rewrite !andb_true_iff, !Z.leb_le in Hv.
    pose proof (days_in_month_le y m). lia. }
  destruct Hr as (Hy & Hm & Hd).
  destruct (zpad4_digits y ltac:(lia)) as (a & b & c & e & Ey & Ha & Hb & Hc & He & _).
  destruct (zpad2_digits m ltac:(lia)) as (Em & Hm1 & Hm2).
  destruct (zpad2_digits d ltac:(lia)) as (Ed & Hd1 & Hd2).
  assert (Eiso : iso_date y m d
                 = String (digit a) (String (digit b) (String (digit c)
                     (String (digit e)
                        (String "-" (String (digit (m / 10)) (String (digit (m mod 10))
                           (String "-" (String (digit (d / 10))
                              (String (digit (d mod 10)) EmptyString)))))))))).
  { unfold iso_date. rewrite Ey, Em, Ed. reflexivity. }
  exists a, b, c. eexists. split; [exact Eiso |].
  repeat (split; [assumption |]).
  rewrite Eiso. cbn [string_forallb].
  rewrite (proj1 (proj2 (digit_facts a Ha))), (proj1 (proj2 (digit_facts b Hb))),
    (proj1 (proj2 (digit_facts c Hc))), (proj1 (proj2 (digit_facts e He))),
    (proj1 (proj2 (digit_facts _ Hm1))), (proj1 (proj2 (digit_facts _ Hm2))),
    (proj1 (proj2 (digit_facts _ Hd1))), (proj1 (proj2 (digit_facts _ Hd2))).
  reflexivity.
Qed.

Lemma strptime_iso_other_formats (y m d : Z) (f : format) :
  valid_date y m d = true -> f <> F_Ymd -> strptime (iso_date y m d) f = None.
Proof.
  intros Hv Hf.
  destruct (iso_date_digits y m d Hv) as (a & b & c & rest & E & Ha & Hb & Hc & _).
  unfold strptime. rewrite E, (month_first_fails a b c rest f Ha Hb Hc Hf).
  reflexivity.
Qed.

Lemma parse_timestamp_iso_date (y m d : Z) :
  valid_date y m d = true ->
  parse_timestamp (Some (iso_date y m d)) = Some (mkdatetime y m d 0 0 0 0).
Proof.
  intros Hv.
  destruct (iso_date_digits y m d Hv) as (a & b & c & rest & E & _ & _ & _ & Hns).
  unfold parse_timestamp. rewrite (strip_nonspace _ Hns).
  rewrite (strptime_iso_other_formats y m d F_mdY_HMS Hv) by discriminate.
  rewrite (strptime_iso_other_formats y m d F_mdY Hv) by discriminate.
  rewrite (strptime_iso_date y m d Hv).
  rewrite E. reflexivity.
Qed.

(** ** The date bounds of a request *)

Lemma strptime_no_fraction (s : string) (f : format) (d : datetime) :
  strptime s f = Some d -> microsecond d = 0.
Proof.
  unfold strptime.
  destruct (Re.rmatch (pattern f) s) as [[g rest]|]; [| discriminate].
  destruct (PyStr.truthy rest); [discriminate |].
  match goal with |- context [if ?c then _ else _] => destruct c end;
    [| discriminate].
  intros [= <-]. reflexivity.
Qed.

Lemma iso_date_truthy (y m d : Z) : PyStr.truthy (iso_date y m d) = true.
Proof.
  unfold iso_date. pose proof (zpad_length 4 y) as Hl.
  destruct (PyStr.zpad 4 y); [discriminate | reflexivity].
Qed.

Lemma parse_from_date_iso_date (y m d : Z) :
  valid_date y m d = true ->
  parse_from_date (iso_date y m d) = Some (mkdatetime y m d 0 0 0 0).
Proof.
  intros Hv. unfold parse_from_date.
  rewrite iso_date_truthy. apply strptime_iso_date, Hv.
Qed.

Lemma parse_to_date_iso_date (y m d : Z) :
  valid_date y m d = true ->
  parse_to_date (iso_date y m d) = Some (mkdatetime y m d 23 59 59 0).
Proof.
  intros Hv. unfold parse_to_date.
  rewrite iso_date_truthy, (strptime_iso_date y m d Hv). reflexivity.
Qed.

Lemma date_keep_before_from (from_date to_date : option datetime) (q : Question)
    (d f : datetime) :
  parse_timestamp (q_timestamp q) = Some d -> from_date = Some f ->
  dt_lt d f = true -> date_keep from_date to_date q = false.
Proof.
  intros Hd -> Hlt. unfold date_keep. cbn [is_some orb].
  rewrite Hd, Hlt. reflexivity.
Qed.

Lemma date_keep_after_to (from_date to_date : option datetime) (q : Question)
    (d t : datetime) :
  parse_timestamp (q_timestamp q) = Some d -> to_date = Some t ->
  dt_lt t d = true -> date_keep from_date to_date q = false.
Proof.
  intros Hd -> Hlt. unfold date_keep.
  replace (is_some from_date || is_some (Some t)) with true
    by (destruct from_date; reflexivity).
  rewrite Hd, Hlt. destruct from_date as [f|]; [| reflexivity].
  destruct (dt_lt d f); reflexivity.
Qed.

(** C2: the date bounds are the parsed [from_date] and the parsed [to_date]
    moved to 23:59:59 of its day: a parameter that is a date of the
    calendar in the form YYYY-MM-DD sets the bound to midnight of that day
    for [from_date] and to 23:59:59 of that day for [to_date], and one that
    [strptime] refuses sets no bound.  The response holds exactly the
    selected questions that pass the date test.  A question passes it when
    no bound is set, or when its timestamp parses to a time that is neither
    strictly before [from_date] nor strictly after the extended [to_date]:
    a time strictly before [from_date] or strictly after the extended
    [to_date] is dropped, with a bound set a timestamp that does not parse
    is dropped, and a time equal to a bound is kept. *)
Theorem date_filter_inclusive (db : Db) (user_id : Z) (category : string)
    (args : question_args) :
  let from_date := parse_from_date (get (arg_from_date args) "") in
  let to_date := parse_to_date (get (arg_to_date args) "") in
  (from_date
   = if PyStr.truthy (get (arg_from_date args) "")
     then strptime (get (arg_from_date args) "") F_Ymd else None)
  /\ (to_date
      = if PyStr.truthy (get (arg_to_date args) "")
        then match strptime (get (arg_to_date args) "") F_Ymd with
             | Some d => Some (mkdatetime (year d) (month d) (day d) 23 59 59 0)
             | None => None
             end
        else None)
  /\ (forall y m d, valid_date y m d = true ->
        (get (arg_from_date args) "" = iso_date y m d ->
         from_date = Some (mkdatetime y m d 0 0 0 0))
        /\ (get (arg_to_date args) "" = iso_date y m d ->
            to_date = Some (mkdatetime y m d 23 59 59 0)))
  /\ Permutation (response_questions (get_questions db user_id category args))
       (List.map row_dict
          (List.filter (fun r => date_keep from_date to_date (fst r))
             (select_questions db user_id (category_name_of category)
                (get (arg_company args) ""))))
  /\ (forall q,
        date_keep from_date to_date q = true
        <-> (from_date = None /\ to_date = None)
            \/ exists d, parse_timestamp (q_timestamp q) = Some d
                         /\ (forall f, from_date = Some f -> dt_lt d f = false)
                         /\ (forall t, to_date = Some t -> dt_lt t d = false))
  /\ (forall q d f, parse_timestamp (q_timestamp q) = Some d ->
        from_date = Some f -> dt_lt d f = true ->
        date_keep from_date to_date q = false)
  /\ (forall q d t, parse_timestamp (q_timestamp q) = Some d ->
        to_date = Some t -> dt_lt t d = true ->
        date_keep from_date to_date q = false)
  /\ (forall q, (is_some from_date || is_some to_date = true) ->
        parse_timestamp (q_timestamp q) = None ->
        date_keep from_date to_date q = false)
  /\ (forall q d, parse_timestamp (q_timestamp q) = Some d ->
        (from_date = Some d \/ from_date = None) ->
        (to_date = Some d \/ to_date = None) ->
        date_keep from_date to_date q = true).
Proof.
  intros from_date to_date.
  split; [reflexivity |].
  split.
  { subst to_date. unfold parse_to_date.
    destruct (PyStr.truthy (get (arg_to_date args) "")); [| reflexivity].
    destruct (strptime (get (arg_to_date args) "") F_Ymd) as [d|] eqn:E;
      [| reflexivity].
    unfold end_of_day. rewrite (strptime_no_fraction _ _ _ E). reflexivity. }
  split.
  { intros y m d Hv. subst from_date to_date.
    split; intros ->;
      [apply parse_from_date_iso_date | apply parse_to_date_iso_date]; exact Hv. }
  split; [apply get_questions_perm |].
  split; [apply date_keep_iff |].
  split; [intros q d f; apply date_keep_before_from |].
  split; [intros q d t; apply date_keep_after_to |].
  split.
  - intros q Hact Hnone. unfold date_keep. rewrite Hact, Hnone. reflexivity.
  - intros q d Hd Hf Ht. apply date_keep_iff.
    right. exists d. split; [exact Hd |].
    pose proof (dt_le_refl d) as Hr. unfold dt_le in Hr.
    apply negb_true_iff in Hr.
    split.
    + intros f Ef. destruct Hf as [Hf|Hf]; rewrite Hf in Ef; [| discriminate].
      injection Ef as <-. exact Hr.
    + intros t Et. destruct Ht as [Ht|Ht]; rewrite Ht in Et; [| discriminate].
      injection Et as <-. exact Hr.
Qed.

(** X25: a date of the calendar written as YYYY-MM-DD with zeros is
    understood everywhere a date is read: [parse_timestamp] gives midnight
    of that day (through its third format, the first two failing), as
    [from_date] it gives midnight of that day and as [to_date] 23:59:59 of
    that day; so a question stamped with a day lies within the range that
    starts and ends on that day. *)
Theorem iso_dates_are_understood (y m d : Z) :
  valid_date y m d = true ->
  parse_timestamp (Some (iso_date y m d)) = Some (mkdatetime y m d 0 0 0 0)
  /\ strptime (iso_date y m d) F_mdY_HMS = None
  /\ strptime (iso_date y m d) F_mdY = None
  /\ parse_from_date (iso_date y m d) = Some (mkdatetime y m d 0 0 0 0)
  /\ parse_to_date (iso_date y m d) = Some (mkdatetime y m d 23 59 59 0)
  /\ forall q,
       q_timestamp q = Some (iso_date y m d) ->
       date_keep (parse_from_date (iso_date y m d))
         (parse_to_date (iso_date y m d)) q = true.
Proof.
  intros Hv.
  pose proof (strptime_iso_date y m d Hv) as Hs.
  pose proof (parse_timestamp_iso_date y m d Hv) as Hp.
  assert (Ht : PyStr.truthy (iso_date y m d) = true).
  { unfold iso_date. pose proof (zpad_length 4 y) as Hl.
    destruct (PyStr.zpad 4 y); [discriminate | reflexivity]. }
  assert (Hf : parse_from_date (iso_date y m d) = Some (mkdatetime y m d 0 0 0 0))
    by (unfold parse_from_date; rewrite Ht; exact Hs).
  assert (Hto : parse_to_date (iso_date y m d) = Some (mkdatetime y m d 23 59 59 0))
    by (unfold parse_to_date; rewrite Ht, Hs; reflexivity).
  split; [exact Hp |].
  split; [apply strptime_iso_other_formats; [exact Hv | discriminate] |].
  split; [apply strptime_iso_other_formats; [exact Hv | discriminate] |].
  split; [exact Hf |]. split; [exact Hto |].
  intros q Hq. rewrite Hf, Hto. unfold date_keep. cbn [is_some orb].
  rewrite Hq, Hp.
  rewrite (proj1 (negb_true_iff _) (dt_le_refl (mkdatetime y m d 0 0 0 0))).
  unfold dt_lt, dt_compare, dt_fields.
  cbn [lex_compare year month day hour minute second microsecond].
  rewrite !Z.compare_refl. reflexivity.
Qed.

(** ** Instances of the further properties *)

Lemma scenario_users_unique :
  List.NoDup (List.map u_email (users scenario_users_db))
  /\ List.NoDup (List.map u_id (users scenario_users_db)).
Proof. split; repeat constructor; intros []. Qed.

Lemma signup_keeps_users_unique_witness :
  List.NoDup
    (List.map u_email
       (users (snd (signup "secret" (fun s => s) toy_encode scenario_users_db
                      (mkCredentials (Some "new@example.com") (Some "secret"))
                      datetime_min 0 CommitOk)))).
Proof.
  apply (signup_keeps_users_unique "secret" (fun s => s) toy_encode
           scenario_users_db
           (mkCredentials (Some "new@example.com") (Some "secret"))
           datetime_min 0 CommitOk);
    apply scenario_users_unique.
Defined.

Lemma signup_duplicate_rejected_witness :
  let r1 := signup "secret" (fun s => s) toy_encode scenario_db
              (mkCredentials (Some "pm@example.com") (Some "secret"))
              datetime_min 0 CommitOk in
  status (fst (signup "secret" (fun s => s) toy_encode (snd r1)
                 (mkCredentials (Some "  PM@Example.COM ") (Some "another"))
                 datetime_min 9 CommitOk)) = 400.
Proof.
  intros r1.
  apply (signup_duplicate_rejected "secret" (fun s => s) toy_encode scenario_db
           (mkCredentials (Some "pm@example.com") (Some "secret"))
           (mkCredentials (Some "  PM@Example.COM ") (Some "another"))
           datetime_min datetime_min 0 9 CommitOk CommitOk);
    reflexivity.
Defined.

Lemma change_password_then_login_witness :
  status
    (login "secret" (fun s => s) toy_encode
       (snd (change_password (fun s => s) scenario_users_db
               (mkPasswordChange (Some "PM@example.com") (Some "secret")
                  (Some "better-secret")) CommitOk))
       (mkCredentials (Some "PM@example.com") (Some "better-secret")) 0) = 200.
Proof.
  apply (change_password_then_login "secret" (fun s => s) toy_encode
           scenario_users_db
           (mkPasswordChange (Some "PM@example.com") (Some "secret")
              (Some "better-secret")) 0).
  reflexivity.
Defined.

Lemma change_password_retires_old_witness :
  login "secret" (fun s => s) toy_encode
    (snd (change_password (fun s => s) scenario_users_db
            (mkPasswordChange (Some "PM@example.com") (Some "secret")
               (Some "better-secret")) CommitOk))
    (mkCredentials (Some "PM@example.com") (Some "secret")) 0
  = mkResponse 401 (BError "Invalid credentials").
Proof.
  apply (change_password_retires_old "secret" (fun s => s) toy_encode
           scenario_users_db
           (mkPasswordChange (Some "PM@example.com") (Some "secret")
              (Some "better-secret")) 0).
  - apply scenario_users_unique.
  - discriminate.
  - reflexivity.
Defined.

Lemma login_token_opens_routes_witness :
  route_get_questions "secret" toy_decode scenario_db_done
    (Some ("Bearer " ++ issue_token "secret" toy_encode 1 "pm@example.com" 0)%string)
    5000000 "product-design" no_args
  = get_questions scenario_db_done 1 "product-design" no_args.
Proof.
  apply (login_token_opens_routes "secret" (fun s => s) toy_encode toy_decode
           scenario_users_db scenario_db_done
           (mkCredentials (Some "pm@example.com") (Some "secret")) 0 5000000
           (issue_token "secret" toy_encode 1 "pm@example.com" 0)
           1 "pm@example.com" None "product-design" no_args
           toy_contract toy_token_text).
  - reflexivity.
  - vm_compute. reflexivity.
Defined.

Lemma toggle_invisible_to_other_users_witness :
  get_questions
    (snd (toggle_question_completion scenario_db 7 1 scenario_now CommitOk))
    8 "product-design" no_args
  = get_questions scenario_db 8 "product-design" no_args.
Proof.
  apply (toggle_invisible_to_other_users scenario_db 7 1 scenario_now CommitOk 8).
  discriminate.
Defined.

Lemma scenario_ids_unique : question_ids_unique scenario_db.
Proof.
  unfold question_ids_unique. cbn.
  constructor; [intros [H | []]; discriminate H |].
  constructor; [intros [] | constructor].
Qed.

Lemma toggled_question_last_completed_witness :
  exists b x,
    response_questions
      (get_questions
         (snd (toggle_question_completion scenario_db_done 7 2 scenario_later
                 CommitOk))
         7 "product-design" no_args)
    = b :: x :: nil
    /\ qd_id b = 1 /\ qd_is_completed b = true
    /\ qd_id x = 2 /\ qd_is_completed x = true
    /\ qd_completed_at x = Some (isoformat scenario_later).
Proof.
  destruct (toggled_question_last_completed scenario_db_done 7 2 scenario_later
              "product-design" no_args)
    as (before & x & after & H1 & H2 & H3 & H4 & H5 & _).
  - exact scenario_ids_unique.
  - exact scenario_db_done_valid.
  - reflexivity.
  - reflexivity.
  - intros q p t _ Hk Ht. cbn [scenario_db_done user_progress] in Hk.
    apply lookup_singleton_Some in Hk. destruct Hk as [_ <-].
    cbn in Ht. injection Ht as <-. reflexivity.
  - exists (scenario_question 2 "3/2/2023").
    split; [right; left; reflexivity |]. split; [reflexivity |].
    split; [split; [reflexivity | left; reflexivity] | vm_compute; reflexivity].
  - assert (Hids :
      List.map qd_id
        (response_questions
           (get_questions
              (snd (toggle_question_completion scenario_db_done 7 2 scenario_later
                      CommitOk))
              7 "product-design" no_args))
      = 1 :: 2 :: nil) by (vm_compute; reflexivity).
    rewrite H1 in Hids |- *.
    destruct before as [| b [| b' before]].
    + cbn in Hids. rewrite H2 in Hids. discriminate Hids.
    + cbn in Hids. injection Hids as Hb _ Ha.
      destruct after; [| discriminate Ha].
      exists b, x. inversion H5 as [| ? ? Hc _]; subst.
      repeat split; assumption.
    + cbn in Hids. injection Hids as _ _ Hrest.
      destruct before; discriminate Hrest.
Defined.

Lemma wider_dates_keep_questions_witness :
  In (make_q_dict (scenario_question 2 "3/2/2023") None)
    (response_questions
       (get_questions scenario_db 7 "product-design"
          (mkArgs None (Some "2023-03-01") None))).
Proof.
  apply (wider_dates_keep_questions scenario_db 7 "product-design" None
           (Some "2023-03-02") (Some "2023-03-02") (Some "2023-03-01") None).
  - right. exists (mkdatetime 2023 3 1 0 0 0 0), (mkdatetime 2023 3 2 0 0 0 0).
    repeat split; vm_compute; reflexivity.
  - left. reflexivity.
  - vm_compute. left. reflexivity.
Defined.

Lemma inverted_dates_give_nothing_witness :
  get_questions scenario_db 7 "product-design"
    (mkArgs None (Some "2023-03-02") (Some "2023-03-01"))
  = mkResponse 200 (BQuestions "Product Design" 0 nil).
Proof.
  apply (inverted_dates_give_nothing scenario_db 7 "product-design" None
           (Some "2023-03-02") (Some "2023-03-01")
           (mkdatetime 2023 3 2 0 0 0 0) (mkdatetime 2023 3 1 23 59 59 0));
    vm_compute; reflexivity.
Defined.

Lemma company_count_matches_question_list_witness :
  Z.of_nat
    (length (response_questions
               (get_questions scenario_db 7 "product-design"
                  (mkArgs (Some "Acme") None None)))) = 2.
Proof.
  apply (company_count_matches_question_list scenario_db 7 "product-design"
           None None (mk_company_entry "Acme" 2)).
  - reflexivity.
  - vm_compute. left. reflexivity.
Defined.

Lemma iso_dates_are_understood_witness :
  parse_timestamp (Some (iso_date 2024 2 29)) = Some (mkdatetime 2024 2 29 0 0 0 0)
  /\ parse_to_date (iso_date 2024 2 29) = Some (mkdatetime 2024 2 29 23 59 59 0).
Proof.
  destruct (iso_dates_are_understood 2024 2 29) as (H1 & _ & _ & _ & H5 & _).
  - reflexivity.
  - split; assumption.
Defined.

Lemma get_ai_feedback_service_call_witness :
  get_ai_feedback "key" (fun _ => None)
    (fun _ _ => inr "No module named 'google'")
    (mkFeedbackRequest (Some "Design a product") None None None)
  = (service_error "No module named 'google'", nil)
  /\ length
       (snd (get_ai_feedback "key" (fun _ => None)
               (fun _ _ => inl (fun _ => inl "Start with the users."))
               (mkFeedbackRequest (Some "Design a product") None None None)))
     = 1%nat.
Proof.
  split.
  - destruct (get_ai_feedback_service_call "key" (fun _ => None)
                (fun _ _ => inr "No module named 'google'")
                (mkFeedbackRequest (Some "Design a product") None None None))
      as (_ & _ & H & _).
    apply H; reflexivity.
  - destruct (get_ai_feedback_service_call "key" (fun _ => None)
                (fun _ _ => inl (fun _ => inl "Start with the users."))
                (mkFeedbackRequest (Some "Design a product") None None None))
      as (_ & _ & _ & H).
    destruct (H eq_refl eq_refl _ eq_refl) as (context & blobs & Hs & _).
    rewrite Hs. reflexivity.
Defined.
